(** * todo-calendar: the calendar API and the week view, embedded and verified

    The program is one Python file, [todo_calendar_gui.py]: a class
    [CalendarAPI] whose methods are called from the JavaScript of an HTML page
    kept in the same file.  This development embeds both halves:

    - Python text is a sequence of code points, JSON-like data is [value],
      a [dict] is a [gmap string value], exceptions are an error monad;
    - the regular expressions of [parse_time] are run by a backtracking
      matcher with the priorities of Python's [re];
    - the remote calendar and the Things application are a [world] that
      records every call made to it and can be told to fail;
    - the page's script is a set of functions over time values (milliseconds)
      and over a record of the form fields it reads and writes.

    What lies outside the repository ([dateparser.parse],
    [datetime.fromisoformat], the calendar service's query, JavaScript's
    [new Date(v)] and the local time zone) is a parameter of the definitions
    that use it. *)

From Stdlib Require Import ZArith Lia Ascii String Sorted.
From stdpp Require Import gmap strings list fin_maps.

Set Warnings "-register-all".

Open Scope Z_scope.

(** ** Text *)

(** A Python [str] (and a JavaScript string): its code points. *)
Definition pystr := list N.

(** An ASCII literal of the source as text. *)
Definition str (s : string) : pystr := (λ a, N_of_ascii a) <$> list_ascii_of_string s.

Module Text.

(** [str.isspace] for one character, which is also the class [\s] of [re]
    on [str] patterns (Unicode 14, the tables of CPython 3.11). *)
Definition is_space (c : N) : bool :=
  ((9 <=? c) && (c <=? 13) || (28 <=? c) && (c <=? 32)
   || (c =? 133) || (c =? 160) || (c =? 5760)
   || (8192 <=? c) && (c <=? 8202)
   || (c =? 8232) || (c =? 8233) || (c =? 8239) || (c =? 8287) || (c =? 12288))%N.

(** The code points of the digit zero of every decimal script (category Nd):
    each is followed by its digits one to nine. *)
Definition digit_zeros : list N :=
  [48; 1632; 1776; 1984; 2406; 2534; 2662; 2790; 2918; 3046; 3174; 3302; 3430;
   3558; 3664; 3792; 3872; 4160; 4240; 6112; 6160; 6470; 6608; 6784; 6800; 6992;
   7088; 7232; 7248; 42528; 43216; 43264; 43472; 43504; 43600; 44016; 65296;
   66720; 68912; 69734; 69872; 69942; 70096; 70384; 70736; 70864; 71248; 71360;
   71472; 71904; 72016; 72784; 73040; 73120; 92768; 92864; 93008; 120782;
   120792; 120802; 120812; 120822; 123200; 123632; 125264; 130032]%N.

(** The value of a decimal digit, [None] for any other character. *)
Definition digit_value (c : N) : option Z :=
  (λ z, Z.of_N (c - z)) <$> List.find (λ z, (z <=? c) && (c <? z + 10))%N digit_zeros.

(** The class [\d] of [re] on [str] patterns. *)
Definition is_digit (c : N) : bool := bool_decide (is_Some (digit_value c)).

(** The longest suffix whose first character fails [p]. *)
Fixpoint drop_while (p : N → bool) (s : pystr) : pystr :=
  match s with
  | c :: s' => if p c then drop_while p s' else s
  | [] => []
  end.

(** [s.lstrip()] and [s.strip()] without argument. *)
Definition lstrip (s : pystr) : pystr := drop_while is_space s.
Definition strip (s : pystr) : pystr := reverse (lstrip (reverse (lstrip s))).

(** [s.lstrip('0')]. *)
Definition lstrip_zero (s : pystr) : pystr := drop_while (λ c, (c =? 48)%N) s.

(** [s.replace(old, new)] for a one-character [old]. *)
Definition replace_char (old : N) (new : pystr) (s : pystr) : pystr :=
  concat ((λ c, if (c =? old)%N then new else [c]) <$> s).

(** [c in s] for a one-character [c]. *)
Definition contains_char (c : N) (s : pystr) : bool := existsb (N.eqb c) s.

(** JavaScript's [String.prototype.trim]: white space and line terminators
    of ECMAScript, which are not those of Python. *)
Definition js_is_space (c : N) : bool :=
  ((9 <=? c) && (c <=? 13) || (c =? 32) || (c =? 160) || (c =? 5760)
   || (8192 <=? c) && (c <=? 8202)
   || (c =? 8232) || (c =? 8233) || (c =? 8239) || (c =? 8287) || (c =? 12288)
   || (c =? 65279))%N.
Definition js_trim (s : pystr) : pystr :=
  reverse (drop_while js_is_space (reverse (drop_while js_is_space s))).

(** The decimal digits of a natural number, most significant first, and
    the number padded with zeros to a width (the [%02d] and [%04d] of
    [strftime] and [isoformat]). *)
Fixpoint digits_fuel (fuel : nat) (n : Z) (acc : pystr) : pystr :=
  match fuel with
  | O => acc
  | S fuel' =>
      let acc' := Z.to_N (48 + n mod 10) :: acc in
      if n <? 10 then acc' else digits_fuel fuel' (n / 10) acc'
  end.
Definition decimal (n : Z) : pystr := digits_fuel (S (Z.to_nat (Z.log2 n))) n [].
Definition zero_pad (width : nat) (s : pystr) : pystr :=
  replicate (width - length s) 48%N ++ s.
Definition padded (width : nat) (n : Z) : pystr := zero_pad width (decimal n).

End Text.

(** ** Values, dictionaries and exceptions *)

(** What crosses the bridge between Python and the page, and what the
    calendar service stores: JSON-like data.  [VNone] is Python's [None] and
    JavaScript's [null]; the numbers that cross are whole numbers. *)
Inductive value :=
| VNone
| VBool (b : bool)
| VInt (z : Z)
| VStr (s : pystr)
| VList (l : list value)
| VDict (d : gmap string value).

(** A Python [dict] with [str] keys, also read as a JavaScript object. *)
Abbreviation dict := (gmap string value).

(** Truth of a value in a Python condition ([if x], [not x]). *)
Definition truthy (v : value) : bool :=
  match v with
  | VNone => false
  | VBool b => b
  | VInt z => negb (z =? 0)
  | VStr s => negb (bool_decide (s = []))
  | VList l => negb (bool_decide (length l = 0%nat))
  | VDict d => negb (bool_decide (size d = 0%nat))
  end.

(** Truth of a property read in JavaScript: an absent key reads as
    [undefined].  An empty array or object is true there, unlike in Python. *)
Definition js_truthy (v : option value) : bool :=
  match v with
  | None | Some VNone => false
  | Some (VBool b) => b
  | Some (VInt z) => negb (z =? 0)
  | Some (VStr s) => negb (bool_decide (s = []))
  | Some (VList _) | Some (VDict _) => true
  end.

Inductive exn_kind :=
| ValueError | TypeError | KeyError | AttributeError | OverflowError
| HttpError | ProcessError.

(** A raised exception: its class and [str(e)]. *)
Record exn := Exn { exn_kind_of : exn_kind; exn_message : pystr }.

(** The outcome of code that may raise. *)
Inductive result (A : Type) :=
| Ok (a : A)
| Raise (e : exn).
Arguments Ok {A} a.
Arguments Raise {A} e.

(** Sequencing: the first exception raised ends the computation.  With
    these instances [x ← m; k] is stdpp's notation for it. *)
#[export] Instance result_bind : MBind result := λ A B f m,
  match m with
  | Ok a => f a
  | Raise e => Raise e
  end.
#[export] Instance result_ret : MRet result := λ A a, Ok a.

(** ** Regular expressions: a backtracking matcher

    The fragment of [re] that the source uses: character classes, sequence,
    ordered alternative, greedy option, greedy and lazy repetition of a class,
    capturing groups and [$].  The matcher explores choices in the order
    Python's does, so the first match found is the match [re.search]
    returns.  [re.IGNORECASE] is a property of the classes. *)
Module Re.

Inductive regex :=
| Chr (p : N → bool)
| Seq (r1 r2 : regex)
| Alt (r1 r2 : regex)
| Opt (r : regex)
| Rep (greedy : bool) (lo : nat) (hi : option nat) (p : N → bool)
| Group (i : nat) (r : regex)
| Eos.

(** The text captured by each group. *)
Abbreviation groups := (gmap nat pystr).

Section Matcher.
Context {A : Type}.

(** [lo] mandatory characters of the class. *)
Fixpoint rep_min (p : N → bool) (lo : nat) (s : pystr)
    (k : pystr → option A) : option A :=
  match lo with
  | O => k s
  | S lo' =>
      match s with
      | c :: s' => if p c then rep_min p lo' s' k else None
      | [] => None
      end
  end.

Definition can_take (more : option nat) : bool :=
  match more with Some O => false | _ => true end.

(** Greedy: take as many as allowed, give back one at a time. *)
Fixpoint rep_greedy (p : N → bool) (more : option nat) (s : pystr)
    (k : pystr → option A) : option A :=
  match s with
  | c :: s' =>
      if can_take more && p c then
        match rep_greedy p (Nat.pred <$> more) s' k with
        | Some a => Some a
        | None => k s
        end
      else k s
  | [] => k s
  end.

(** Lazy: take as few as possible, one more after each failure. *)
Fixpoint rep_lazy (p : N → bool) (more : option nat) (s : pystr)
    (k : pystr → option A) : option A :=
  match k s with
  | Some a => Some a
  | None =>
      match s with
      | c :: s' =>
          if can_take more && p c then rep_lazy p (Nat.pred <$> more) s' k
          else None
      | [] => None
      end
  end.

(** [$] without [re.MULTILINE]: the end of the text, or just before a line
    feed that ends it. *)
Definition at_end (s : pystr) : bool :=
  match s with
  | [] | [10%N] => true
  | _ => false
  end.

(** Match [r] at the head of [s], then continue with [k] on what is left. *)
Fixpoint run (r : regex) (s : pystr) (g : groups)
    (k : pystr → groups → option A) : option A :=
  match r with
  | Chr p =>
      match s with
      | c :: s' => if p c then k s' g else None
      | [] => None
      end
  | Seq r1 r2 => run r1 s g (λ s' g', run r2 s' g' k)
  | Alt r1 r2 =>
      match run r1 s g k with
      | Some a => Some a
      | None => run r2 s g k
      end
  | Opt r1 =>
      match run r1 s g k with
      | Some a => Some a
      | None => k s g
      end
  | Rep greedy lo hi p =>
      rep_min p lo s
        (λ s1, (if greedy then rep_greedy else rep_lazy) p
                 ((λ h, h - lo)%nat <$> hi) s1 (λ s2, k s2 g))
  | Group i r1 =>
      run r1 s g (λ s' g', k s' (<[i := take (length s - length s') s]> g'))
  | Eos => if at_end s then k s g else None
  end.

End Matcher.

(** [re.match]: the groups of a match that starts at the head of [s]. *)
Definition match_at (r : regex) (s : pystr) : option groups :=
  run r s ∅ (λ _ g, Some g).

(** [re.search]: the leftmost start at which [r] matches. *)
Fixpoint search (r : regex) (s : pystr) : option groups :=
  match match_at r s with
  | Some g => Some g
  | None =>
      match s with
      | _ :: s' => search r s'
      | [] => None
      end
  end.

(** [m.group(i)] of a group that took part in the match. *)
Definition group (g : groups) (i : nat) : pystr := default [] (g !! i).

(** Classes. *)
Definition dot (c : N) : bool := negb (c =? 10)%N.
Definition one (x : N) (c : N) : bool := (c =? x)%N.
(** A letter under [re.IGNORECASE]: the ASCII letters used here have no
    other case variant than their upper-case form. *)
Definition letter_ci (lower : N) (c : N) : bool := ((c =? lower) || (c =? lower - 32))%N.

(** [am|pm] under [re.IGNORECASE] (a = 97, p = 112, m = 109). *)
Definition am_pm : regex :=
  Alt (Seq (Chr (letter_ci 97)) (Chr (letter_ci 109)))
      (Seq (Chr (letter_ci 112)) (Chr (letter_ci 109))).

End Re.

(** ** The patterns of [parse_time] *)

(** The class [[-–to]] under [re.IGNORECASE]: hyphen, en dash (U+2013),
    and the letters t and o in either case. *)
Definition separator_class (c : N) : bool :=
  ((c =? 45) || (c =? 8211) || Re.letter_ci 116 c || Re.letter_ci 111 c)%N.

(** [\d{1,2}(?::\d{2})?\s*(?:am|pm)?], the inside of group 2. *)
Definition end_clock : Re.regex :=
  Re.Seq (Re.Rep true 1 (Some 2%nat) Text.is_digit)
    (Re.Seq (Re.Opt (Re.Seq (Re.Chr (Re.one 58)) (Re.Rep true 2 (Some 2%nat) Text.is_digit)))
       (Re.Seq (Re.Rep true 0 None Text.is_space) (Re.Opt Re.am_pm))).

(** [r'(.+?)\s*[-–to]+\s*(\d{1,2}(?::\d{2})?\s*(?:am|pm)?)\s*$'] with
    [re.IGNORECASE]. *)
Definition range_pattern : Re.regex :=
  Re.Seq (Re.Group 1 (Re.Rep false 1 None Re.dot))
    (Re.Seq (Re.Rep true 0 None Text.is_space)
       (Re.Seq (Re.Rep true 1 None separator_class)
          (Re.Seq (Re.Rep true 0 None Text.is_space)
             (Re.Seq (Re.Group 2 end_clock)
                (Re.Seq (Re.Rep true 0 None Text.is_space) Re.Eos))))).

(** [r'(am|pm)'] with [re.IGNORECASE]. *)
Definition period_pattern : Re.regex := Re.Group 1 Re.am_pm.

(** ** [datetime]: naive dates and times of the proleptic Gregorian calendar *)
Module DT.

Record datetime := mk {
  year : Z; month : Z; day : Z;
  hour : Z; minute : Z; second : Z; microsecond : Z
}.

Definition is_leap (y : Z) : bool :=
  (y mod 4 =? 0) && (negb (y mod 100 =? 0) || (y mod 400 =? 0)).

Definition days_in_month (y m : Z) : Z :=
  if m =? 2 then (if is_leap y then 29 else 28)
  else if (m =? 4) || (m =? 6) || (m =? 9) || (m =? 11) then 30
  else 31.

(** Days of the years before [y], year 1 being the first. *)
Definition days_before_year (y : Z) : Z :=
  let p := y - 1 in p * 365 + p / 4 - p / 100 + p / 400.

(** Days of the first [n] months of year [y]. *)
Fixpoint days_in_months (y : Z) (n : nat) : Z :=
  match n with
  | O => 0
  | S n' => days_in_months y n' + days_in_month y (Z.of_nat n)
  end.

(** Days of year [y] in the months before [m]. *)
Definition days_before_month (y m : Z) : Z := days_in_months y (Z.to_nat (m - 1)).

(** [d.toordinal()]: 1 for 0001-01-01. *)
Definition toordinal (d : datetime) : Z :=
  days_before_year (year d) + days_before_month (year d) (month d) + day d.

(** [d.weekday()]: Monday is 0. *)
Definition weekday (d : datetime) : Z := (toordinal d + 6) mod 7.

(** The values the constructor of [datetime] accepts. *)
Definition valid (d : datetime) : bool :=
  (1 <=? year d) && (year d <=? 9999) && (1 <=? month d) && (month d <=? 12)
  && (1 <=? day d) && (day d <=? days_in_month (year d) (month d))
  && (0 <=? hour d) && (hour d <? 24) && (0 <=? minute d) && (minute d <? 60)
  && (0 <=? second d) && (second d <? 60)
  && (0 <=? microsecond d) && (microsecond d <? 1000000).

Definition us_per_minute : Z := 60000000.
Definition us_per_hour : Z := 3600000000.
Definition us_per_day : Z := 86400000000.

(** Microseconds since the midnight that begins ordinal 0. *)
Definition to_us (d : datetime) : Z :=
  (((toordinal d * 24 + hour d) * 60 + minute d) * 60 + second d) * 1000000
  + microsecond d.

(** The year of an ordinal: the estimate [(n - 1) / 365 + 1] is never too
    small and at most seven years too large up to the year 9999. *)
Fixpoint find_year (fuel : nat) (y n : Z) : Z :=
  match fuel with
  | O => y
  | S fuel' => if days_before_year y <? n then y else find_year fuel' (y - 1) n
  end.

(** The month and day of the [d]-th day of year [y], counting from month [m]. *)
Fixpoint find_month (fuel : nat) (y m d : Z) : Z * Z :=
  match fuel with
  | O => (m, d)
  | S fuel' =>
      if d <=? days_in_month y m then (m, d)
      else find_month fuel' y (m + 1) (d - days_in_month y m)
  end.

(** The inverse of [to_us] on the time values of the years 1 to 9999. *)
Definition of_us (t : Z) : datetime :=
  let n := t / us_per_day in
  let r := t mod us_per_day in
  let y := find_year 8 ((n - 1) / 365 + 1) n in
  let '(m, d) := find_month 11 y 1 (n - days_before_year y) in
  mk y m d (r / us_per_hour) (r / us_per_minute mod 60) (r / 1000000 mod 60)
     (r mod 1000000).

(** First and last time value of a [datetime]. *)
Definition min_us : Z := us_per_day.
Definition max_us : Z := 3652060 * us_per_day - 1.

(** The comparisons [a <= b], [a < b] of two naive values. *)
Definition le (a b : datetime) : bool := to_us a <=? to_us b.
Definition lt (a b : datetime) : bool := to_us a <? to_us b.

(** [d.replace(hour=h)]. *)
Definition replace_hour (d : datetime) (h : Z) : result datetime :=
  if (0 <=? h) && (h <? 24) then
    Ok (mk (year d) (month d) (day d) h (minute d) (second d) (microsecond d))
  else Raise (Exn ValueError (str "hour must be in 0..23")).

(** [d.replace(hour=0, minute=0, second=0, microsecond=0)]. *)
Definition midnight (d : datetime) : datetime :=
  mk (year d) (month d) (day d) 0 0 0 0.

(** [timedelta(...)] of a whole number of microseconds: the number of days
    of a [timedelta] has at most nine digits. *)
Definition timedelta (us : Z) : result Z :=
  if (-999999999 <=? us / us_per_day) && (us / us_per_day <=? 999999999) then Ok us
  else Raise (Exn OverflowError (str "days out of range for timedelta")).

(** [d + delta], [d - delta] for a [timedelta] of [us] microseconds. *)
Definition add (d : datetime) (us : Z) : result datetime :=
  let t := to_us d + us in
  if (min_us <=? t) && (t <=? max_us) then Ok (of_us t)
  else Raise (Exn OverflowError (str "date value out of range")).

(** [int((b - a).total_seconds() / 60)]: the difference in minutes, rounded
    towards zero.  The source divides floating-point numbers; for spans
    under a century the quotient it truncates is not within rounding
    distance of a whole number it does not equal, so the result is the one
    of the exact division. *)
Definition minutes_between (a b : datetime) : Z :=
  Z.quot (to_us b - to_us a) us_per_minute.

Definition day_names : list string :=
  ["Monday"; "Tuesday"; "Wednesday"; "Thursday"; "Friday"; "Saturday"; "Sunday"]%string.
Definition month_names : list string :=
  ["January"; "February"; "March"; "April"; "May"; "June"; "July"; "August";
   "September"; "October"; "November"; "December"]%string.

(** [%A], [%B], [%I], [%p] in the C locale. *)
Definition fmt_A (d : datetime) : pystr :=
  str (default ""%string (day_names !! Z.to_nat (weekday d))).
Definition fmt_B (d : datetime) : pystr :=
  str (default ""%string (month_names !! Z.to_nat (month d - 1))).
Definition fmt_I (d : datetime) : pystr :=
  Text.padded 2 (if hour d mod 12 =? 0 then 12 else hour d mod 12).
Definition fmt_p (d : datetime) : pystr :=
  if hour d <? 12 then str "AM" else str "PM".

(** [d.strftime('%Y-%m-%d')].  The year is written with four digits, as
    every platform does from the year 1000 on. *)
Definition strftime_Ymd (d : datetime) : pystr :=
  Text.padded 4 (year d) ++ str "-" ++ Text.padded 2 (month d) ++ str "-"
  ++ Text.padded 2 (day d).

(** [d.strftime('%A, %B %d at %I:%M %p')]. *)
Definition strftime_long (d : datetime) : pystr :=
  fmt_A d ++ str ", " ++ fmt_B d ++ str " " ++ Text.padded 2 (day d)
  ++ str " at " ++ fmt_I d ++ str ":" ++ Text.padded 2 (minute d)
  ++ str " " ++ fmt_p d.

(** [d.strftime('%I:%M %p on %A, %B %d')]. *)
Definition strftime_things (d : datetime) : pystr :=
  fmt_I d ++ str ":" ++ Text.padded 2 (minute d) ++ str " " ++ fmt_p d
  ++ str " on " ++ fmt_A d ++ str ", " ++ fmt_B d ++ str " "
  ++ Text.padded 2 (day d).

(** [d.isoformat()]. *)
Definition isoformat (d : datetime) : pystr :=
  strftime_Ymd d ++ str "T" ++ Text.padded 2 (hour d) ++ str ":"
  ++ Text.padded 2 (minute d) ++ str ":" ++ Text.padded 2 (second d)
  ++ (if microsecond d =? 0 then [] else str "." ++ Text.padded 6 (microsecond d)).

End DT.

(** ** Built-in operations of Python on values *)
Module Py.

(** [repr(s)] of a text without quote, backslash or control character. *)
Definition repr (s : pystr) : pystr := [39%N] ++ s ++ [39%N].

(** The digits of an integer literal: decimal digits of any script, single
    underscores between digits only. *)
Fixpoint digits (s : pystr) (acc : Z) (after_digit : bool) : option Z :=
  match s with
  | [] => if after_digit then Some acc else None
  | c :: s' =>
      match Text.digit_value c with
      | Some v => digits s' (acc * 10 + v) true
      | None => if (c =? 95)%N && after_digit then digits s' acc false else None
      end
  end.

Definition literal (s : pystr) : option Z :=
  match s with
  | 45%N :: s' => Z.opp <$> digits s' 0 false
  | 43%N :: s' => digits s' 0 false
  | _ => digits s 0 false
  end.

(** [int(v)]. *)
Definition int (v : value) : result Z :=
  match v with
  | VInt z => Ok z
  | VBool b => Ok (if b then 1 else 0)
  | VStr s =>
      match literal (Text.strip s) with
      | Some z => Ok z
      | None =>
          Raise (Exn ValueError (str "invalid literal for int() with base 10: " ++ repr s))
      end
  | _ =>
      Raise (Exn TypeError
        (str "int() argument must be a string, a bytes-like object or a real number"))
  end.

(** [v[k]] for a text key. *)
Definition subscript (v : value) (k : string) : result value :=
  match v with
  | VDict d =>
      match d !! k with
      | Some x => Ok x
      | None => Raise (Exn KeyError (repr (str k)))
      end
  | VStr _ | VList _ => Raise (Exn TypeError (str "indices must be integers"))
  | _ => Raise (Exn TypeError (str "object is not subscriptable"))
  end.

(** [v.get(k)] and [v.get(k, dflt)]. *)
Definition get (v : value) (k : string) (dflt : value) : result value :=
  match v with
  | VDict d => Ok (default dflt (d !! k))
  | _ => Raise (Exn AttributeError (str "object has no attribute 'get'"))
  end.

(** ['T' in v]. *)
Definition contains_T (v : value) : result bool :=
  match v with
  | VStr s => Ok (Text.contains_char 84 s)
  | VList l => Ok (existsb (λ x, match x with VStr [84%N] => true | _ => false end) l)
  | VDict d => Ok (bool_decide (is_Some (d !! "T"%string)))
  | _ => Raise (Exn TypeError (str "argument is not iterable"))
  end.

(** The elements a [for] loop draws from [v]: the characters of a text and
    the keys of a dictionary are texts. *)
Definition iterate (v : value) : result (list value) :=
  match v with
  | VList l => Ok l
  | VStr s => Ok ((λ c, VStr [c]) <$> s)
  | VDict d => Ok ((λ kv, VStr (str kv.1)) <$> map_to_list d)
  | _ => Raise (Exn TypeError (str "object is not iterable"))
  end.

End Py.

(** ** The world outside the process *)

(** A call that leaves the process: a request to the calendar service
    ([service.events().m(...).execute()]) or a run of [osascript]. *)
Inductive call :=
| EventsList (timeMin timeMax : pystr)
| EventsGet (eventId : pystr)
| EventsUpdate (eventId : pystr) (body : dict)
| EventsDelete (eventId : pystr)
| EventsInsert (body : dict)
| Osascript (script : pystr).

Record world := World {
  (** the events of the primary calendar, by identifier *)
  calendar : gmap pystr dict;
  (** the scripts Things has run, latest first *)
  things : list pystr;
  (** the fate of the calls to come: [Some e] makes the next call raise [e] *)
  faults : list (option exn);
  (** every call attempted, latest first *)
  trace : list call;
  (** [datetime.now()] *)
  clock : DT.datetime;
  (** what authentication will raise, if anything *)
  auth_failure : option exn
}.

(** Code that may raise and may act on the world.  An exception does not
    undo what was done before it. *)
Definition io (A : Type) : Type := world → result A * world.

#[export] Instance io_bind : MBind io := λ A B f m w,
  match m w with
  | (Ok a, w') => f a w'
  | (Raise e, w') => (Raise e, w')
  end.
#[export] Instance io_ret : MRet io := λ A a w, (Ok a, w).

Definition lift {A} (r : result A) : io A := λ w, (r, w).
Definition io_raise {A} (e : exn) : io A := λ w, (Raise e, w).
Definition io_get : io world := λ w, (Ok w, w).
Definition io_put (w' : world) : io unit := λ _, (Ok (), w').

(** A call of a method that handles its own exceptions. *)
Definition call_total {A} (f : world → A * world) : io A := λ w,
  let '(a, w') := f w in (Ok a, w').

(** [try: body except Exception as e: return handler(e)]. *)
Definition try_io {A} (body : io A) (handler : exn → A) (w : world) : A * world :=
  match body w with
  | (Ok a, w') => (a, w')
  | (Raise e, w') => (handler e, w')
  end.

Definition set_calendar (c : gmap pystr dict) (w : world) : world :=
  World c (things w) (faults w) (trace w) (clock w) (auth_failure w).
Definition set_things (t : list pystr) (w : world) : world :=
  World (calendar w) t (faults w) (trace w) (clock w) (auth_failure w).

(** Attempt a call: it is recorded, and it fails if the world says so. *)
Definition attempt (c : call) : io unit := λ w,
  let w' := World (calendar w) (things w) (tail (faults w)) (c :: trace w)
              (clock w) (auth_failure w) in
  match faults w with
  | Some e :: _ => (Raise e, w')
  | _ => (Ok (), w')
  end.

(** Whether the next call to leave the process will succeed. *)
Definition next_call_succeeds (w : world) : bool :=
  match faults w with
  | Some _ :: _ => false
  | _ => true
  end.

Definition not_found : exn := Exn HttpError (str "Not Found").

(** ** The class [CalendarAPI] *)

(** The object: [self.service] is the calendar service once connected.
    ([self.window] is stored and never read.) *)
Record api := Api { service : option unit }.

(** Results handed to the page. *)
Definition failure (message : pystr) : dict :=
  {[ "success" := VBool false; "message" := VStr message ]}%string.
Definition success : dict := {[ "success" := VBool true ]}%string.
Definition not_connected : dict := failure (str "Not connected").

(** The time zone written on every event. *)
Definition time_block (d : DT.datetime) : value :=
  VDict {[ "dateTime" := VStr (DT.isoformat d);
           "timeZone" := VStr (str "America/Los_Angeles") ]}%string.

Section CalendarAPI.

(** [dateparser.parse(text, settings={'PREFER_DATES_FROM': 'future'})]:
    a naive [datetime], or [None]. *)
Variable dateparser_parse : pystr → option DT.datetime.

(** [datetime.fromisoformat]. *)
Variable fromisoformat : pystr → result DT.datetime.

(** The answer of the service to [events().list(calendarId='primary',
    timeMin=..., timeMax=..., singleEvents=True, orderBy='startTime')]. *)
Variable events_query : gmap pystr dict → pystr → pystr → dict.

(** The identifier the service gives to an inserted event. *)
Variable new_event_id : gmap pystr dict → pystr.

(** *** Requests to the service *)

Definition events_list (timeMin timeMax : pystr) : io dict :=
  _ ← attempt (EventsList timeMin timeMax);
  w ← io_get;
  mret (events_query (calendar w) timeMin timeMax).

Definition events_get (eventId : pystr) : io dict :=
  _ ← attempt (EventsGet eventId);
  w ← io_get;
  match calendar w !! eventId with
  | Some ev => mret ev
  | None => io_raise not_found
  end.

(** [update] has no patch semantics: the body replaces the whole event. *)
Definition events_update (eventId : pystr) (body : dict) : io unit :=
  _ ← attempt (EventsUpdate eventId body);
  w ← io_get;
  match calendar w !! eventId with
  | Some _ => io_put (set_calendar (<[eventId := body]> (calendar w)) w)
  | None => io_raise not_found
  end.

Definition events_delete (eventId : pystr) : io unit :=
  _ ← attempt (EventsDelete eventId);
  w ← io_get;
  match calendar w !! eventId with
  | Some _ => io_put (set_calendar (delete eventId (calendar w)) w)
  | None => io_raise not_found
  end.

Definition events_insert (body : dict) : io unit :=
  _ ← attempt (EventsInsert body);
  w ← io_get;
  let i := new_event_id (calendar w) in
  io_put (set_calendar (<[i := <["id"%string := VStr i]> body]> (calendar w)) w).

(** [subprocess.run(['osascript', '-e', script], check=True, ...)]. *)
Definition osascript (script : pystr) : io unit :=
  _ ← attempt (Osascript script);
  w ← io_get;
  io_put (set_things (script :: things w) w).

(** *** [init_calendar] *)
Definition init_calendar (self : api) (w : world) : api * dict * world :=
  match auth_failure w with
  | None =>
      (Api (Some ()),
       {[ "success" := VBool true;
          "message" := VStr (str "Connected to Google Calendar") ]}%string, w)
  | Some e => (self, failure (exn_message e), w)
  end.

(** *** [get_events] *)

(** [event[key].get('dateTime', event[key].get('date'))]. *)
Definition event_time (event : value) (key : string) : result value :=
  block ← Py.subscript event key;
  date ← Py.get block "date" VNone;
  Py.get block "dateTime" date.

(** One turn of the loop over the items. *)
Definition convert_event (event : value) : result value :=
  start ← event_time event "start";
  end_ ← event_time event "end";
  id ← Py.get event "id" VNone;
  title ← Py.get event "summary" (VStr (str "No title"));
  has_T ← Py.contains_T start;
  Ok (VDict {[ "id" := id; "title" := title; "start" := start; "end" := end_;
               "isAllDay" := VBool (negb has_T) ]}%string).

Fixpoint convert_events (items : list value) : result (list value) :=
  match items with
  | [] => Ok []
  | event :: rest =>
      e ← convert_event event;
      es ← convert_events rest;
      Ok (e :: es)
  end.

Definition get_events (self : api) (week_offset : Z) (w : world) : dict * world :=
  match service self with
  | None =>
      ({[ "success" := VBool false; "events" := VList [];
          "message" := VStr (str "Not connected") ]}%string, w)
  | Some _ =>
      try_io
        (let today := DT.midnight (clock w) in
         back ← lift (DT.timedelta (DT.weekday today * DT.us_per_day));
         monday0 ← lift (DT.add today (- back));
         forth ← lift (DT.timedelta (week_offset * 7 * DT.us_per_day));
         monday ← lift (DT.add monday0 forth);
         sunday ← lift (DT.add monday (7 * DT.us_per_day - 1000000));
         events_result ← events_list (DT.isoformat monday ++ str "Z")
                                     (DT.isoformat sunday ++ str "Z");
         items ← lift (Py.iterate (default (VList []) (events_result !! "items"%string)));
         events ← lift (convert_events items);
         mret ({[ "success" := VBool true; "events" := VList events;
                  "weekStart" := VStr (DT.isoformat monday);
                  "weekEnd" := VStr (DT.isoformat sunday);
                  "weekOffset" := VInt week_offset ]}%string : dict))
        (λ e, {[ "success" := VBool false; "events" := VList [];
                 "message" := VStr (exn_message e) ]}%string)
        w
  end.

(** *** [delete_event] *)
Definition delete_event (self : api) (event_id : pystr) (w : world) : dict * world :=
  match service self with
  | None => (not_connected, w)
  | Some _ =>
      try_io (_ ← events_delete event_id; mret success)
             (λ e, failure (exn_message e)) w
  end.

(** *** [move_event] *)
Definition move_event (self : api) (event_id new_start_iso : pystr)
    (duration_minutes : value) (w : world) : dict * world :=
  match service self with
  | None => (not_connected, w)
  | Some _ =>
      try_io
        (event ← events_get event_id;
         new_start ← lift (fromisoformat (Text.replace_char 90 [] new_start_iso));
         minutes ← lift (Py.int duration_minutes);
         delta ← lift (DT.timedelta (minutes * DT.us_per_minute));
         new_end ← lift (DT.add new_start delta);
         let event := <["start"%string := time_block new_start]> event in
         let event := <["end"%string := time_block new_end]> event in
         _ ← events_update event_id event;
         mret success)
        (λ e, failure (exn_message e)) w
  end.

(** *** [parse_time] *)

(** The result of a successful parse. *)
Definition parsed_result (d : DT.datetime) (duration : value) : dict :=
  {[ "success" := VBool true;
     "parsed" := VStr (DT.strftime_long d);
     "iso" := VStr (DT.isoformat d);
     "duration" := duration ]}%string.

Definition could_not_parse : dict := failure (str "Could not parse time").

(** The end of a range as handed to the parser: the period of the start is
    appended when the end names none. *)
Definition with_period (start_parsed : DT.datetime) (end_part : pystr) : pystr :=
  match Re.search period_pattern end_part with
  | Some _ => end_part
  | None =>
      if DT.hour start_parsed <? 12 then end_part ++ str "am"
      else end_part ++ str "pm"
  end.

(** The end of a range that is not after its start moves to the next
    period: [end_parsed.replace(hour=end_parsed.hour + 12)]. *)
Definition next_period (start_parsed end_parsed : DT.datetime) : result DT.datetime :=
  if DT.le end_parsed start_parsed
  then DT.replace_hour end_parsed (DT.hour end_parsed + 12)
  else Ok end_parsed.

(** The block [if match: ...]: [Some] is what it returns, [None] when
    control falls out of it. *)
Definition parse_range (time_input : pystr) : result (option dict) :=
  match Re.search range_pattern time_input with
  | None => Ok None
  | Some m =>
      let start_part := Text.strip (Re.group m 1) in
      let end_part := Text.strip (Re.group m 2) in
      match dateparser_parse start_part with
      | None => Ok None
      | Some start_parsed =>
          let end_part := with_period start_parsed end_part in
          let end_str := DT.strftime_Ymd start_parsed ++ str " " ++ end_part in
          match dateparser_parse end_str with
          | None => Ok None
          | Some end_parsed =>
              end_parsed ← next_period start_parsed end_parsed;
              let duration_minutes := DT.minutes_between start_parsed end_parsed in
              Ok (Some (parsed_result start_parsed (VInt duration_minutes)))
          end
      end
  end.

Definition parse_time (time_input : pystr) : result dict :=
  returned ← parse_range time_input;
  match returned with
  | Some d => Ok d
  | None =>
      match dateparser_parse time_input with
      | Some parsed => Ok (parsed_result parsed VNone)
      | None => Ok could_not_parse
      end
  end.

(** *** [add_to_things] *)

Definition quote : pystr := [34%N].
Definition newline : pystr := [10%N].

(** [text.replace(q, bq)]: a backslash before every double quote. *)
Definition escape_quotes (s : pystr) : pystr := Text.replace_char 34 [92%N; 34%N] s.

Definition things_script (task_name : pystr) (scheduled_time : DT.datetime) : pystr :=
  let time_str := Text.lstrip_zero (DT.strftime_things scheduled_time) in
  let notes := str "Scheduled: " ++ time_str in
  newline ++ str "        tell application " ++ quote ++ str "Things3" ++ quote
  ++ newline
  ++ str "            set newToDo to make new to do with properties {name:"
  ++ quote ++ escape_quotes task_name ++ quote ++ str ", notes:"
  ++ quote ++ escape_quotes notes ++ quote ++ str "}" ++ newline
  ++ str "            move newToDo to list " ++ quote ++ str "Today" ++ quote
  ++ newline ++ str "        end tell" ++ newline ++ str "        ".

Definition add_to_things (task_name : pystr) (scheduled_time : DT.datetime)
    (w : world) : bool * world :=
  try_io (_ ← osascript (things_script task_name scheduled_time); mret true)
         (λ _, false) w.

(** *** [add_to_calendar] *)
Definition add_to_calendar (self : api) (task_name : pystr)
    (start_time : DT.datetime) (duration_minutes : Z) (w : world) : bool * world :=
  match service self with
  | None => (false, w)
  | Some _ =>
      try_io
        (delta ← lift (DT.timedelta (duration_minutes * DT.us_per_minute));
         end_time ← lift (DT.add start_time delta);
         let event : dict :=
           {[ "summary" := VStr task_name;
              "start" := time_block start_time;
              "end" := time_block end_time ]}%string in
         _ ← events_insert event;
         mret true)
        (λ _, false) w
  end.

(** *** [add_task] *)
Definition add_task (self : api) (task_name time_iso : pystr)
    (duration_minutes : value) (w : world) : dict * world :=
  try_io
    (start_time ← lift (fromisoformat time_iso);
     duration ← lift (if truthy duration_minutes then Py.int duration_minutes else Ok 60);
     things_ok ← call_total (add_to_things task_name start_time);
     calendar_ok ← call_total (add_to_calendar self task_name start_time duration);
     mret ({[ "success" := VBool (things_ok && calendar_ok);
              "things" := VBool things_ok;
              "calendar" := VBool calendar_ok ]}%string : dict))
    (λ e, failure (exn_message e)) w.

End CalendarAPI.

(** *** [get_events], in parts

    The steps of [get_events], named so that properties can speak of them:
    the two ends of the week, the failure it returns, and the time it reads
    in a [start] or [end] block.  [get_events] is shown below to be made of
    them. *)
Definition week_window (now : DT.datetime) (week_offset : Z)
    : result (DT.datetime * DT.datetime) :=
  let today := DT.midnight now in
  back ← DT.timedelta (DT.weekday today * DT.us_per_day);
  monday0 ← DT.add today (- back);
  forth ← DT.timedelta (week_offset * 7 * DT.us_per_day);
  monday ← DT.add monday0 forth;
  sunday ← DT.add monday (7 * DT.us_per_day - 1000000);
  Ok (monday, sunday).

Definition events_failure (e : exn) : dict :=
  {[ "success" := VBool false; "events" := VList [];
     "message" := VStr (exn_message e) ]}%string.

Definition events_success (events : list value) (monday sunday : DT.datetime)
    (week_offset : Z) : dict :=
  {[ "success" := VBool true; "events" := VList events;
     "weekStart" := VStr (DT.isoformat monday);
     "weekEnd" := VStr (DT.isoformat sunday);
     "weekOffset" := VInt week_offset ]}%string.

(** [block.get('dateTime', block.get('date'))]. *)
Definition chosen_time (block : dict) : value :=
  default (default VNone (block !! "date"%string)) (block !! "dateTime"%string).

(** The steps of [move_event] between its two requests: the new start and
    the new end. *)
Definition new_times (fromisoformat : pystr → result DT.datetime)
    (new_start_iso : pystr) (duration_minutes : value)
    : result (DT.datetime * DT.datetime) :=
  new_start ← fromisoformat (Text.replace_char 90 [] new_start_iso);
  minutes ← Py.int duration_minutes;
  delta ← DT.timedelta (minutes * DT.us_per_minute);
  new_end ← DT.add new_start delta;
  Ok (new_start, new_end).

(** The event [add_to_calendar] sends. *)
Definition new_event (task_name : pystr) (start_time end_time : DT.datetime) : dict :=
  {[ "summary" := VStr task_name; "start" := time_block start_time;
     "end" := time_block end_time ]}%string.

(** What [get_events] makes of one item of the answer: the item is a
    dictionary whose [start] and [end] are dictionaries, and the event made
    of it has five entries. *)
Definition converted (item event : value) : Prop :=
  ∃ (d start_block end_block : dict) (has_T : bool),
    item = VDict d
    ∧ d !! "start"%string = Some (VDict start_block)
    ∧ d !! "end"%string = Some (VDict end_block)
    ∧ Py.contains_T (chosen_time start_block) = Ok has_T
    ∧ event = VDict {[ "id" := default VNone (d !! "id"%string);
                       "title" := default (VStr (str "No title")) (d !! "summary"%string);
                       "start" := chosen_time start_block;
                       "end" := chosen_time end_block;
                       "isAllDay" := VBool (negb has_T) ]}%string.

(** ** The page's script *)

(** A [Date]: its time value in milliseconds, [None] for an invalid date
    (whose time value is NaN).  Time values are whole numbers, and for two
    dates less than 2^53 milliseconds apart (some 285 000 years) the
    subtraction, the division by a day and [Math.floor] of the script give
    the exact quotient, which is what is computed here. *)
Abbreviation date := (option Z).

Definition ms_per_day : Z := 24 * 60 * 60 * 1000.

(** [a < b] and [a <= b] on dates: false as soon as one is invalid. *)
Definition date_lt (a b : date) : bool :=
  match a, b with
  | Some x, Some y => x <? y
  | _, _ => false
  end.
Definition date_le (a b : date) : bool :=
  match a, b with
  | Some x, Some y => x <=? y
  | _, _ => false
  end.

(** [Math.floor((start - weekStart) / (24 * 60 * 60 * 1000))]: NaN when a
    date is invalid. *)
Definition day_index (start weekStart : date) : option Z :=
  match start, weekStart with
  | Some s, Some w => Some ((s - w) / ms_per_day)
  | _, _ => None
  end.

(** What [renderCalendar] pushes for a timed event, [{...event, startDate,
    endDate, colorClass}], and for an all-day event, [{...event,
    colorClass}]. *)
Record timed_entry := TimedEntry {
  timed_event : dict;
  startDate : date;
  endDate : date;
  timed_colorClass : string
}.
Record allday_entry := AllDayEntry {
  allday_event : dict;
  allday_colorClass : string
}.

Definition color_class (isCompleted : bool) : string :=
  if isCompleted then "event-completed"%string else "event-normal"%string.

(** The two arrays of seven arrays. *)
Record buckets := Buckets {
  eventsByDay : list (list timed_entry);
  allDayByDay : list (list allday_entry)
}.

Definition empty_buckets : buckets := Buckets (replicate 7 []) (replicate 7 []).

(** The marks of the agenda: done, under way, to come. *)
Inductive status_mark := Check_mark | Arrow_mark | Circle_mark.

Record schedule_item := ScheduleItem {
  item_event : dict;
  item_completed : bool;
  item_status : status_mark;
  (** the date whose time of day is printed *)
  item_start : date
}.

(** The content of the agenda: the sentence "Your day is clear", or items. *)
Inductive today_view :=
| Day_clear
| Day_items (items : list schedule_item).

Record calendar_view := CalendarView {
  (** for each of the seven columns, whether its header is marked today *)
  header_today : list bool;
  view_buckets : buckets;
  hasAllDay : bool;
  todaySchedule : today_view
}.

Section Page.

(** [new Date(v)] for a property read from an object, [None] when the
    property is absent: the time value of the date, if it is valid. *)
Variable new_Date : option value → date.

(** [d.getDay()] in the local time zone: 0 is Sunday. *)
Variable getDay : Z → Z.

(** *** [renderCalendar]: grouping the events by day *)

(** The body of [events.forEach(event => ...)]. *)
Definition place_event (weekStart : date) (now : Z) (b : buckets) (event : dict) : buckets :=
  let start := new_Date (event !! "start"%string) in
  let end_ := new_Date (event !! "end"%string) in
  let dayIdx := day_index start weekStart in
  let isCompleted := date_lt end_ (Some now) in
  match dayIdx with
  | Some i =>
      if (0 <=? i) && (i <? 7) then
        if js_truthy (event !! "isAllDay"%string) then
          Buckets (eventsByDay b)
            (alter (λ l, l ++ [AllDayEntry event (color_class isCompleted)])
                   (Z.to_nat i) (allDayByDay b))
        else
          Buckets
            (alter (λ l, l ++ [TimedEntry event start end_ (color_class isCompleted)])
                   (Z.to_nat i) (eventsByDay b))
            (allDayByDay b)
      else b
  | None => b
  end.

Definition group_events (events : list dict) (weekStart : date) (now : Z) : buckets :=
  foldl (place_event weekStart now) empty_buckets events.

(** [now.getDay() === 0 ? 6 : now.getDay() - 1]. *)
Definition today_index (now : Z) : Z :=
  if getDay now =? 0 then 6 else getDay now - 1.

(** *** [updateTodaySchedule] *)

(** The test of [events.filter(...)]. *)
Definition is_today_event (weekStart : date) (todayIdx : Z) (event : dict) : bool :=
  if js_truthy (event !! "isAllDay"%string) then false
  else
    match day_index (new_Date (event !! "start"%string)) weekStart with
    | Some i => i =? todayIdx
    | None => false
    end.

(** [.sort((a, b) => new Date(a.start) - new Date(b.start))]: the sort is
    stable, and an element moves before another only when the comparison
    is negative. *)
Definition starts_before (a b : dict) : bool :=
  date_lt (new_Date (a !! "start"%string)) (new_Date (b !! "start"%string)).

Fixpoint insert_by_start (x : dict) (l : list dict) : list dict :=
  match l with
  | [] => [x]
  | y :: l' => if starts_before y x then y :: insert_by_start x l' else x :: l
  end.

Definition sort_by_start (l : list dict) : list dict := foldr insert_by_start [] l.

(** The order the comparison function aims at: both starts are dates, and
    the first is no later than the second. *)
Definition starts_no_later (a b : dict) : Prop :=
  ∃ s t, new_Date (a !! "start"%string) = Some s
         ∧ new_Date (b !! "start"%string) = Some t ∧ s <= t.

(** One item of the agenda. *)
Definition schedule_item_of (now : Z) (event : dict) : schedule_item :=
  let start := new_Date (event !! "start"%string) in
  let end_ := new_Date (event !! "end"%string) in
  let isCompleted := date_lt end_ (Some now) in
  let status :=
    if isCompleted then Check_mark
    else if date_le start (Some now) && date_le (Some now) end_ then Arrow_mark
    else Circle_mark in
  ScheduleItem event isCompleted status start.

Definition updateTodaySchedule (events : list dict) (weekStart : date)
    (todayIdx : Z) (now : Z) : today_view :=
  let todayEvents := sort_by_start (filter (λ e, is_today_event weekStart todayIdx e = true) events) in
  if bool_decide (length todayEvents = 0%nat) then Day_clear
  else Day_items (schedule_item_of now <$> todayEvents).

(** *** [renderCalendar]

    [now] is the clock as [renderCalendar] reads it and [now'] as
    [updateTodaySchedule] reads it a moment later.  The view keeps what the
    markup is generated from; pixel positions are not part of it. *)
Definition renderCalendar (events : list dict) (weekStart : date) (weekOffset : Z)
    (now now' : Z) : calendar_view :=
  let todayIdx := today_index now in
  let isCurrentWeek := weekOffset =? 0 in
  let b := group_events events weekStart now in
  CalendarView
    ((λ i, isCurrentWeek && (Z.of_nat i =? todayIdx)) <$> seq 0 7)
    b
    (existsb (λ day, negb (bool_decide (length day = 0%nat))) (allDayByDay b))
    (updateTodaySchedule events weekStart todayIdx now').

(** *** The grouping, said directly

    The entry of an event, and the events of day [j]: those whose day index
    is [j], all-day events apart.  [group_events] is compared with these
    below. *)
Definition timed_entry_of (now : Z) (event : dict) : timed_entry :=
  TimedEntry event (new_Date (event !! "start"%string)) (new_Date (event !! "end"%string))
    (color_class (date_lt (new_Date (event !! "end"%string)) (Some now))).

Definition allday_entry_of (now : Z) (event : dict) : allday_entry :=
  AllDayEntry event (color_class (date_lt (new_Date (event !! "end"%string)) (Some now))).

Definition in_day (weekStart : date) (j : nat) (event : dict) : bool :=
  match day_index (new_Date (event !! "start"%string)) weekStart with
  | Some i => i =? Z.of_nat j
  | None => false
  end.

Definition timed_of_day (weekStart : date) (now : Z) (events : list dict) (j : nat)
    : list timed_entry :=
  timed_entry_of now
    <$> filter (λ e, in_day weekStart j e && negb (js_truthy (e !! "isAllDay"%string)) = true)
          events.

Definition allday_of_day (weekStart : date) (now : Z) (events : list dict) (j : nat)
    : list allday_entry :=
  allday_entry_of now
    <$> filter (λ e, in_day weekStart j e && js_truthy (e !! "isAllDay"%string) = true)
          events.

(** The seven buckets of each kind. *)
Definition buckets_of (weekStart : date) (now : Z) (events : list dict) : buckets :=
  Buckets (timed_of_day weekStart now events <$> seq 0 7)
          (allday_of_day weekStart now events <$> seq 0 7).

End Page.

(** *** The form and the handlers that call the API *)

(** What the script keeps between two events: the fields of the form, its
    two variables, the toast and the last calendar drawn. *)
Record page := Page {
  taskName : pystr;
  taskTime : pystr;
  taskDuration : pystr;
  (** the text under the time field *)
  parsedTime : pystr;
  (** [null] is [None] *)
  parsedTimeISO : option pystr;
  currentWeekOffset : Z;
  (** the message shown last and whether it is an error *)
  toast : option (pystr * bool);
  (** the two dates the week label is printed from *)
  weekLabel : option (date * date);
  todayBtn_hidden : bool;
  view : option calendar_view
}.

Definition showToast (message : pystr) (isError : bool) (p : page) : page :=
  Page (taskName p) (taskTime p) (taskDuration p) (parsedTime p) (parsedTimeISO p)
       (currentWeekOffset p) (Some (message, isError)) (weekLabel p)
       (todayBtn_hidden p) (view p).

(** The draft: the four fields and the parsed time. *)
Definition draft_of (p : page) : pystr * pystr * pystr * pystr * option pystr :=
  (taskName p, taskTime p, taskDuration p, parsedTime p, parsedTimeISO p).

(** The five assignments that empty the draft. *)
Definition clear_draft (p : page) : page :=
  Page [] [] [] [] None (currentWeekOffset p) (toast p) (weekLabel p)
       (todayBtn_hidden p) (view p).

Definition set_week (offset : Z) (p : page) : page :=
  Page (taskName p) (taskTime p) (taskDuration p) (parsedTime p) (parsedTimeISO p)
       offset (toast p) (weekLabel p) (todayBtn_hidden p) (view p).

Definition set_parsed (text : pystr) (iso : option pystr) (duration : pystr) (p : page) : page :=
  Page (taskName p) (taskTime p) duration text iso
       (currentWeekOffset p) (toast p) (weekLabel p) (todayBtn_hidden p) (view p).

(** The objects of an array received from Python. *)
Definition js_objects (v : option value) : list dict :=
  match v with
  | Some (VList l) => omap (λ x, match x with VDict d => Some d | _ => None end) l
  | _ => []
  end.

(** The text of a property written into a field or a message. *)
Definition js_text (v : option value) : pystr :=
  match v with
  | Some (VStr s) => s
  | Some (VInt z) => if z <? 0 then 45%N :: Text.decimal (- z) else Text.decimal z
  | Some (VBool true) => str "true"
  | Some (VBool false) => str "false"
  | Some VNone => str "null"
  | None => str "undefined"
  | Some (VList _) | Some (VDict _) => str "[object Object]"
  end.

Section Controller.

Variable dateparser_parse : pystr → option DT.datetime.
Variable fromisoformat : pystr → result DT.datetime.
Variable events_query : gmap pystr dict → pystr → pystr → dict.
Variable new_event_id : gmap pystr dict → pystr.
Variable new_Date : option value → date.
Variable getDay : Z → Z.

(** [refreshCalendar]. *)
Definition refreshCalendar (self : api) (now now' : Z) (p : page) (w : world)
    : page * world :=
  let '(result, w') := get_events events_query self (currentWeekOffset p) w in
  if js_truthy (result !! "success"%string) then
    let weekStart := new_Date (result !! "weekStart"%string) in
    let weekEnd := new_Date (result !! "weekEnd"%string) in
    (Page (taskName p) (taskTime p) (taskDuration p) (parsedTime p) (parsedTimeISO p)
          (currentWeekOffset p) (toast p) (Some (weekStart, weekEnd))
          (currentWeekOffset p =? 0)
          (Some (renderCalendar new_Date getDay (js_objects (result !! "events"%string))
                   weekStart (currentWeekOffset p) now now')),
     w')
  else (p, w').

(** [navigateWeek] and [goToToday]. *)
Definition navigateWeek (self : api) (direction : Z) (now now' : Z) (p : page)
    (w : world) : page * world :=
  refreshCalendar self now now' (set_week (currentWeekOffset p + direction) p) w.


(** The handler of the time field, once its delay has passed.  When
    [parse_time] raises, the call is rejected and the handler stops there:
    nothing is written. *)
Definition time_input_changed (p : page) : page :=
  let value := Text.js_trim (taskTime p) in
  if bool_decide (value = []) then set_parsed [] None (taskDuration p) p
  else
    match parse_time dateparser_parse value with
    | Raise _ => p
    | Ok result =>
        if js_truthy (result !! "success"%string) then
          set_parsed ([8594%N; 32%N] ++ js_text (result !! "parsed"%string))
            (match result !! "iso"%string with Some (VStr s) => Some s | _ => None end)
            (if js_truthy (result !! "duration"%string)
             then js_text (result !! "duration"%string) else taskDuration p)
            p
        else set_parsed (str "Could not parse time") None (taskDuration p) p
    end.

(** The message of a failed submission. *)
Definition failure_message (result : dict) : pystr :=
  str "Failed to add task"
  ++ (if js_truthy (result !! "things"%string) then [] else str " (Things)")
  ++ (if js_truthy (result !! "calendar"%string) then [] else str " (Calendar)").

(** [addTask].  The button is disabled during the call and enabled again
    after it; the form is what remains. *)
Definition addTask (self : api) (now now' : Z) (p : page) (w : world) : page * world :=
  let name := Text.js_trim (taskName p) in
  let duration :=
    if bool_decide (Text.js_trim (taskDuration p) = []) then str "60"
    else Text.js_trim (taskDuration p) in
  if bool_decide (name = []) then (showToast (str "Please enter a task name") true p, w)
  else
    match parsedTimeISO p with
    | None | Some [] => (showToast (str "Please enter a valid time") true p, w)
    | Some iso =>
        let '(result, w') :=
          add_task fromisoformat new_event_id self name iso (VStr duration) w in
        if js_truthy (result !! "success"%string) then
          refreshCalendar self now now'
            (clear_draft (showToast (str "Task added successfully") false p)) w'
        else (showToast (failure_message result) true p, w')
    end.

End Controller.

(** *** The context menu and drag and drop *)

(** [selectedEvent], as [showContextMenu] fills it from the data attributes
    of the element under the pointer: every field is a text. *)
Record selection := Selection {
  sel_id : pystr;
  sel_title : pystr;
  sel_start : pystr;
  sel_end : pystr;
  sel_duration : pystr;
  sel_startIso : pystr
}.

(** [draggedEvent], as [handleDragStart] fills it: the duration is the
    number read by [parseInt], which crosses the bridge as [None] when it
    is no number. *)
Record dragged := Dragged {
  drag_id : pystr;
  drag_duration : value
}.

(** [String(n).padStart(2, '0')]. *)
Definition padStart2 (n : Z) : pystr := Text.zero_pad 2 (js_text (Some (VInt n))).

(** The date and time [handleDrop] builds for a drop [y] pixels below the top
    of the column of date [dateStr]:
    [newHour = START_HOUR + Math.floor(y / HOUR_HEIGHT)] and
    [newMinutes = Math.round((y / HOUR_HEIGHT % 1) * 60 / 15) * 15].
    For a whole number of pixels the floating-point steps of the script give
    these whole numbers: the quotient that is rounded is never within a
    thirtieth of a half. *)
Definition drop_hour (y : N) : Z := 6 + Z.of_N y / 60.
Definition drop_minutes (y : N) : Z := (Z.of_N y mod 60 + 7) / 15 * 15.
Definition drop_time (dateStr : pystr) (y : N) : pystr :=
  dateStr ++ str "T" ++ padStart2 (drop_hour y) ++ str ":"
  ++ padStart2 (drop_minutes y) ++ str ":00".

Section Gestures.

Variable fromisoformat : pystr → result DT.datetime.
Variable events_query : gmap pystr dict → pystr → pystr → dict.
Variable new_Date : option value → date.
Variable getDay : Z → Z.

(** [editEvent]: the form is filled from the selection and the event is
    deleted, without waiting for the answer. *)
Definition editEvent (self : api) (selected : option selection) (p : page)
    (w : world) : page * world :=
  match selected with
  | None => (p, w)
  | Some sel =>
      let p1 :=
        Page (sel_title sel) (taskTime p) (sel_duration sel)
             ([8594%N; 32%N] ++ sel_start sel ++ [32%N; 8212%N; 32%N] ++ sel_end sel)
             (Some (sel_startIso sel))
             (currentWeekOffset p) (toast p) (weekLabel p) (todayBtn_hidden p) (view p) in
      let '(_, w') := delete_event self (sel_id sel) w in
      (showToast (str "Edit event and save") false p1, w')
  end.

(** [deleteEvent]; [confirmed] is the answer to the [confirm] dialog. *)
Definition deleteEvent (self : api) (now now' : Z) (selected : option selection)
    (confirmed : bool) (p : page) (w : world) : page * world :=
  match selected with
  | None => (p, w)
  | Some sel =>
      if confirmed then
        let '(result, w') := delete_event self (sel_id sel) w in
        if js_truthy (result !! "success"%string) then
          refreshCalendar events_query new_Date getDay self now now'
            (showToast (str "Event deleted") false p) w'
        else (showToast (str "Failed to delete event") true p, w')
      else (p, w)
  end.

(** [handleDrop] on the column of date [dateStr], [y] pixels below its top. *)
Definition handleDrop (self : api) (now now' : Z) (draggedEvent : option dragged)
    (dateStr : pystr) (y : N) (p : page) (w : world) : page * world :=
  match draggedEvent with
  | None => (p, w)
  | Some d =>
      let '(result, w') :=
        move_event fromisoformat self (drag_id d) (drop_time dateStr y)
          (drag_duration d) w in
      if js_truthy (result !! "success"%string) then
        refreshCalendar events_query new_Date getDay self now now'
          (showToast (str "Event moved") false p) w'
      else (showToast (str "Failed to move event") true p, w')
  end.

End Gestures.

(** ** A sample outside world

    Concrete stand-ins for the parameters, on which the definitions above
    can be run: readers of the plain formats that the libraries they stand
    for read in the same way. *)
Module Sample.

Definition digits_n (n : nat) : Re.regex := Re.Rep true n (Some n) Text.is_digit.

(** The number in a group, 0 when the group took no part in the match. *)
Definition number (g : gmap nat pystr) (i : nat) : Z :=
  default 0 (g !! i ≫= Py.literal).

(** [(\d{4})-(\d{2})-(\d{2})]. *)
Definition ymd : Re.regex :=
  Re.Seq (Re.Group 1 (digits_n 4))
    (Re.Seq (Re.Chr (Re.one 45))
       (Re.Seq (Re.Group 2 (digits_n 2))
          (Re.Seq (Re.Chr (Re.one 45)) (Re.Group 3 (digits_n 2))))).

(** [T(\d{2}):(\d{2}):(\d{2})]. *)
Definition hms : Re.regex :=
  Re.Seq (Re.Chr (Re.one 84))
    (Re.Seq (Re.Group 4 (digits_n 2))
       (Re.Seq (Re.Chr (Re.one 58))
          (Re.Seq (Re.Group 5 (digits_n 2))
             (Re.Seq (Re.Chr (Re.one 58)) (Re.Group 6 (digits_n 2)))))).

(** [([+-])(\d{2}):(\d{2})]. *)
Definition offset : Re.regex :=
  Re.Seq (Re.Group 7 (Re.Alt (Re.Chr (Re.one 43)) (Re.Chr (Re.one 45))))
    (Re.Seq (Re.Group 8 (digits_n 2))
       (Re.Seq (Re.Chr (Re.one 58)) (Re.Group 9 (digits_n 2)))).

Definition exactly (r : Re.regex) (s : pystr) : option (gmap nat pystr) :=
  Re.run r s ∅ (λ rest g, if bool_decide (rest = []) then Some g else None).

Definition checked (d : DT.datetime) : option DT.datetime :=
  if DT.valid d then Some d else None.

(** [datetime.fromisoformat] on [YYYY-MM-DDTHH:MM:SS], the format written
    by [isoformat] and by the page; anything else is refused. *)
Definition fromisoformat (s : pystr) : result DT.datetime :=
  match exactly (Re.Seq ymd hms) s
        ≫= (λ g, checked (DT.mk (number g 1) (number g 2) (number g 3)
                            (number g 4) (number g 5) (number g 6) 0)) with
  | Some d => Ok d
  | None => Raise (Exn ValueError (str "Invalid isoformat string: " ++ Py.repr s))
  end.

(** A clock time [H], [H:MM], with or without [am] or [pm], after an
    optional date [YYYY-MM-DD] and a space. *)
Definition clock : Re.regex :=
  Re.Seq (Re.Opt (Re.Seq ymd (Re.Chr (Re.one 32))))
    (Re.Seq (Re.Group 4 (Re.Rep true 1 (Some 2%nat) Text.is_digit))
       (Re.Seq (Re.Opt (Re.Seq (Re.Chr (Re.one 58)) (Re.Group 5 (digits_n 2))))
          (Re.Opt (Re.Group 6 Re.am_pm)))).

(** The hour of the day of hour [h] of period [period]. *)
Definition hour24 (h : Z) (period : option pystr) : option Z :=
  match period with
  | None => Some h
  | Some p =>
      if (1 <=? h) && (h <=? 12) then
        Some (h mod 12 + (if Re.letter_ci 112 (default 0%N (head p)) then 12 else 0))
      else None
  end.

(** [dateparser.parse] on clock times: a time without date is a time of
    the day [today]. *)
Definition dateparser_parse (today : DT.datetime) (s : pystr) : option DT.datetime :=
  g ← exactly clock s;
  h ← hour24 (number g 4) (g !! 6%nat);
  checked (DT.mk (if g !! 1%nat is Some _ then number g 1 else DT.year today)
                 (if g !! 2%nat is Some _ then number g 2 else DT.month today)
                 (if g !! 3%nat is Some _ then number g 3 else DT.day today)
                 h (number g 5) 0 0).

(** Milliseconds from the epoch to a naive date and time read as UTC. *)
Definition epoch_ms (d : DT.datetime) : Z :=
  (DT.to_us d - DT.to_us (DT.mk 1970 1 1 0 0 0 0)) / 1000.

(** [new Date(text)] on [YYYY-MM-DDTHH:MM:SS], in local time when no offset
    follows, for a zone [zone] minutes east of Greenwich; any other text
    and any value that is not a text give an invalid date here. *)
Definition new_Date (zone : Z) (v : option value) : date :=
  match v with
  | Some (VStr s) =>
      g ← exactly (Re.Seq ymd (Re.Seq hms (Re.Opt offset))) s;
      d ← checked (DT.mk (number g 1) (number g 2) (number g 3)
                         (number g 4) (number g 5) (number g 6) 0);
      let east :=
        match g !! 7%nat with
        | Some sign =>
            (if bool_decide (sign = [45%N]) then -1 else 1)
            * (number g 8 * 60 + number g 9)
        | None => zone
        end in
      Some (epoch_ms d - east * 60000)
  | _ => None
  end.

(** [getDay] in that zone: the epoch fell on a Thursday. *)
Definition getDay (zone : Z) (t : Z) : Z :=
  ((t + zone * 60000) / ms_per_day + 4) mod 7.

(** A service that answers a query with every event it stores. *)
Definition events_query (c : gmap pystr dict) (timeMin timeMax : pystr) : dict :=
  {[ "items"%string := VList ((λ kv, VDict kv.2) <$> map_to_list c) ]}.

(** Identifiers [e0], [e1], ... by the number of events stored. *)
Definition new_event_id (c : gmap pystr dict) : pystr :=
  str "e" ++ Text.decimal (Z.of_nat (size c)).

(** A connected and a disconnected object, and a quiet world on
    Wednesday 7 February 2024 at 10:00. *)
Definition online : api := Api (Some ()).
Definition offline : api := Api None.
Definition wednesday : DT.datetime := DT.mk 2024 2 7 10 0 0 0.
Definition quiet (c : gmap pystr dict) : world := World c [] [] [] wednesday None.

(** The zone of the samples: eight hours west of Greenwich. *)
Definition zone : Z := -480.

(** An event of the calendar service. *)
Definition standup : dict :=
  {[ "id" := VStr (str "e0");
     "summary" := VStr (str "Standup");
     "description" := VStr (str "Daily sync");
     "start" := time_block (DT.mk 2024 2 7 9 0 0 0);
     "end" := time_block (DT.mk 2024 2 7 9 15 0 0) ]}%string.

(** An event as [get_events] hands it to the page: a timed event on
    Wednesday 14 February 2024, from 10:00 to 11:00. *)
Definition dentist : dict :=
  {[ "id" := VStr (str "e1");
     "title" := VStr (str "Dentist");
     "start" := VStr (str "2024-02-14T10:00:00-08:00");
     "end" := VStr (str "2024-02-14T11:00:00-08:00");
     "isAllDay" := VBool false ]}%string.

(** The same event as the service stores it. *)
Definition dentist_stored : dict :=
  {[ "id" := VStr (str "e1");
     "summary" := VStr (str "Dentist");
     "start" := VDict {[ "dateTime" := VStr (str "2024-02-14T10:00:00-08:00") ]};
     "end" := VDict {[ "dateTime" := VStr (str "2024-02-14T11:00:00-08:00") ]} ]}%string.

(** Two timed events: one that starts with the week of Monday 12 February
    2024, one that starts seven days later. *)
Definition kickoff : dict :=
  {[ "id" := VStr (str "e2");
     "title" := VStr (str "Kickoff");
     "start" := VStr (str "2024-02-12T00:00:00-08:00");
     "end" := VStr (str "2024-02-12T01:00:00-08:00");
     "isAllDay" := VBool false ]}%string.
Definition next_kickoff : dict :=
  {[ "id" := VStr (str "e3");
     "title" := VStr (str "Kickoff");
     "start" := VStr (str "2024-02-19T00:00:00-08:00");
     "end" := VStr (str "2024-02-19T01:00:00-08:00");
     "isAllDay" := VBool false ]}%string.

(** Time values: Wednesday 7 February 2024 at 10:00, the Monday of the
    following week at 0:00, and the end of [dentist]. *)
Definition now_ms : Z := 1707328800000.
Definition next_monday_ms : Z := 1707724800000.
Definition dentist_end_ms : Z := 1707937200000.

(** A form filled in, with a duration that is no number. *)
Definition draft (duration : string) : page :=
  Page (str "Write report") (str "10am") (str duration) (str "parsed")
       (Some (str "2024-02-07T10:00:00")) 0 None None true None.

(** The page and the world after [addTask] on that form, connected, with
    an empty calendar. *)
Definition submit (duration : string) (w : world) : page * world :=
  addTask fromisoformat events_query new_event_id (new_Date zone) (getDay zone)
    online now_ms now_ms (draft duration) w.

(** A world in which the next call to leave the process fails. *)
Definition failing_once : world :=
  World ∅ [] [Some (Exn ProcessError (str "osascript failed"))] [] wednesday None.

(** An item of an answer that has no [start], and a service that hands it
    out beside a proper event. *)
Definition untimed : dict :=
  {[ "id" := VStr (str "e9"); "summary" := VStr (str "Note") ]}%string.
Definition careless_query (c : gmap pystr dict) (timeMin timeMax : pystr) : dict :=
  {[ "items"%string := VList [VDict dentist_stored; VDict untimed] ]}.

(** An event of the same day as [dentist], two hours earlier. *)
Definition checkup : dict :=
  {[ "id" := VStr (str "e4");
     "title" := VStr (str "Checkup");
     "start" := VStr (str "2024-02-14T08:00:00-08:00");
     "end" := VStr (str "2024-02-14T08:30:00-08:00");
     "isAllDay" := VBool false ]}%string.

(** A day off as the service stores it, and as [get_events] hands it to
    the page. *)
Definition holiday_stored : dict :=
  {[ "id" := VStr (str "e5");
     "summary" := VStr (str "Holiday");
     "start" := VDict {[ "date" := VStr (str "2024-02-14") ]};
     "end" := VDict {[ "date" := VStr (str "2024-02-15") ]} ]}%string.
Definition holiday : dict :=
  {[ "id" := VStr (str "e5");
     "title" := VStr (str "Holiday");
     "start" := VStr (str "2024-02-14");
     "end" := VStr (str "2024-02-15");
     "isAllDay" := VBool true ]}%string.

(** A form with a name and a text in the time field, nothing parsed yet. *)
Definition typed (time : string) : page :=
  Page (str "Write report") (str time) [] [] None 0 None None true None.

(** The stand-up as the context menu selects it. *)
Definition picked : selection :=
  Selection (str "e0") (str "Standup") (str "9:00 AM") (str "9:15 AM") (str "15")
    (str "2024-02-07T09:00:00").

End Sample.

(** * Properties *)

(** ** Dates and times *)
Module DTFacts.
Import DT.

(** Changing the hour moves the time value by whole hours. *)
Lemma to_us_hour (d : datetime) (h : Z) :
  to_us (mk (year d) (month d) (day d) h (minute d) (second d) (microsecond d))
  = to_us d + (h - hour d) * us_per_hour.
Proof. unfold to_us, toordinal, us_per_hour; simpl. lia. Qed.

(** [replace(hour=hour + 12)] succeeds exactly on a morning hour, and then
    adds twelve hours. *)
Lemma replace_hour_plus_12 (d : datetime) :
  0 <= hour d < 12 →
  ∃ d', replace_hour d (hour d + 12) = Ok d' ∧ to_us d' = to_us d + 12 * us_per_hour.
Proof.
  intros Hh. unfold replace_hour.
  replace ((0 <=? hour d + 12) && (hour d + 12 <? 24)) with true
    by (symmetry; apply andb_true_iff; split; [apply Z.leb_le | apply Z.ltb_lt]; lia).
  eexists; split; [reflexivity |]. rewrite to_us_hour. lia.
Qed.

Lemma replace_hour_overflow (d : datetime) :
  12 <= hour d →
  replace_hour d (hour d + 12) = Raise (Exn ValueError (str "hour must be in 0..23")).
Proof.
  intros Hh. unfold replace_hour.
  replace (hour d + 12 <? 24) with false by (symmetry; apply Z.ltb_ge; lia).
  by rewrite andb_false_r.
Qed.

(** A year has 365 days, or 366 when it is a leap year. *)
Lemma days_before_year_succ (y : Z) :
  days_before_year (y + 1) = days_before_year y + (if is_leap y then 366 else 365).
Proof.
  unfold days_before_year, is_leap. replace (y + 1 - 1) with y by lia.
  destruct (y mod 4 =? 0) eqn:E4; destruct (y mod 100 =? 0) eqn:E100;
    destruct (y mod 400 =? 0) eqn:E400; simpl;
    rewrite ?Z.eqb_eq, ?Z.eqb_neq in *; Z.div_mod_to_equations; lia.
Qed.

(** [find_year] stops at the year that holds the ordinal, given enough
    fuel to reach it from a year that is not too small. *)
Lemma find_year_spec (fuel : nat) : ∀ y n,
  n <= days_before_year (y + 1) →
  days_before_year (y - Z.of_nat fuel) < n →
  days_before_year (find_year fuel y n) < n <= days_before_year (find_year fuel y n + 1).
Proof.
  induction fuel as [| fuel IH]; intros y n Hup Hlow; simpl find_year.
  - replace (y - Z.of_nat 0) with y in Hlow by lia. lia.
  - destruct (days_before_year y <? n) eqn:E.
    + apply Z.ltb_lt in E. lia.
    + apply Z.ltb_ge in E. apply IH.
      * replace (y - 1 + 1) with y by lia. exact E.
      * replace (y - 1 - Z.of_nat fuel) with (y - Z.of_nat (S fuel)) by lia. exact Hlow.
Qed.

(** The estimate of [of_us] is within eight years above the year. *)
Lemma year_estimate (n : Z) :
  1 <= n <= 3652059 →
  n <= days_before_year ((n - 1) / 365 + 1 + 1)
  ∧ days_before_year ((n - 1) / 365 + 1 - Z.of_nat 8) < n.
Proof.
  intros Hn. unfold days_before_year. simpl Z.of_nat.
  split; Z.div_mod_to_equations; lia.
Qed.

Lemma days_before_month_succ (y m : Z) :
  1 <= m → days_before_month y (m + 1) = days_before_month y m + days_in_month y m.
Proof.
  intros Hm. unfold days_before_month.
  replace (Z.to_nat (m + 1 - 1)) with (S (Z.to_nat (m - 1))) by lia.
  cbn [days_in_months]. do 2 f_equal. lia.
Qed.

Lemma days_in_year (y : Z) :
  days_before_month y 13 = if is_leap y then 366 else 365.
Proof.
  unfold days_before_month. change (Z.to_nat (13 - 1)) with 12%nat.
  cbn [days_in_months]. unfold days_in_month. by destruct (is_leap y).
Qed.

Lemma days_in_month_pos (y m : Z) : 28 <= days_in_month y m <= 31.
Proof.
  unfold days_in_month.
  destruct (m =? 2); [destruct (is_leap y); lia |].
  destruct ((m =? 4) || (m =? 6) || (m =? 9) || (m =? 11)); lia.
Qed.

(** [find_month] finds the month and the day of a day of the year. *)
Lemma find_month_spec (y : Z) (fuel : nat) : ∀ m k,
  1 <= m → m + Z.of_nat fuel = 12 →
  1 <= k → days_before_month y m + k <= days_before_month y 13 →
  1 <= (find_month fuel y m k).1 <= 12
  ∧ 1 <= (find_month fuel y m k).2 <= days_in_month y (find_month fuel y m k).1
  ∧ days_before_month y (find_month fuel y m k).1 + (find_month fuel y m k).2
    = days_before_month y m + k.
Proof.
  induction fuel as [| fuel IH]; intros m k Hm Hf Hk Hup; cbn [find_month].
  - assert (m = 12) as -> by lia. cbn [fst snd].
    change 13 with (12 + 1) in Hup. rewrite days_before_month_succ in Hup by lia. lia.
  - destruct (Z.leb_spec k (days_in_month y m)); cbn [fst snd]; [lia |].
    destruct (IH (m + 1) (k - days_in_month y m)) as (H1 & H2 & H3); try lia.
    + rewrite days_before_month_succ by lia. lia.
    + rewrite days_before_month_succ in H3 by lia. lia.
Qed.

(** [of_us] is a right inverse of [to_us] on the time values of the years
    1 to 9999. *)
Lemma to_us_of_us (t : Z) : min_us <= t <= max_us → to_us (of_us t) = t.
Proof.
  unfold min_us, max_us, us_per_day. intros Ht.
  unfold of_us.
  set (n := t / us_per_day). set (r := t mod us_per_day).
  assert (Hn : 1 <= n <= 3652059).
  { subst n. unfold us_per_day. Z.div_mod_to_equations. lia. }
  destruct (year_estimate n Hn) as [Hup Hlow].
  pose proof (find_year_spec 8 _ n Hup Hlow) as Hy.
  set (y := find_year 8 ((n - 1) / 365 + 1) n) in *.
  rewrite days_before_year_succ in Hy.
  assert (H0 : days_before_month y 1 = 0) by reflexivity.
  pose proof (days_in_year y) as Hyear.
  pose proof (find_month_spec y 11 1 (n - days_before_year y)) as Hmd.
  destruct Hmd as (Hm & Hd & Hsum); try lia.
  destruct (find_month 11 y 1 (n - days_before_year y)) as [m d]. cbn [fst snd] in *.
  unfold to_us, toordinal. cbn [year month day hour minute second microsecond].
  replace (days_before_year y + days_before_month y m + d) with n by lia.
  subst n r. unfold us_per_day, us_per_hour, us_per_minute.
  Z.div_mod_to_equations. lia.
Qed.

(** [d + delta], when it does not overflow, is [delta] later than [d]. *)
Lemma add_to_us (d d' : datetime) (us : Z) :
  add d us = Ok d' → to_us d' = to_us d + us.
Proof.
  unfold add. destruct ((min_us <=? to_us d + us) && (to_us d + us <=? max_us)) eqn:E;
    [| discriminate].
  intros [= <-]. apply to_us_of_us. apply andb_true_iff in E as [E1 E2].
  apply Z.leb_le in E1, E2. lia.
Qed.
End DTFacts.

(** ** [parse_time] *)
Section ParseTimeFacts.

Variable dateparser_parse : pystr → option DT.datetime.

(** What [parse_time] does once a range is detected and its start parsed. *)
Lemma parse_time_range (time_input : pystr) (m : gmap nat pystr) (s : DT.datetime) :
  Re.search range_pattern time_input = Some m →
  dateparser_parse (Text.strip (Re.group m 1)) = Some s →
  parse_time dateparser_parse time_input =
    match dateparser_parse
            (DT.strftime_Ymd s ++ str " " ++ with_period s (Text.strip (Re.group m 2))) with
    | Some e =>
        e' ← next_period s e;
        Ok (parsed_result s (VInt (DT.minutes_between s e')))
    | None =>
        match dateparser_parse time_input with
        | Some parsed => Ok (parsed_result parsed VNone)
        | None => Ok could_not_parse
        end
    end.
Proof.
  intros Hm Hs. unfold parse_time, parse_range. rewrite Hm. cbv zeta. rewrite Hs.
  destruct (dateparser_parse (_ ++ _)) as [e |]; [| reflexivity].
  destruct (next_period s e); reflexivity.
Qed.

(** Where the hour of the end cannot take twelve more, [parse_time] raises. *)
Lemma parse_time_raises (time_input : pystr) (m : gmap nat pystr) (s e : DT.datetime) :
  Re.search range_pattern time_input = Some m →
  dateparser_parse (Text.strip (Re.group m 1)) = Some s →
  dateparser_parse
    (DT.strftime_Ymd s ++ str " " ++ with_period s (Text.strip (Re.group m 2))) = Some e →
  DT.le e s = true →
  12 <= DT.hour e →
  parse_time dateparser_parse time_input
  = Raise (Exn ValueError (str "hour must be in 0..23")).
Proof.
  intros Hm Hs He Hle Hh. rewrite (parse_time_range _ _ _ Hm Hs), He.
  unfold next_period. rewrite Hle, (DTFacts.replace_hour_overflow _ Hh). reflexivity.
Qed.

(** Where the end is not after the start and its hour is before noon, the
    end moves twelve hours and the duration is counted to there. *)
Lemma parse_time_next_period (time_input : pystr) (m : gmap nat pystr) (s e : DT.datetime) :
  Re.search range_pattern time_input = Some m →
  dateparser_parse (Text.strip (Re.group m 1)) = Some s →
  dateparser_parse
    (DT.strftime_Ymd s ++ str " " ++ with_period s (Text.strip (Re.group m 2))) = Some e →
  DT.le e s = true →
  0 <= DT.hour e < 12 →
  parse_time dateparser_parse time_input
  = Ok (parsed_result s
          (VInt (Z.quot (DT.to_us e + 12 * DT.us_per_hour - DT.to_us s) DT.us_per_minute))).
Proof.
  intros Hm Hs He Hle Hh. rewrite (parse_time_range _ _ _ Hm Hs), He.
  unfold next_period. rewrite Hle.
  destruct (DTFacts.replace_hour_plus_12 e Hh) as (e' & -> & He').
  cbn. unfold DT.minutes_between. by rewrite He'.
Qed.

(** Where the start or the end of a detected range is not parsed, the
    whole input is parsed as a single time. *)
Lemma parse_time_falls_back (time_input : pystr) (m : gmap nat pystr) :
  Re.search range_pattern time_input = Some m →
  (dateparser_parse (Text.strip (Re.group m 1)) = None
   ∨ ∃ s, dateparser_parse (Text.strip (Re.group m 1)) = Some s
          ∧ dateparser_parse
              (DT.strftime_Ymd s ++ str " " ++ with_period s (Text.strip (Re.group m 2)))
            = None) →
  parse_time dateparser_parse time_input
  = match dateparser_parse time_input with
    | Some parsed => Ok (parsed_result parsed VNone)
    | None => Ok could_not_parse
    end.
Proof.
  intros Hm [Hs | (s & Hs & He)].
  - unfold parse_time, parse_range. rewrite Hm. cbv zeta. by rewrite Hs.
  - by rewrite (parse_time_range _ _ _ Hm Hs), He.
Qed.

(** C8.  When no range is detected and the parse of the whole input yields
    nothing, [parse_time] returns the failure result: its flag is false, its
    message is the fixed text, and it has no rendering, no timestamp and
    no duration.  The input "not a time" holds no range. *)
Theorem parse_time_failure :
  (∀ time_input,
     Re.search range_pattern time_input = None →
     dateparser_parse time_input = None →
     parse_time dateparser_parse time_input = Ok could_not_parse)
  ∧ could_not_parse !! "success"%string = Some (VBool false)
  ∧ could_not_parse !! "message"%string = Some (VStr (str "Could not parse time"))
  ∧ could_not_parse !! "parsed"%string = None
  ∧ could_not_parse !! "iso"%string = None
  ∧ could_not_parse !! "duration"%string = None
  ∧ Re.search range_pattern (str "not a time") = None.
Proof.
  split; [| by vm_compute].
  intros time_input Hno Hnone. unfold parse_time, parse_range.
  rewrite Hno. simpl. by rewrite Hnone.
Qed.

(** C5.  In a detected range whose end names no period, the end is parsed
    with the period of the start appended, [am] when the start is before
    noon and [pm] otherwise, on the date of the start.  The duration
    returned is the end minus the start in minutes: the end as parsed when
    it is after the start, and twelve hours later when it is not and its
    hour is before noon.  For "9am - 11", a start at 9:00 and an end parsed
    from "11am" two hours later give 120 minutes. *)
Theorem parse_time_infers_period :
  (∀ time_input m s e,
     Re.search range_pattern time_input = Some m →
     Re.search period_pattern (Text.strip (Re.group m 2)) = None →
     dateparser_parse (Text.strip (Re.group m 1)) = Some s →
     dateparser_parse
       (DT.strftime_Ymd s ++ str " " ++ Text.strip (Re.group m 2)
        ++ (if DT.hour s <? 12 then str "am" else str "pm")) = Some e →
     (DT.le e s = false →
      parse_time dateparser_parse time_input
      = Ok (parsed_result s (VInt (Z.quot (DT.to_us e - DT.to_us s) DT.us_per_minute))))
     ∧ (DT.le e s = true → 0 <= DT.hour e < 12 →
        parse_time dateparser_parse time_input
        = Ok (parsed_result s
                (VInt (Z.quot (DT.to_us e + 12 * DT.us_per_hour - DT.to_us s)
                              DT.us_per_minute)))))
  ∧ (∀ s e,
       dateparser_parse (str "9am") = Some s →
       DT.hour s = 9 →
       dateparser_parse (DT.strftime_Ymd s ++ str " 11am") = Some e →
       DT.to_us e = DT.to_us s + 2 * DT.us_per_hour →
       parse_time dateparser_parse (str "9am - 11") = Ok (parsed_result s (VInt 120))).
Proof.
  assert (Hgen : ∀ time_input m s e,
     Re.search range_pattern time_input = Some m →
     Re.search period_pattern (Text.strip (Re.group m 2)) = None →
     dateparser_parse (Text.strip (Re.group m 1)) = Some s →
     dateparser_parse
       (DT.strftime_Ymd s ++ str " " ++ Text.strip (Re.group m 2)
        ++ (if DT.hour s <? 12 then str "am" else str "pm")) = Some e →
     (DT.le e s = false →
      parse_time dateparser_parse time_input
      = Ok (parsed_result s (VInt (Z.quot (DT.to_us e - DT.to_us s) DT.us_per_minute))))
     ∧ (DT.le e s = true → 0 <= DT.hour e < 12 →
        parse_time dateparser_parse time_input
        = Ok (parsed_result s
                (VInt (Z.quot (DT.to_us e + 12 * DT.us_per_hour - DT.to_us s)
                              DT.us_per_minute))))).
  { intros time_input m s e Hm Hnone Hs He.
    assert (Hwp : with_period s (Text.strip (Re.group m 2))
                  = Text.strip (Re.group m 2)
                    ++ (if DT.hour s <? 12 then str "am" else str "pm")).
    { unfold with_period. rewrite Hnone. by destruct (DT.hour s <? 12). }
    rewrite (parse_time_range _ _ _ Hm Hs), Hwp, He. unfold next_period.
    split.
    - intros Hle. rewrite Hle. reflexivity.
    - intros Hle Hh. rewrite Hle.
      destruct (DTFacts.replace_hour_plus_12 e Hh) as (e' & -> & He').
      simpl. unfold DT.minutes_between. by rewrite He'. }
  split; [exact Hgen |].
  intros s e Hs H9 He Hus.
  destruct (Hgen (str "9am - 11") {[ 1%nat := str "9am"; 2%nat := str "11" ]} s e)
    as [Hafter _].
  - by vm_compute.
  - by vm_compute.
  - exact Hs.
  - rewrite H9. exact He.
  - rewrite (Hafter ltac:(unfold DT.le; apply Z.leb_gt; unfold DT.us_per_hour in Hus; lia)).
    rewrite Hus. replace (DT.to_us s + 2 * DT.us_per_hour - DT.to_us s)
      with (2 * DT.us_per_hour) by lia.
    reflexivity.
Qed.

End ParseTimeFacts.

(** ** [parse_time] on the sample parser *)

(** A range is detected in "not a time" by no means, and the sample parser
    does not read it: the failure result. *)
Lemma parse_time_failure_witness :
  parse_time (Sample.dateparser_parse Sample.wednesday) (str "not a time")
  = Ok could_not_parse.
Proof.
  apply (proj1 (parse_time_failure (Sample.dateparser_parse Sample.wednesday)));
    vm_compute; reflexivity.
Defined.

(** "9am - 11" on the sample parser: 120 minutes from 9:00. *)
Lemma parse_time_infers_period_witness :
  parse_time (Sample.dateparser_parse Sample.wednesday) (str "9am - 11")
  = Ok (parsed_result (DT.mk 2024 2 7 9 0 0 0) (VInt 120)).
Proof.
  apply (proj2 (parse_time_infers_period (Sample.dateparser_parse Sample.wednesday))
           (DT.mk 2024 2 7 9 0 0 0) (DT.mk 2024 2 7 11 0 0 0));
    vm_compute; reflexivity.
Defined.

(** "9am - 2": the end is read as 2am, which is not after 9am, and moves
    to 2pm: 300 minutes. *)
Example parse_time_9am_2 :
  parse_time (Sample.dateparser_parse Sample.wednesday) (str "9am - 2")
  = Ok (parsed_result (DT.mk 2024 2 7 9 0 0 0) (VInt 300)).
Proof. vm_compute. reflexivity. Qed.

(** C2, at the input "11pm - 1".  The range is detected, the start is read
    as 23:00 and the end, with the period of the start, as 13:00.  The end
    is not after the start, the hour 13 + 12 is no hour, and [parse_time]
    raises [ValueError]: it neither adds twelve hours nor falls back to the
    parse of the whole input. *)
Theorem parse_time_11pm_1_raises :
  Re.search range_pattern (str "11pm - 1")
  = Some {[ 1%nat := str "11pm"; 2%nat := str "1" ]}
  ∧ Sample.dateparser_parse Sample.wednesday (str "11pm")
    = Some (DT.mk 2024 2 7 23 0 0 0)
  ∧ Sample.dateparser_parse Sample.wednesday (str "2024-02-07 1pm")
    = Some (DT.mk 2024 2 7 13 0 0 0)
  ∧ parse_time (Sample.dateparser_parse Sample.wednesday) (str "11pm - 1")
    = Raise (Exn ValueError (str "hour must be in 0..23"))
  ∧ parse_time (Sample.dateparser_parse Sample.wednesday) (str "3pm - 2pm")
    = Raise (Exn ValueError (str "hour must be in 0..23")).
Proof. repeat split; vm_compute; reflexivity. Qed.

(** C3, at the inputs "9am o 11" and "at 3pm".  The separator of the
    pattern is a class of characters, so the single letter o, or the t of
    "at", separates a start from an end: a range is detected in both, and
    "9am o 11" is parsed as the range from 9:00 to 11:00. *)
Theorem range_detected_by_a_letter :
  Re.search range_pattern (str "9am o 11")
  = Some {[ 1%nat := str "9am"; 2%nat := str "11" ]}
  ∧ Re.search range_pattern (str "at 3pm")
    = Some {[ 1%nat := str "a"; 2%nat := str "3pm" ]}
  ∧ parse_time (Sample.dateparser_parse Sample.wednesday) (str "9am o 11")
    = Ok (parsed_result (DT.mk 2024 2 7 9 0 0 0) (VInt 120)).
Proof. repeat split; vm_compute; reflexivity. Qed.

(** ** The gateway: [get_events], [delete_event], [move_event] *)

Lemma failure_flag (message : pystr) :
  failure message !! "success"%string = Some (VBool false).
Proof. unfold failure. by rewrite lookup_insert_eq. Qed.

Lemma failure_text (message : pystr) :
  failure message !! "message"%string = Some (VStr message).
Proof. unfold failure. by rewrite lookup_insert_ne, lookup_singleton_eq. Qed.

(** A call that has been attempted heads the trace, whatever its fate. *)
Lemma attempt_trace (c : call) (w : world) :
  trace (attempt c w).2 = c :: trace w
  ∧ calendar (attempt c w).2 = calendar w
  ∧ things (attempt c w).2 = things w
  ∧ faults (attempt c w).2 = tail (faults w).
Proof. unfold attempt. by destruct (faults w) as [| [e |] fs]. Qed.

Section GatewayFacts.

Variable fromisoformat : pystr → result DT.datetime.
Variable events_query : gmap pystr dict → pystr → pystr → dict.

(** C9.  With no service, [get_events], [delete_event] and [move_event]
    return at once a failure whose message is "Not connected": the world
    they return is the world they were given, trace of calls included, so
    nothing was asked of the service and nothing changed. *)
Theorem gateway_not_connected (self : api) (w : world) (week_offset : Z)
    (event_id new_start_iso : pystr) (duration_minutes : value) :
  service self = None →
  get_events events_query self week_offset w
  = ({[ "success" := VBool false; "events" := VList [];
        "message" := VStr (str "Not connected") ]}%string, w)
  ∧ delete_event self event_id w = (not_connected, w)
  ∧ move_event fromisoformat self event_id new_start_iso duration_minutes w
    = (not_connected, w)
  ∧ not_connected !! "success"%string = Some (VBool false)
  ∧ not_connected !! "message"%string = Some (VStr (str "Not connected")).
Proof.
  intros Hoff. unfold get_events, delete_event, move_event. rewrite Hoff.
  repeat split. all: by vm_compute.
Qed.

(** C10.  A move that succeeds has read the event, has parsed the new start
    and the duration, and has written back the event it read with two fields
    replaced: [start] by the new start, and [end] by the instant
    [duration_minutes] minutes later.  Every other field of the event, and
    every other event of the calendar, is as before; the two requests are
    the only calls made. *)
Theorem move_event_changes_start_and_end (self : api) (event_id new_start_iso : pystr)
    (duration_minutes : value) (w w' : world) (r : dict) :
  move_event fromisoformat self event_id new_start_iso duration_minutes w = (r, w') →
  r !! "success"%string = Some (VBool true) →
  ∃ event new_start new_end minutes,
    calendar w !! event_id = Some event
    ∧ fromisoformat (Text.replace_char 90 [] new_start_iso) = Ok new_start
    ∧ Py.int duration_minutes = Ok minutes
    ∧ DT.to_us new_end = DT.to_us new_start + minutes * DT.us_per_minute
    ∧ calendar w'
      = <[event_id := <["end"%string := time_block new_end]>
                        (<["start"%string := time_block new_start]> event)]>
          (calendar w)
    ∧ (∀ k : string, k ≠ "start"%string → k ≠ "end"%string →
         calendar w' !! event_id ≫= (λ ev, ev !! k) = event !! k)
    ∧ (∀ other, other ≠ event_id → calendar w' !! other = calendar w !! other)
    ∧ trace w'
      = EventsUpdate event_id
          (<["end"%string := time_block new_end]>
             (<["start"%string := time_block new_start]> event))
        :: EventsGet event_id :: trace w
    ∧ things w' = things w.
Proof.
  unfold move_event. destruct (service self); cycle 1.
  { intros [= <- <-] Hr. by vm_compute in Hr. }
  unfold try_io, events_get, events_update, lift, io_get, io_put, io_raise.
  unfold mbind, io_bind, mret, io_ret.
  pose proof (attempt_trace (EventsGet event_id) w) as (Ht1 & Hc1 & Hth1 & _).
  destruct (attempt (EventsGet event_id) w) as [[[] | e1] w1]; cbn [fst snd] in *;
    [| intros [= <- <-] Hr; by rewrite failure_flag in Hr].
  rewrite Hc1.
  destruct (calendar w !! event_id) as [event |] eqn:Hev;
    [| intros [= <- <-] Hr; by rewrite failure_flag in Hr].
  destruct (fromisoformat _) as [new_start | e2] eqn:Hstart;
    [| intros [= <- <-] Hr; by rewrite failure_flag in Hr].
  destruct (Py.int duration_minutes) as [minutes | e3] eqn:Hmin;
    [| intros [= <- <-] Hr; by rewrite failure_flag in Hr].
  destruct (DT.timedelta _) as [delta | e4] eqn:Hdelta;
    [| intros [= <- <-] Hr; by rewrite failure_flag in Hr].
  destruct (DT.add new_start delta) as [new_end | e5] eqn:Hend;
    [| intros [= <- <-] Hr; by rewrite failure_flag in Hr].
  set (body := <["end"%string := time_block new_end]>
                 (<["start"%string := time_block new_start]> event)).
  pose proof (attempt_trace (EventsUpdate event_id body) w1) as (Ht2 & Hc2 & Hth2 & _).
  destruct (attempt (EventsUpdate event_id body) w1) as [[[] | e6] w2];
    cbn [fst snd] in *; [| intros [= <- <-] Hr; by rewrite failure_flag in Hr].
  rewrite Hc2, Hc1, Hev. intros [= <- <-] _.
  assert (delta = minutes * DT.us_per_minute) as ->.
  { unfold DT.timedelta in Hdelta. by destruct (_ && _); inversion Hdelta. }
  exists event, new_start, new_end, minutes.
  unfold set_calendar; cbn [calendar trace things].
  rewrite Ht2, Ht1, Hth2, Hth1.
  repeat split; try done.
  - by apply DTFacts.add_to_us.
  - intros k Hk1 Hk2. rewrite lookup_insert_eq. cbn. subst body.
    by rewrite !lookup_insert_ne.
  - intros other Hne. by rewrite lookup_insert_ne.
Qed.

End GatewayFacts.

(** ** Submitting a task: [add_task] and [addTask] *)

(** [add_to_things] runs its script whatever happens, and reports whether
    the run succeeded. *)
Lemma add_to_things_attempts (task_name : pystr) (t : DT.datetime) (w : world) :
  (add_to_things task_name t w).1 = next_call_succeeds w
  ∧ trace (add_to_things task_name t w).2 = Osascript (things_script task_name t) :: trace w
  ∧ calendar (add_to_things task_name t w).2 = calendar w
  ∧ faults (add_to_things task_name t w).2 = tail (faults w).
Proof.
  unfold add_to_things, try_io, osascript, next_call_succeeds, attempt.
  unfold mbind, io_bind, mret, io_ret, io_get, io_put.
  by destruct (faults w) as [| [e |] fs].
Qed.

Section SubmissionFacts.

Variable fromisoformat : pystr → result DT.datetime.
Variable events_query : gmap pystr dict → pystr → pystr → dict.
Variable new_event_id : gmap pystr dict → pystr.
Variable new_Date : option value → date.
Variable getDay : Z → Z.

(** Once connected and with an end that can be computed,
    [add_to_calendar] sends its request whatever happens. *)
Lemma add_to_calendar_attempts (self : api) (task_name : pystr) (t end_time : DT.datetime)
    (minutes : Z) (w : world) :
  service self = Some () →
  DT.timedelta (minutes * DT.us_per_minute) = Ok (minutes * DT.us_per_minute) →
  DT.add t (minutes * DT.us_per_minute) = Ok end_time →
  (add_to_calendar new_event_id self task_name t minutes w).1 = next_call_succeeds w
  ∧ trace (add_to_calendar new_event_id self task_name t minutes w).2
    = EventsInsert {[ "summary" := VStr task_name; "start" := time_block t;
                      "end" := time_block end_time ]}%string :: trace w.
Proof.
  intros Hs Hd He. unfold add_to_calendar, try_io, events_insert, lift.
  unfold next_call_succeeds, attempt. rewrite Hs.
  unfold mbind, io_bind, mret, io_ret, io_get, io_put. rewrite Hd, He.
  by destruct (faults w) as [| [e |] fs].
Qed.

Lemma refreshCalendar_draft (self : api) (now now' : Z) (p : page) (w : world) :
  draft_of (refreshCalendar events_query new_Date getDay self now now' p w).1 = draft_of p.
Proof.
  unfold refreshCalendar. destruct (get_events _ _ _ _) as [result w'].
  by destruct (js_truthy _).
Qed.

(** C6, as amended.  Once [add_task] has converted the start time and the
    duration, it runs the Things step and then the calendar step whatever
    the first returned; the result carries one flag for each and a success
    flag that is their conjunction; the script of Things is always run, and
    the request to the calendar is always sent when the object is connected
    and the end of the event can be computed.  When a conversion raises,
    the result is a failure and no call has been made.  The page empties
    the draft when the result is a success and leaves it as it was
    otherwise. *)
Theorem add_task_attempts_both (self : api) (task_name time_iso : pystr)
    (duration_minutes : value) (w : world) :
  (∀ start_time duration,
     fromisoformat time_iso = Ok start_time →
     (if truthy duration_minutes then Py.int duration_minutes else Ok 60) = Ok duration →
     ∃ things_ok calendar_ok w1 w2,
       add_to_things task_name start_time w = (things_ok, w1)
       ∧ add_to_calendar new_event_id self task_name start_time duration w1
         = (calendar_ok, w2)
       ∧ add_task fromisoformat new_event_id self task_name time_iso duration_minutes w
         = ({[ "success" := VBool (things_ok && calendar_ok);
               "things" := VBool things_ok;
               "calendar" := VBool calendar_ok ]}%string, w2)
       ∧ trace w1 = Osascript (things_script task_name start_time) :: trace w
       ∧ (∀ end_time,
            service self = Some () →
            DT.timedelta (duration * DT.us_per_minute) = Ok (duration * DT.us_per_minute) →
            DT.add start_time (duration * DT.us_per_minute) = Ok end_time →
            trace w2
            = EventsInsert {[ "summary" := VStr task_name;
                              "start" := time_block start_time;
                              "end" := time_block end_time ]}%string
              :: Osascript (things_script task_name start_time) :: trace w))
  ∧ (∀ e,
       fromisoformat time_iso = Raise e
       ∨ (∃ start_time, fromisoformat time_iso = Ok start_time)
         ∧ (if truthy duration_minutes then Py.int duration_minutes else Ok 60) = Raise e →
       add_task fromisoformat new_event_id self task_name time_iso duration_minutes w
       = (failure (exn_message e), w))
  ∧ (∀ now now' p,
       let out := addTask fromisoformat events_query new_event_id new_Date getDay
                    self now now' p w in
       let name := Text.js_trim (taskName p) in
       let duration := if bool_decide (Text.js_trim (taskDuration p) = []) then str "60"
                       else Text.js_trim (taskDuration p) in
       match parsedTimeISO p with
       | Some (c :: iso) =>
           if bool_decide (name = []) then draft_of out.1 = draft_of p ∧ out.2 = w
           else if js_truthy ((add_task fromisoformat new_event_id self name (c :: iso)
                                 (VStr duration) w).1 !! "success"%string)
           then draft_of out.1 = ([], [], [], [], None)
           else draft_of out.1 = draft_of p
       | _ => draft_of out.1 = draft_of p ∧ out.2 = w
       end).
Proof.
  split; [| split].
  - intros start_time duration Hstart Hdur.
    pose proof (add_to_things_attempts task_name start_time w) as (Hok & Htr & _).
    destruct (add_to_things task_name start_time w) as [things_ok w1] eqn:Hthings.
    destruct (add_to_calendar new_event_id self task_name start_time duration w1)
      as [calendar_ok w2] eqn:Hcal.
    exists things_ok, calendar_ok, w1, w2. cbn [fst snd] in *.
    repeat split; try done.
    + unfold add_task, try_io, lift, call_total.
      unfold mbind, io_bind, mret, io_ret. rewrite Hstart, Hdur, Hthings, Hcal. done.
    + intros end_time Hs Hd He.
      pose proof (add_to_calendar_attempts self task_name start_time end_time
                    duration w1 Hs Hd He) as [_ Htr2].
      rewrite Hcal in Htr2. cbn [snd] in Htr2. by rewrite Htr2, Htr.
  - intros e [Hstart | [[start_time Hstart] Hdur]];
      unfold add_task, try_io, lift, call_total;
      unfold mbind, io_bind, mret, io_ret; rewrite Hstart; [done |].
    by rewrite Hdur.
  - intros now now' p. cbv zeta. unfold addTask.
    destruct (parsedTimeISO p) as [[| c iso] |]; case_bool_decide; try done.
    destruct (add_task _ _ _ _ _ _ _) as [result w']. cbn [fst].
    destruct (js_truthy _); [| done].
    by rewrite refreshCalendar_draft.
Qed.

End SubmissionFacts.

(** ** The week view: [renderCalendar] and [updateTodaySchedule] *)
Section PageFacts.

Variable new_Date : option value → date.
Variable getDay : Z → Z.

Lemma timed_of_day_snoc (weekStart : date) (now : Z) (events : list dict)
    (event : dict) (j : nat) :
  timed_of_day new_Date weekStart now (events ++ [event]) j
  = timed_of_day new_Date weekStart now events j
    ++ (if in_day new_Date weekStart j event
           && negb (js_truthy (event !! "isAllDay"%string))
        then [timed_entry_of new_Date now event] else []).
Proof.
  unfold timed_of_day. rewrite filter_app, fmap_app. f_equal.
  rewrite filter_cons, filter_nil. destruct (_ && _); by case_decide.
Qed.

Lemma allday_of_day_snoc (weekStart : date) (now : Z) (events : list dict)
    (event : dict) (j : nat) :
  allday_of_day new_Date weekStart now (events ++ [event]) j
  = allday_of_day new_Date weekStart now events j
    ++ (if in_day new_Date weekStart j event && js_truthy (event !! "isAllDay"%string)
        then [allday_entry_of new_Date now event] else []).
Proof.
  unfold allday_of_day. rewrite filter_app, fmap_app. f_equal.
  rewrite filter_cons, filter_nil. destruct (_ && _); by case_decide.
Qed.

(** Placing one more event. *)
Lemma place_event_snoc (weekStart : date) (now : Z) (events : list dict) (event : dict) :
  place_event new_Date weekStart now (buckets_of new_Date weekStart now events) event
  = buckets_of new_Date weekStart now (events ++ [event]).
Proof.
  unfold place_event, buckets_of.
  change (seq 0 7) with [0; 1; 2; 3; 4; 5; 6]%nat. cbn [fmap list_fmap].
  rewrite !timed_of_day_snoc, !allday_of_day_snoc. unfold in_day.
  destruct (day_index _ weekStart) as [i |]; cbn [andb]; [| by rewrite !app_nil_r].
  destruct (Z.leb_spec 0 i); destruct (Z.ltb_spec i 7); cbn [andb];
    cycle 1.
  - rewrite !(proj2 (Z.eqb_neq i _)) by lia. cbn [andb]. by rewrite !app_nil_r.
  - rewrite !(proj2 (Z.eqb_neq i _)) by lia. cbn [andb]. by rewrite !app_nil_r.
  - lia.
  - assert (Hi : i = 0 ∨ i = 1 ∨ i = 2 ∨ i = 3 ∨ i = 4 ∨ i = 5 ∨ i = 6) by lia.
    destruct (js_truthy (event !! "isAllDay"%string));
      destruct Hi as [-> | [-> | [-> | [-> | [-> | [-> | ->]]]]]];
      cbn; by rewrite ?app_nil_r.
Qed.

Lemma group_events_from (weekStart : date) (now : Z) (events done : list dict) :
  foldl (place_event new_Date weekStart now) (buckets_of new_Date weekStart now done) events
  = buckets_of new_Date weekStart now (done ++ events).
Proof.
  revert done. induction events as [| event events IH]; intros done; cbn [foldl].
  - by rewrite app_nil_r.
  - rewrite place_event_snoc, IH. by rewrite <- app_assoc.
Qed.

(** [group_events] puts in bucket [j] the events of day index [j], in the
    order of the list, and nothing else. *)
Lemma group_events_buckets (events : list dict) (weekStart : date) (now : Z) :
  group_events new_Date events weekStart now = buckets_of new_Date weekStart now events.
Proof. unfold group_events. apply (group_events_from weekStart now events []). Qed.

End PageFacts.

Section WeekViewFacts.

Variable new_Date : option value → date.
Variable getDay : Z → Z.

(** What a bucket of timed events holds. *)
Lemma timed_bucket (events : list dict) (weekStart : date) (now : Z) (j : nat)
    (l : list timed_entry) :
  eventsByDay (group_events new_Date events weekStart now) !! j = Some l ↔
  (j < 7)%nat ∧ l = timed_of_day new_Date weekStart now events j.
Proof.
  rewrite group_events_buckets. unfold buckets_of. cbn [eventsByDay].
  rewrite list_lookup_fmap. split.
  - destruct (seq 0 7 !! j) as [j' |] eqn:Hj; [| done].
    apply lookup_seq in Hj as [-> Hlt]. by intros [= <-].
  - intros [Hlt ->]. by rewrite (lookup_seq_lt 0 7 j Hlt).
Qed.

Lemma allday_bucket (events : list dict) (weekStart : date) (now : Z) (j : nat)
    (l : list allday_entry) :
  allDayByDay (group_events new_Date events weekStart now) !! j = Some l ↔
  (j < 7)%nat ∧ l = allday_of_day new_Date weekStart now events j.
Proof.
  rewrite group_events_buckets. unfold buckets_of. cbn [allDayByDay].
  rewrite list_lookup_fmap. split.
  - destruct (seq 0 7 !! j) as [j' |] eqn:Hj; [| done].
    apply lookup_seq in Hj as [-> Hlt]. by intros [= <-].
  - intros [Hlt ->]. by rewrite (lookup_seq_lt 0 7 j Hlt).
Qed.

(** C7.  The layout groups the events by the day index
    [floor((start - anchor) / 1 day)]: bucket [j] of the timed events, and
    of the all-day events, holds the events of index [j] in the order of the
    list, and there are seven buckets, so an event whose index is not one of
    0 to 6 is in none.  An event that starts at the anchor is in bucket 0; an
    event that starts seven times 24 hours later is dropped. *)
Theorem events_grouped_by_day_index (events : list dict) (weekStart : date) (now : Z) :
  group_events new_Date events weekStart now = buckets_of new_Date weekStart now events
  ∧ (∀ event s w,
       new_Date (event !! "start"%string) = Some s →
       weekStart = Some w →
       (∀ j l entry,
          eventsByDay (group_events new_Date events weekStart now) !! j = Some l →
          entry ∈ l → timed_event entry = event →
          Z.of_nat j = (s - w) / ms_per_day ∧ (j < 7)%nat)
       ∧ (∀ j l entry,
            allDayByDay (group_events new_Date events weekStart now) !! j = Some l →
            entry ∈ l → allday_event entry = event →
            Z.of_nat j = (s - w) / ms_per_day ∧ (j < 7)%nat)
       ∧ (event ∈ events → 0 <= (s - w) / ms_per_day < 7 →
          if js_truthy (event !! "isAllDay"%string)
          then ∃ l, allDayByDay (group_events new_Date events weekStart now)
                      !! Z.to_nat ((s - w) / ms_per_day) = Some l
                    ∧ allday_entry_of new_Date now event ∈ l
          else ∃ l, eventsByDay (group_events new_Date events weekStart now)
                      !! Z.to_nat ((s - w) / ms_per_day) = Some l
                    ∧ timed_entry_of new_Date now event ∈ l))
  ∧ (∀ event w,
       new_Date (event !! "start"%string) = Some w →
       group_events new_Date [event] (Some w) now
       = if js_truthy (event !! "isAllDay"%string)
         then Buckets (replicate 7 [])
                ([allday_entry_of new_Date now event] :: replicate 6 [])
         else Buckets ([timed_entry_of new_Date now event] :: replicate 6 [])
                (replicate 7 []))
  ∧ (∀ event w,
       new_Date (event !! "start"%string) = Some (w + 7 * ms_per_day) →
       group_events new_Date [event] (Some w) now = empty_buckets).
Proof.
  split; [apply group_events_buckets |]. split; [| split].
  - intros event s w Hs ->.
    assert (Hin : ∀ j, in_day new_Date (Some w) j event = true →
                       Z.of_nat j = (s - w) / ms_per_day).
    { intros j. unfold in_day. rewrite Hs. cbn. by intros ->%Z.eqb_eq. }
    split; [| split].
    + intros j l entry [Hj ->]%timed_bucket Hentry <-. split; [| done].
      unfold timed_of_day in Hentry.
      apply list_elem_of_fmap in Hentry as (e & -> & He).
      apply list_elem_of_filter in He as [He _]. cbn.
      apply andb_true_iff in He as [He _]. by apply Hin.
    + intros j l entry [Hj ->]%allday_bucket Hentry <-. split; [| done].
      unfold allday_of_day in Hentry.
      apply list_elem_of_fmap in Hentry as (e & -> & He).
      apply list_elem_of_filter in He as [He _]. cbn.
      apply andb_true_iff in He as [He _]. by apply Hin.
    + intros Hev Hi.
      assert (Hday : in_day new_Date (Some w) (Z.to_nat ((s - w) / ms_per_day)) event = true).
      { unfold in_day. rewrite Hs. cbn. apply Z.eqb_eq. lia. }
      destruct (js_truthy (event !! "isAllDay"%string)) eqn:Hall.
      * eexists. split; [apply allday_bucket; split; [lia | reflexivity] |].
        apply list_elem_of_fmap_2, list_elem_of_filter. by rewrite Hday, Hall.
      * eexists. split; [apply timed_bucket; split; [lia | reflexivity] |].
        apply list_elem_of_fmap_2, list_elem_of_filter. by rewrite Hday, Hall.
  - intros event w Hs.
    unfold group_events, place_event, timed_entry_of, allday_entry_of. cbn [foldl].
    rewrite Hs. unfold day_index. rewrite Z.sub_diag.
    change (0 / ms_per_day) with 0. cbn.
    by destruct (js_truthy _).
  - intros event w Hs. unfold group_events, place_event. cbn [foldl].
    rewrite Hs. unfold day_index.
    replace ((w + 7 * ms_per_day - w) / ms_per_day) with 7; [done |].
    replace (w + 7 * ms_per_day - w) with (7 * ms_per_day) by lia.
    by rewrite Z.div_mul.
Qed.

(** C4, as amended.  The completed flag is [end < now], strictly: an event
    is marked completed, in the grid and in the agenda, exactly when its
    end is a valid date earlier than [now].  An event whose end is [now]
    is not marked completed; in the agenda it is under way if it has
    started. *)
Theorem completed_is_strictly_before_now (now : Z) (event : dict) :
  (item_completed (schedule_item_of new_Date now event) = true
   ↔ ∃ e, new_Date (event !! "end"%string) = Some e ∧ e < now)
  ∧ (∀ events weekStart j l entry,
       eventsByDay (group_events new_Date events weekStart now) !! j = Some l →
       entry ∈ l →
       (timed_colorClass entry = "event-completed"%string
        ↔ ∃ e, new_Date (timed_event entry !! "end"%string) = Some e ∧ e < now))
  ∧ (new_Date (event !! "end"%string) = Some now →
     item_completed (schedule_item_of new_Date now event) = false
     ∧ timed_colorClass (timed_entry_of new_Date now event) = "event-normal"%string
     ∧ (∀ s, new_Date (event !! "start"%string) = Some s → s <= now →
          item_status (schedule_item_of new_Date now event) = Arrow_mark)).
Proof.
  assert (Hlt : ∀ d, date_lt d (Some now) = true ↔ ∃ e, d = Some e ∧ e < now).
  { intros [e |]; cbn; split.
    - intros H%Z.ltb_lt. eauto.
    - intros (e' & [= <-] & H). by apply Z.ltb_lt.
    - done.
    - by intros (e' & [=] & _). }
  split; [| split].
  - cbn. apply Hlt.
  - intros events weekStart j l entry [_ ->]%timed_bucket Hentry.
    unfold timed_of_day in Hentry.
    apply list_elem_of_fmap in Hentry as (e & -> & _). cbn.
    rewrite <- Hlt. unfold color_class. by destruct (date_lt _ _).
  - intros Hend. unfold schedule_item_of, timed_entry_of. cbn. rewrite Hend. cbn.
    rewrite Z.ltb_irrefl. cbn. repeat split.
    intros s -> Hs. cbn. rewrite Z.leb_refl.
    by replace (s <=? now) with true by (symmetry; by apply Z.leb_le).
Qed.

(** The agenda does not look at the week offset: it holds the timed events
    whose day index, counted from the start of the week displayed, is the
    index of today's day of the week. *)
Lemma agenda_of_displayed_week (events : list dict) (weekStart : date)
    (weekOffset now now' : Z) :
  todaySchedule (renderCalendar new_Date getDay events weekStart weekOffset now now')
  = updateTodaySchedule new_Date events weekStart (today_index getDay now) now'.
Proof. reflexivity. Qed.

Lemma insert_by_start_length (x : dict) (l : list dict) :
  length (insert_by_start new_Date x l) = S (length l).
Proof.
  induction l as [| y l IH]; cbn; [done |].
  destruct (starts_before new_Date y x); cbn; by rewrite ?IH.
Qed.

Lemma sort_by_start_length (l : list dict) :
  length (sort_by_start new_Date l) = length l.
Proof.
  unfold sort_by_start. induction l as [| x l IH]; cbn [foldr]; [done |].
  by rewrite insert_by_start_length, IH.
Qed.

(** The agenda says that the day is clear exactly when no event passes the
    filter. *)
Lemma agenda_clear_iff (events : list dict) (weekStart : date) (todayIdx now : Z) :
  updateTodaySchedule new_Date events weekStart todayIdx now = Day_clear
  ↔ ∀ event, event ∈ events → is_today_event new_Date weekStart todayIdx event = false.
Proof.
  unfold updateTodaySchedule. cbv zeta. rewrite sort_by_start_length.
  case_bool_decide as Hlen; split; try done.
  - intros _ event Hev. apply length_zero_iff_nil in Hlen.
    destruct (is_today_event _ _ _ event) eqn:Hp; [| done].
    assert (Hin : event ∈ filter (λ e, is_today_event new_Date weekStart todayIdx e = true)
                            events) by by apply list_elem_of_filter.
    rewrite Hlen in Hin. by apply elem_of_nil in Hin.
  - intros Hnone. exfalso. apply Hlen.
    destruct (filter _ events) as [| e l] eqn:Hf; [done |].
    assert (Hin : e ∈ filter (λ e, is_today_event new_Date weekStart todayIdx e = true)
                        events) by (rewrite Hf; left).
    apply list_elem_of_filter in Hin as [Hp Hev]. by rewrite (Hnone e Hev) in Hp.
Qed.

(** Whatever the week displayed, a timed event of that week on today's day
    of the week is listed. *)
Lemma agenda_lists_same_weekday (events : list dict) (weekStart : date)
    (weekOffset now now' : Z) (event : dict) :
  event ∈ events →
  js_truthy (event !! "isAllDay"%string) = false →
  day_index (new_Date (event !! "start"%string)) weekStart
  = Some (today_index getDay now) →
  todaySchedule (renderCalendar new_Date getDay events weekStart weekOffset now now')
  ≠ Day_clear.
Proof.
  intros Hev Hall Hday. rewrite agenda_of_displayed_week.
  intros Hclear. pose proof (proj1 (agenda_clear_iff _ _ _ _) Hclear event Hev) as Hno.
  unfold is_today_event in Hno. rewrite Hall, Hday, Z.eqb_refl in Hno. done.
Qed.

End WeekViewFacts.

(** ** The theorems at work on the sample world *)

(** Disconnected, [delete_event] answers "Not connected" and leaves the
    world as it is. *)
Lemma gateway_not_connected_witness :
  delete_event Sample.offline (str "e0") (Sample.quiet {[ str "e0" := Sample.standup ]})
  = (not_connected, Sample.quiet {[ str "e0" := Sample.standup ]}).
Proof.
  destruct (gateway_not_connected Sample.fromisoformat Sample.events_query
              Sample.offline (Sample.quiet {[ str "e0" := Sample.standup ]}) 0
              (str "e0") (str "2024-02-08T14:00:00") (VInt 45) eq_refl)
    as (_ & Hdelete & _).
  exact Hdelete.
Defined.

(** Moving the stand-up to the next day keeps its description. *)
Lemma move_event_changes_start_and_end_witness :
  calendar (move_event Sample.fromisoformat Sample.online (str "e0")
              (str "2024-02-08T14:00:00Z") (VInt 45)
              (Sample.quiet {[ str "e0" := Sample.standup ]})).2
    !! str "e0" ≫= (λ ev, ev !! "description"%string)
  = Some (VStr (str "Daily sync")).
Proof.
  destruct (move_event_changes_start_and_end Sample.fromisoformat Sample.online
              (str "e0") (str "2024-02-08T14:00:00Z") (VInt 45)
              (Sample.quiet {[ str "e0" := Sample.standup ]}) _ _
              (surjective_pairing _))
    as (event & new_start & new_end & minutes & Hev & _ & _ & _ & _ & Hframe & _).
  - vm_compute. reflexivity.
  - rewrite Hframe by done. unfold Sample.quiet in Hev. cbn [calendar] in Hev.
    rewrite lookup_singleton_eq in Hev. injection Hev as <-.
    vm_compute. reflexivity.
Defined.

(** C6, at a duration that is no number.  The form holds the task "Write
    report", a parsed time and the duration "abc".  [add_task] raises in
    [int], returns a failure without the flags [things] and [calendar], and
    has called neither Things nor the calendar; the page announces that both
    failed and keeps the draft. *)
Lemma add_task_bad_duration_attempts_nothing :
  add_task Sample.fromisoformat Sample.new_event_id Sample.online (str "Write report")
    (str "2024-02-07T10:00:00") (VStr (str "abc")) (Sample.quiet ∅)
  = (failure (str "invalid literal for int() with base 10: 'abc'"), Sample.quiet ∅)
  ∧ failure (str "invalid literal for int() with base 10: 'abc'") !! "things"%string = None
  ∧ failure (str "invalid literal for int() with base 10: 'abc'") !! "calendar"%string = None
  ∧ trace (Sample.submit "abc" (Sample.quiet ∅)).2 = []
  ∧ toast (Sample.submit "abc" (Sample.quiet ∅)).1
    = Some (str "Failed to add task (Things) (Calendar)", true)
  ∧ draft_of (Sample.submit "abc" (Sample.quiet ∅)).1 = draft_of (Sample.draft "abc").
Proof. repeat split; vm_compute; reflexivity. Qed.

(** With a duration of 60 and Things failing, the calendar is asked all the
    same: the result reports the failure of Things and the success of the
    calendar. *)
Lemma add_task_attempts_both_witness :
  add_task Sample.fromisoformat Sample.new_event_id Sample.online (str "Write report")
    (str "2024-02-07T10:00:00") (VStr (str "60")) Sample.failing_once
  = ({[ "success" := VBool false; "things" := VBool false;
        "calendar" := VBool true ]}%string,
     (add_to_calendar Sample.new_event_id Sample.online (str "Write report")
        (DT.mk 2024 2 7 10 0 0 0) 60
        (add_to_things (str "Write report") (DT.mk 2024 2 7 10 0 0 0)
           Sample.failing_once).2).2).
Proof.
  destruct (proj1 (add_task_attempts_both Sample.fromisoformat Sample.events_query
                     Sample.new_event_id (Sample.new_Date Sample.zone)
                     (Sample.getDay Sample.zone) Sample.online (str "Write report")
                     (str "2024-02-07T10:00:00") (VStr (str "60")) Sample.failing_once)
              (DT.mk 2024 2 7 10 0 0 0) 60 eq_refl eq_refl)
    as (things_ok & calendar_ok & w1 & w2 & Hthings & Hcal & Htask & _).
  rewrite Htask, Hthings. cbn [snd]. rewrite Hcal. cbn [snd].
  vm_compute in Hthings. injection Hthings as <- <-.
  vm_compute in Hcal. injection Hcal as <- <-.
  reflexivity.
Defined.

(** An event that starts with the week is in bucket 0. *)
Lemma events_grouped_by_day_index_witness :
  group_events (Sample.new_Date Sample.zone) [Sample.kickoff]
    (Some Sample.next_monday_ms) Sample.now_ms
  = Buckets ([timed_entry_of (Sample.new_Date Sample.zone) Sample.now_ms Sample.kickoff]
             :: replicate 6 [])
            (replicate 7 []).
Proof.
  destruct (events_grouped_by_day_index (Sample.new_Date Sample.zone) []
              None Sample.now_ms) as (_ & _ & Hanchor & _).
  apply (Hanchor Sample.kickoff Sample.next_monday_ms). vm_compute. reflexivity.
Defined.

(** An event that starts seven days after the week is in no bucket. *)
Example next_kickoff_dropped :
  group_events (Sample.new_Date Sample.zone) [Sample.next_kickoff]
    (Some Sample.next_monday_ms) Sample.now_ms
  = empty_buckets.
Proof. vm_compute. reflexivity. Qed.

(** C4, at an event that ends now.  When the clock shows the very end of
    the event, the event is not marked completed: its class in the grid is
    "event-normal" and its mark in the agenda is the arrow of an event under
    way. *)
Lemma event_ending_now_not_completed :
  Sample.new_Date Sample.zone (Sample.dentist !! "end"%string)
  = Some Sample.dentist_end_ms
  ∧ item_completed (schedule_item_of (Sample.new_Date Sample.zone)
                      Sample.dentist_end_ms Sample.dentist) = false
  ∧ item_status (schedule_item_of (Sample.new_Date Sample.zone)
                   Sample.dentist_end_ms Sample.dentist) = Arrow_mark
  ∧ (timed_colorClass
       <$> eventsByDay (group_events (Sample.new_Date Sample.zone) [Sample.dentist]
                          (Some Sample.next_monday_ms) Sample.dentist_end_ms)
           !! 2%nat ≫= head)
    = Some "event-normal"%string.
Proof. repeat split; vm_compute; reflexivity. Qed.

(** At the end of the event, the flag is false. *)
Lemma completed_is_strictly_before_now_witness :
  item_completed (schedule_item_of (Sample.new_Date Sample.zone)
                    Sample.dentist_end_ms Sample.dentist) = false.
Proof.
  destruct (completed_is_strictly_before_now (Sample.new_Date Sample.zone)
              Sample.dentist_end_ms Sample.dentist) as (_ & _ & Hnow).
  apply Hnow. vm_compute. reflexivity.
Defined.

(** C1, on Wednesday 7 February 2024 with the following week displayed.
    The sidebar is given the events of the displayed week and the start of
    that week, and filters them by the index of today's day of the week:
    the event of Wednesday 14 February passes the filter, and the agenda
    headed TODAY lists it instead of being empty.  The same is seen from
    the page after [navigateWeek(1)] on a calendar that holds the event. *)
Theorem sidebar_lists_other_week :
  today_index (Sample.getDay Sample.zone) Sample.now_ms = 2
  ∧ todaySchedule
      (renderCalendar (Sample.new_Date Sample.zone) (Sample.getDay Sample.zone)
         [Sample.dentist] (Some Sample.next_monday_ms) 1 Sample.now_ms Sample.now_ms)
    = Day_items [ScheduleItem Sample.dentist false Circle_mark (Some 1707933600000)]
  ∧ todaySchedule
      <$> view (navigateWeek Sample.events_query (Sample.new_Date Sample.zone)
                  (Sample.getDay Sample.zone) Sample.online 1 Sample.now_ms
                  Sample.now_ms (Sample.draft "60")
                  (Sample.quiet {[ str "e1" := Sample.dentist_stored ]})).1
    = Some (Day_items [ScheduleItem Sample.dentist false Circle_mark
                         (Some 1707933600000)]).
Proof. repeat split; vm_compute; reflexivity. Qed.

(** * Further properties *)

(** ** Dates and times, continued *)
Module DTMore.
Import DT.

(** The ordinal of [of_us]. *)
Lemma toordinal_of_us (t : Z) :
  min_us <= t <= max_us → toordinal (of_us t) = t / us_per_day.
Proof.
  intros Ht. unfold min_us, max_us, us_per_day in Ht.
  unfold of_us.
  set (n := t / us_per_day).
  assert (Hn : 1 <= n <= 3652059).
  { subst n. unfold us_per_day. Z.div_mod_to_equations. lia. }
  destruct (DTFacts.year_estimate n Hn) as [Hup Hlow].
  pose proof (DTFacts.find_year_spec 8 _ n Hup Hlow) as Hy.
  set (y := find_year 8 ((n - 1) / 365 + 1) n) in *.
  rewrite DTFacts.days_before_year_succ in Hy.
  assert (H0 : days_before_month y 1 = 0) by reflexivity.
  pose proof (DTFacts.days_in_year y) as Hyear.
  pose proof (DTFacts.find_month_spec y 11 1 (n - days_before_year y)) as Hmd.
  destruct Hmd as (Hm & Hd & Hsum); try lia.
  destruct (find_month 11 y 1 (n - days_before_year y)) as [m d]. cbn [fst snd] in *.
  unfold toordinal. cbn [year month day]. lia.
Qed.

(** A time value that is a whole number of days is a midnight. *)
Lemma of_us_midnight (n : Z) :
  hour (of_us (n * us_per_day)) = 0 ∧ minute (of_us (n * us_per_day)) = 0
  ∧ second (of_us (n * us_per_day)) = 0 ∧ microsecond (of_us (n * us_per_day)) = 0.
Proof.
  unfold of_us. rewrite Z.mod_mul by done.
  destruct (find_month _ _ _ _). by cbn.
Qed.

Lemma to_us_midnight (d : datetime) : to_us (midnight d) = toordinal d * us_per_day.
Proof.
  unfold to_us, midnight, toordinal, us_per_day.
  cbn [year month day hour minute second microsecond]. lia.
Qed.

Lemma weekday_range (d : datetime) : 0 <= weekday d < 7.
Proof. unfold weekday. apply Z.mod_pos_bound. lia. Qed.

(** The time of day of a valid value is less than a day. *)
Lemma to_us_day (d : datetime) :
  valid d = true →
  toordinal d * us_per_day <= to_us d < (toordinal d + 1) * us_per_day.
Proof.
  unfold valid. rewrite !andb_true_iff, !Z.leb_le, !Z.ltb_lt.
  unfold to_us, us_per_day. lia.
Qed.

Lemma timedelta_ok (us delta : Z) : timedelta us = Ok delta → delta = us.
Proof. unfold timedelta. destruct (_ && _); by intros [=]. Qed.

Lemma add_range (d d' : datetime) (us : Z) :
  add d us = Ok d' →
  min_us <= to_us d + us <= max_us ∧ d' = of_us (to_us d + us).
Proof.
  unfold add. destruct (_ && _) eqn:E; [| done]. intros [= <-].
  apply andb_true_iff in E as [E1 E2]. apply Z.leb_le in E1, E2. done.
Qed.

End DTMore.

(** ** [get_events], connected *)

(** Stepping through code in [io]. *)
Lemma lift_bind {A B} (r : result A) (k : A → io B) (w : world) :
  (x ← lift r; k x) w = match r with Ok a => k a w | Raise e => (Raise e, w) end.
Proof. by destruct r. Qed.

Lemma io_assoc {A B C} (m : io A) (f : A → io B) (k : B → io C) (w : world) :
  (x ← (y ← m; f y); k x) w = (y ← m; x ← f y; k x) w.
Proof.
  unfold mbind, io_bind. destruct (m w) as [[a | e] w1]; [| done].
  by destruct (f a w1) as [[b | e] w2].
Qed.

Lemma attempt_bind {B} (c : call) (k : unit → io B) (w : world) :
  (x ← attempt c; k x) w =
    if next_call_succeeds w then k () (attempt c w).2
    else (Raise (default not_found (head (faults w) ≫= id)), (attempt c w).2).
Proof.
  unfold mbind, io_bind, next_call_succeeds, attempt.
  by destruct (faults w) as [| [e |] fs].
Qed.

Lemma io_get_bind {B} (k : world → io B) (w : world) : (x ← io_get; k x) w = k w w.
Proof. reflexivity. Qed.

Lemma io_put_bind {B} (w' : world) (k : unit → io B) (w : world) :
  (x ← io_put w'; k x) w = k () w'.
Proof. reflexivity. Qed.

Lemma mret_bind {A B} (a : A) (k : A → io B) (w : world) : (x ← mret a; k x) w = k a w.
Proof. reflexivity. Qed.

Lemma io_raise_bind {A B} (e : exn) (k : A → io B) (w : world) :
  (x ← io_raise e; k x) w = (Raise e, w).
Proof. reflexivity. Qed.

Lemma ok_bind {A B} (a : A) (k : A → result B) : (x ← Ok a; k x) = k a.
Proof. reflexivity. Qed.

Lemma raise_bind {A B} (e : exn) (k : A → result B) : (x ← Raise e; k x) = Raise e.
Proof. reflexivity. Qed.

Lemma bind_ok {A B} (r : result A) (k : A → result B) (b : B) :
  (x ← r; k x) = Ok b → ∃ a, r = Ok a ∧ k a = Ok b.
Proof. destruct r as [a | e]; [eauto | done]. Qed.

(** The week of [week_window]: it begins on a Monday at midnight,
    [week_offset] weeks from the Monday on or before [now], and ends one
    second before the next. *)
Lemma week_window_spec (now monday sunday : DT.datetime) (week_offset : Z) :
  week_window now week_offset = Ok (monday, sunday) →
  DT.weekday monday = 0
  ∧ (DT.hour monday, DT.minute monday, DT.second monday, DT.microsecond monday)
    = (0, 0, 0, 0)
  ∧ DT.to_us monday
    = (DT.toordinal now - DT.weekday now + 7 * week_offset) * DT.us_per_day
  ∧ DT.to_us sunday = DT.to_us monday + 7 * DT.us_per_day - 1000000.
Proof.
  unfold week_window. cbv zeta. intros H.
  apply bind_ok in H as (back & Hback & H).
  apply DTMore.timedelta_ok in Hback as ->.
  apply bind_ok in H as (monday0 & Hm0 & H).
  apply bind_ok in H as (forth & Hforth & H).
  apply DTMore.timedelta_ok in Hforth as ->.
  apply bind_ok in H as (monday' & Hm & H).
  apply bind_ok in H as (sunday' & Hsun & H).
  injection H as <- <-.
  pose proof (DTFacts.add_to_us _ _ _ Hm0) as H0.
  pose proof (DTFacts.add_to_us _ _ _ Hm) as H1.
  pose proof (DTFacts.add_to_us _ _ _ Hsun) as H2.
  rewrite DTMore.to_us_midnight in H0.
  change (DT.weekday (DT.midnight now)) with (DT.weekday now) in H0.
  assert (Hus : DT.to_us monday'
                = (DT.toordinal now - DT.weekday now + 7 * week_offset) * DT.us_per_day)
    by lia.
  apply DTMore.add_range in Hm as [Hrange ->].
  replace (DT.to_us monday0 + week_offset * 7 * DT.us_per_day)
    with ((DT.toordinal now - DT.weekday now + 7 * week_offset) * DT.us_per_day) in *
    by lia.
  repeat split; try done; try lia.
  - unfold DT.weekday at 1. rewrite DTMore.toordinal_of_us by done.
    rewrite Z.div_mul by done. unfold DT.weekday.
    replace (DT.toordinal now - (DT.toordinal now + 6) mod 7 + 7 * week_offset + 6)
      with ((DT.toordinal now + 6) - (DT.toordinal now + 6) mod 7 + week_offset * 7) by lia.
    rewrite Z.mod_add by done. rewrite Zminus_mod, Zmod_mod, Z.sub_diag. done.
  - destruct (DTMore.of_us_midnight
                (DT.toordinal now - DT.weekday now + 7 * week_offset))
      as (-> & -> & -> & ->). done.
Qed.

Section GetEventsFacts.

Variable events_query : gmap pystr dict → pystr → pystr → dict.

(** [get_events], connected, is made of its parts: the week, one request,
    and the conversion of the items of the answer. *)
Lemma get_events_parts (self : api) (week_offset : Z) (w : world) :
  service self = Some () →
  get_events events_query self week_offset w =
    match week_window (clock w) week_offset with
    | Raise e => (events_failure e, w)
    | Ok (monday, sunday) =>
        let timeMin := DT.isoformat monday ++ str "Z" in
        let timeMax := DT.isoformat sunday ++ str "Z" in
        let w1 := (attempt (EventsList timeMin timeMax) w).2 in
        if next_call_succeeds w then
          match items ← Py.iterate
                          (default (VList [])
                             (events_query (calendar w) timeMin timeMax !! "items"%string));
                convert_events items with
          | Ok events => (events_success events monday sunday week_offset, w1)
          | Raise e => (events_failure e, w1)
          end
        else
          (events_failure (default not_found (head (faults w) ≫= id)), w1)
    end.
Proof.
  intros Hs. unfold get_events, week_window. rewrite Hs. unfold try_io. cbv zeta.
  rewrite lift_bind.
  destruct (DT.timedelta _) as [back | e]; [rewrite ok_bind | reflexivity].
  rewrite lift_bind.
  destruct (DT.add (DT.midnight (clock w)) _) as [monday0 | e];
    [rewrite ok_bind | reflexivity].
  rewrite lift_bind.
  destruct (DT.timedelta _) as [forth | e]; [rewrite ok_bind | reflexivity].
  rewrite lift_bind.
  destruct (DT.add monday0 _) as [monday | e]; [rewrite ok_bind | reflexivity].
  rewrite lift_bind.
  destruct (DT.add monday _) as [sunday | e]; [rewrite ok_bind | reflexivity].
  unfold events_list, next_call_succeeds, attempt, io_get, lift.
  unfold mbind, io_bind, result_bind, mret, io_ret.
  destruct (faults w) as [| [e |] fs];
    cbn [fst snd calendar head tail option_bind id default].
  - destruct (Py.iterate _) as [items | e]; [| reflexivity].
    by destruct (convert_events items).
  - reflexivity.
  - destruct (Py.iterate _) as [items | e]; [| reflexivity].
    by destruct (convert_events items).
Qed.

End GetEventsFacts.

(** ** What [get_events] returns *)

Lemma events_failure_lookup (e : exn) :
  events_failure e !! "success"%string = Some (VBool false)
  ∧ events_failure e !! "events"%string = Some (VList []).
Proof.
  unfold events_failure. rewrite lookup_insert_eq.
  by rewrite lookup_insert_ne, lookup_insert_eq.
Qed.

Lemma events_success_lookup (events : list value) (monday sunday : DT.datetime)
    (week_offset : Z) :
  events_success events monday sunday week_offset !! "success"%string = Some (VBool true)
  ∧ events_success events monday sunday week_offset !! "events"%string
    = Some (VList events)
  ∧ events_success events monday sunday week_offset !! "weekStart"%string
    = Some (VStr (DT.isoformat monday))
  ∧ events_success events monday sunday week_offset !! "weekEnd"%string
    = Some (VStr (DT.isoformat sunday))
  ∧ events_success events monday sunday week_offset !! "weekOffset"%string
    = Some (VInt week_offset).
Proof.
  unfold events_success.
  split; [by rewrite lookup_insert_eq |].
  split; [by rewrite lookup_insert_ne, lookup_insert_eq |].
  split; [rewrite !lookup_insert_ne by done; by rewrite lookup_insert_eq |].
  split; [rewrite !lookup_insert_ne by done; by rewrite lookup_insert_eq |].
  rewrite !lookup_insert_ne by done. by rewrite lookup_singleton_eq.
Qed.

(** A successful conversion, read backwards. *)
Lemma convert_event_ok (item event : value) :
  convert_event item = Ok event → converted item event.
Proof.
  unfold convert_event, event_time. intros H.
  apply bind_ok in H as (start & Hstart & H).
  apply bind_ok in Hstart as (sb & Hsb & Hstart).
  apply bind_ok in Hstart as (sdate & Hsdate & Hstart).
  apply bind_ok in H as (end_ & Hend & H).
  apply bind_ok in Hend as (eb & Heb & Hend).
  apply bind_ok in Hend as (edate & Hedate & Hend).
  apply bind_ok in H as (id & Hid & H).
  apply bind_ok in H as (title & Htitle & H).
  apply bind_ok in H as (has_T & HT & H).
  injection H as <-.
  destruct item as [| | | | | d]; try done. cbn in Hsb, Heb, Hid, Htitle.
  destruct (d !! "start"%string) as [sb' |] eqn:Hs; [| done]. injection Hsb as ->.
  destruct (d !! "end"%string) as [eb' |] eqn:He; [| done]. injection Heb as ->.
  destruct sb as [| | | | | sb]; try done.
  destruct eb as [| | | | | eb]; try done.
  cbn in Hsdate, Hstart, Hedate, Hend.
  injection Hsdate as <-. injection Hstart as <-.
  injection Hedate as <-. injection Hend as <-.
  injection Hid as <-. injection Htitle as <-.
  exists d, sb, eb, has_T. by rewrite Hs, He.
Qed.

Lemma convert_events_ok (items events : list value) :
  convert_events items = Ok events → Forall2 converted items events.
Proof.
  revert events. induction items as [| item items IH]; intros events; cbn [convert_events].
  - intros [= <-]. constructor.
  - intros H. apply bind_ok in H as (e & He & H).
    apply bind_ok in H as (es & Hes & H). injection H as <-.
    constructor; [by apply convert_event_ok | by apply IH].
Qed.

(** One item that cannot be converted makes the conversion of all fail. *)
Lemma convert_events_raise (items : list value) (item : value) (e : exn) :
  item ∈ items → convert_event item = Raise e →
  ∃ e', convert_events items = Raise e'.
Proof.
  intros Hin Hitem. induction Hin as [item items | item other items Hin IH];
    cbn [convert_events].
  - rewrite Hitem. eauto.
  - destruct (convert_event other) as [ev | e1]; [| eauto].
    rewrite ok_bind. destruct (IH Hitem) as [e' ->]. eauto.
Qed.

Section GetEventsResults.

Variable events_query : gmap pystr dict → pystr → pystr → dict.

(** X1.  A successful [get_events] returns the week it asked for: it
    begins on a Monday at 0:00:00, [week_offset] weeks from the Monday on or
    before today, and ends at 23:59:59 on the Sunday; the request to the
    service carries these two local times with the letter Z added.  The
    week of offset 0 contains the present instant. *)
Theorem get_events_week (self : api) (week_offset : Z) (w w' : world) (r : dict) :
  get_events events_query self week_offset w = (r, w') →
  r !! "success"%string = Some (VBool true) →
  ∃ monday sunday,
    r !! "weekStart"%string = Some (VStr (DT.isoformat monday))
    ∧ r !! "weekEnd"%string = Some (VStr (DT.isoformat sunday))
    ∧ r !! "weekOffset"%string = Some (VInt week_offset)
    ∧ DT.weekday monday = 0
    ∧ (DT.hour monday, DT.minute monday, DT.second monday, DT.microsecond monday)
      = (0, 0, 0, 0)
    ∧ DT.to_us monday
      = (DT.toordinal (clock w) - DT.weekday (clock w) + 7 * week_offset) * DT.us_per_day
    ∧ DT.to_us sunday = DT.to_us monday + 7 * DT.us_per_day - 1000000
    ∧ trace w'
      = EventsList (DT.isoformat monday ++ str "Z") (DT.isoformat sunday ++ str "Z")
        :: trace w
    ∧ (DT.valid (clock w) = true → week_offset = 0 →
       DT.to_us monday <= DT.to_us (clock w) < DT.to_us monday + 7 * DT.us_per_day).
Proof.
  destruct (service self) as [[] |] eqn:Hs; cycle 1.
  { unfold get_events. rewrite Hs. intros [= <- <-] Hr. by vm_compute in Hr. }
  rewrite (get_events_parts _ _ _ _ Hs).
  destruct (week_window (clock w) week_offset) as [[monday sunday] | e] eqn:Hw;
    [| intros [= <- <-] Hr; by rewrite (proj1 (events_failure_lookup e)) in Hr].
  cbv zeta. destruct (next_call_succeeds w);
    [| intros [= <- <-] Hr; by rewrite (proj1 (events_failure_lookup _)) in Hr].
  destruct (_ ≫= _) as [events | e];
    [| intros [= <- <-] Hr; by rewrite (proj1 (events_failure_lookup e)) in Hr].
  intros [= <- <-] _.
  destruct (events_success_lookup events monday sunday week_offset)
    as (_ & _ & H1 & H2 & H3).
  destruct (week_window_spec _ _ _ _ Hw) as (Hwd & Hmid & Hmon & Hsun).
  exists monday, sunday. repeat split; try done.
  - apply attempt_trace.
  - pose proof (DTMore.to_us_day _ H) as Hday.
    pose proof (DTMore.weekday_range (clock w)). unfold DT.us_per_day in *. lia.
  - pose proof (DTMore.to_us_day _ H) as Hday.
    pose proof (DTMore.weekday_range (clock w)). unfold DT.us_per_day in *. lia.
Qed.

(** X2.  [get_events] only reads: whatever it returns, the calendar and
    Things are as before, and it has made no call or the one request that
    lists events. *)
Theorem get_events_only_reads (self : api) (week_offset : Z) (w : world) :
  calendar (get_events events_query self week_offset w).2 = calendar w
  ∧ things (get_events events_query self week_offset w).2 = things w
  ∧ (trace (get_events events_query self week_offset w).2 = trace w
     ∨ ∃ timeMin timeMax,
         trace (get_events events_query self week_offset w).2
         = EventsList timeMin timeMax :: trace w).
Proof.
  destruct (service self) as [[] |] eqn:Hs; cycle 1.
  { unfold get_events. rewrite Hs. cbn. auto. }
  rewrite (get_events_parts _ _ _ _ Hs).
  destruct (week_window (clock w) week_offset) as [[monday sunday] | e];
    [| cbn; auto].
  cbv zeta.
  pose proof (attempt_trace (EventsList (DT.isoformat monday ++ str "Z")
                               (DT.isoformat sunday ++ str "Z")) w)
    as (Ht & Hc & Hth & _).
  destruct (next_call_succeeds w); [destruct (_ ≫= _) |]; cbn [snd]; eauto 10.
Qed.

(** X3.  The events of a successful [get_events] are the items of the
    answer, one for one and in their order.  Each item is a dictionary with
    a [start] and an [end] block; its event has the entries [id], [title]
    ([summary], or "No title"), [start] and [end] (the [dateTime] of the
    block, or else its [date]) and [isAllDay], which is true exactly when
    the start holds no letter T. *)
Theorem get_events_converts_items (self : api) (week_offset : Z) (w w' : world)
    (r : dict) :
  get_events events_query self week_offset w = (r, w') →
  r !! "success"%string = Some (VBool true) →
  ∃ monday sunday items events,
    week_window (clock w) week_offset = Ok (monday, sunday)
    ∧ Py.iterate
        (default (VList [])
           (events_query (calendar w) (DT.isoformat monday ++ str "Z")
              (DT.isoformat sunday ++ str "Z") !! "items"%string))
      = Ok items
    ∧ r !! "events"%string = Some (VList events)
    ∧ Forall2 converted items events.
Proof.
  destruct (service self) as [[] |] eqn:Hs; cycle 1.
  { unfold get_events. rewrite Hs. intros [= <- <-] Hr. by vm_compute in Hr. }
  rewrite (get_events_parts _ _ _ _ Hs).
  destruct (week_window (clock w) week_offset) as [[monday sunday] | e] eqn:Hw;
    [| intros [= <- <-] Hr; by rewrite (proj1 (events_failure_lookup e)) in Hr].
  cbv zeta. destruct (next_call_succeeds w);
    [| intros [= <- <-] Hr; by rewrite (proj1 (events_failure_lookup _)) in Hr].
  destruct (Py.iterate _) as [items | e] eqn:Hitems;
    [rewrite ok_bind
    | intros [= <- <-] Hr; by rewrite (proj1 (events_failure_lookup e)) in Hr].
  destruct (convert_events items) as [events | e] eqn:Hconv;
    [| intros [= <- <-] Hr; by rewrite (proj1 (events_failure_lookup e)) in Hr].
  intros [= <- <-] _. exists monday, sunday, items, events.
  split; [done |]. split; [done |].
  split; [apply events_success_lookup | by apply convert_events_ok].
Qed.

(** X4.  One item without a [start] is enough for [get_events] to fail:
    when the request goes through and an item of the answer cannot be
    converted, the result is a failure with an empty list of events, and
    no event of the week is shown.  An item that is a dictionary without
    the key [start] is such an item. *)
Theorem get_events_fails_on_one_item (self : api) (week_offset : Z) (w : world)
    (monday sunday : DT.datetime) (items : list value) (item : value) (e : exn) :
  service self = Some () →
  week_window (clock w) week_offset = Ok (monday, sunday) →
  next_call_succeeds w = true →
  events_query (calendar w) (DT.isoformat monday ++ str "Z")
    (DT.isoformat sunday ++ str "Z") !! "items"%string = Some (VList items) →
  item ∈ items →
  convert_event item = Raise e →
  (get_events events_query self week_offset w).1 !! "success"%string = Some (VBool false)
  ∧ (get_events events_query self week_offset w).1 !! "events"%string = Some (VList [])
  ∧ (∀ d : dict, d !! "start"%string = None →
       convert_event (VDict d) = Raise (Exn KeyError (Py.repr (str "start")))).
Proof.
  intros Hs Hw Hnext Hq Hin Hitem.
  rewrite (get_events_parts _ _ _ _ Hs), Hw. cbv zeta. rewrite Hnext, Hq.
  change (default (VList []) (Some (VList items))) with (VList items).
  cbn [Py.iterate]. rewrite ok_bind.
  destruct (convert_events_raise items item e Hin Hitem) as [e' ->]. cbn [fst].
  split; [apply events_failure_lookup |]. split; [apply events_failure_lookup |].
  intros d Hd. unfold convert_event, event_time. cbn [Py.subscript]. by rewrite Hd.
Qed.

End GetEventsResults.

(** ** What the mutations do to the calendar *)

Lemma success_flag : success !! "success"%string = Some (VBool true).
Proof. reflexivity. Qed.

Section MutationFacts.

Variable fromisoformat : pystr → result DT.datetime.
Variable new_event_id : gmap pystr dict → pystr.

(** [delete_event], connected: one request, and the event goes if the
    request goes through and the event is there. *)
Lemma delete_event_parts (self : api) (event_id : pystr) (w : world) :
  service self = Some () →
  delete_event self event_id w =
    let w1 := (attempt (EventsDelete event_id) w).2 in
    if next_call_succeeds w then
      match calendar w !! event_id with
      | Some _ => (success, set_calendar (delete event_id (calendar w)) w1)
      | None => (failure (exn_message not_found), w1)
      end
    else (failure (exn_message (default not_found (head (faults w) ≫= id))), w1).
Proof.
  intros Hs. unfold delete_event. rewrite Hs.
  unfold try_io, events_delete, next_call_succeeds, attempt, io_get, io_put, io_raise.
  unfold mbind, io_bind, mret, io_ret.
  destruct (faults w) as [| [e |] fs]; cbn [fst snd calendar head tail option_bind id default];
    try reflexivity; by destruct (calendar w !! event_id).
Qed.

(** X5.  Connected, [delete_event] makes exactly one request.  It reports
    success exactly when the request goes through and the event exists; the
    event is then gone and every other event is as before.  When it reports
    a failure the calendar is unchanged. *)
Theorem delete_event_removes_one (self : api) (event_id : pystr) (w : world) :
  service self = Some () →
  trace (delete_event self event_id w).2 = EventsDelete event_id :: trace w
  ∧ ((delete_event self event_id w).1 !! "success"%string = Some (VBool true)
     ↔ next_call_succeeds w = true ∧ is_Some (calendar w !! event_id))
  ∧ ((delete_event self event_id w).1 !! "success"%string = Some (VBool true) →
     calendar (delete_event self event_id w).2 !! event_id = None
     ∧ ∀ other, other ≠ event_id →
         calendar (delete_event self event_id w).2 !! other = calendar w !! other)
  ∧ ((delete_event self event_id w).1 !! "success"%string = Some (VBool false) →
     calendar (delete_event self event_id w).2 = calendar w).
Proof.
  intros Hs. rewrite (delete_event_parts _ _ _ Hs). cbv zeta.
  pose proof (attempt_trace (EventsDelete event_id) w) as (Ht & Hc & _).
  destruct (next_call_succeeds w); [destruct (calendar w !! event_id) as [ev |] eqn:Hev |];
    cbn [fst snd]; unfold set_calendar; cbn [calendar trace];
    rewrite ?failure_flag, ?success_flag.
  - repeat split; try done; eauto.
    + by rewrite lookup_delete_eq.
    + intros other Hne. by rewrite lookup_delete_ne.
  - repeat split; try done. by intros [_ []].
  - repeat split; try done. by intros [].
Qed.

Lemma move_event_parts (self : api) (event_id new_start_iso : pystr)
    (duration_minutes : value) (w : world) :
  service self = Some () →
  move_event fromisoformat self event_id new_start_iso duration_minutes w =
    let w1 := (attempt (EventsGet event_id) w).2 in
    if next_call_succeeds w then
      match calendar w !! event_id with
      | None => (failure (exn_message not_found), w1)
      | Some event =>
          match new_times fromisoformat new_start_iso duration_minutes with
          | Raise e => (failure (exn_message e), w1)
          | Ok (new_start, new_end) =>
              let body := <["end"%string := time_block new_end]>
                            (<["start"%string := time_block new_start]> event) in
              let w2 := (attempt (EventsUpdate event_id body) w1).2 in
              if next_call_succeeds w1
              then (success, set_calendar (<[event_id := body]> (calendar w)) w2)
              else (failure (exn_message (default not_found (head (faults w1) ≫= id))), w2)
          end
      end
    else (failure (exn_message (default not_found (head (faults w) ≫= id))), w1).
Proof.
  intros Hs. unfold move_event, new_times. rewrite Hs.
  unfold try_io, events_get. cbv zeta.
  pose proof (attempt_trace (EventsGet event_id) w) as (_ & Hc & _).
  rewrite io_assoc, attempt_bind.
  destruct (next_call_succeeds w); [| reflexivity].
  rewrite io_assoc, io_get_bind, Hc.
  destruct (calendar w !! event_id) as [event |] eqn:Hev; [| reflexivity].
  rewrite mret_bind, lift_bind.
  destruct (fromisoformat _) as [new_start | e1]; [rewrite ok_bind | reflexivity].
  rewrite lift_bind.
  destruct (Py.int duration_minutes) as [minutes | e2]; [rewrite ok_bind | reflexivity].
  rewrite lift_bind.
  destruct (DT.timedelta _) as [delta | e3]; [rewrite ok_bind | reflexivity].
  rewrite lift_bind.
  destruct (DT.add new_start delta) as [new_end | e4]; [rewrite ok_bind | reflexivity].
  unfold events_update. rewrite io_assoc, attempt_bind.
  destruct (next_call_succeeds _); [| reflexivity].
  rewrite io_assoc, io_get_bind.
  pose proof (attempt_trace
                (EventsUpdate event_id
                   (<["end"%string := time_block new_end]>
                      (<["start"%string := time_block new_start]> event)))
                (attempt (EventsGet event_id) w).2) as (_ & Hc2 & _).
  rewrite Hc2, Hc, Hev. reflexivity.
Qed.

(** X6.  [move_event] changes the calendar only when it reports success:
    on any failure (the event is not found, the new start or the duration
    cannot be read, the end overflows, a request fails) the calendar is as
    before.  It makes at most two requests, the first of which reads the
    event, and it succeeds whenever both requests go through, the event
    exists and the new times can be computed. *)
Theorem move_event_all_or_nothing (self : api) (event_id new_start_iso : pystr)
    (duration_minutes : value) (w : world) :
  ((move_event fromisoformat self event_id new_start_iso duration_minutes w).1
     !! "success"%string = Some (VBool true)
   ∨ (move_event fromisoformat self event_id new_start_iso duration_minutes w).1
       !! "success"%string = Some (VBool false)
     ∧ calendar (move_event fromisoformat self event_id new_start_iso
                   duration_minutes w).2 = calendar w)
  ∧ (trace (move_event fromisoformat self event_id new_start_iso duration_minutes w).2
     = trace w
     ∨ trace (move_event fromisoformat self event_id new_start_iso duration_minutes w).2
       = EventsGet event_id :: trace w
     ∨ ∃ body,
         trace (move_event fromisoformat self event_id new_start_iso duration_minutes w).2
         = EventsUpdate event_id body :: EventsGet event_id :: trace w)
  ∧ (∀ event new_start new_end,
       service self = Some () →
       faults w = [] →
       calendar w !! event_id = Some event →
       new_times fromisoformat new_start_iso duration_minutes = Ok (new_start, new_end) →
       (move_event fromisoformat self event_id new_start_iso duration_minutes w).1
       = success).
Proof.
  destruct (service self) as [[] |] eqn:Hs; cycle 1.
  { unfold move_event, not_connected. rewrite Hs. cbn [fst snd].
    split; [right; by rewrite failure_flag |]. split; [by left | done]. }
  rewrite (move_event_parts _ _ _ _ _ Hs). cbv zeta.
  pose proof (attempt_trace (EventsGet event_id) w) as (Ht & Hc & _ & Hfa).
  split; [| split].
  - destruct (next_call_succeeds w); cbn [fst snd];
      [| right; rewrite failure_flag; by split].
    destruct (calendar w !! event_id) as [event |]; cbn [fst snd];
      [| right; rewrite failure_flag; by split].
    destruct (new_times _ _ _) as [[new_start new_end] | e]; cbn [fst snd];
      [| right; rewrite failure_flag; by split].
    destruct (next_call_succeeds _); cbn [fst snd]; [by left |].
    right. rewrite failure_flag. split; [done |].
    etrans; [apply attempt_trace | done].
  - destruct (next_call_succeeds w); cbn [fst snd]; [| by right; left].
    destruct (calendar w !! event_id) as [event |]; cbn [fst snd]; [| by right; left].
    destruct (new_times _ _ _) as [[new_start new_end] | e]; cbn [fst snd];
      [| by right; left].
    right. right. eexists.
    destruct (next_call_succeeds _); cbn [snd]; unfold set_calendar; cbn [trace];
      (etrans; [apply attempt_trace |]); by rewrite Ht.
  - intros event new_start new_end _ Hf Hev Hnew.
    unfold next_call_succeeds. rewrite Hfa, Hf, Hev, Hnew. reflexivity.
Qed.

(** What [add_to_things] and [add_to_calendar] leave behind. *)
Lemma add_to_things_effect (task_name : pystr) (t : DT.datetime) (w : world) :
  things (add_to_things task_name t w).2
  = (if (add_to_things task_name t w).1 then [things_script task_name t] else [])
    ++ things w.
Proof.
  unfold add_to_things, try_io, osascript.
  rewrite io_assoc, attempt_bind.
  pose proof (attempt_trace (Osascript (things_script task_name t)) w) as (_ & _ & Hth & _).
  destruct (next_call_succeeds w); cbn [fst snd]; [| done].
  rewrite io_assoc, io_get_bind, io_put_bind. cbn [mret io_ret fst snd].
  unfold set_things. cbn [things]. by rewrite Hth.
Qed.

Lemma add_to_calendar_effect (self : api) (task_name : pystr) (t : DT.datetime)
    (minutes : Z) (w : world) :
  things (add_to_calendar new_event_id self task_name t minutes w).2 = things w
  ∧ if (add_to_calendar new_event_id self task_name t minutes w).1
    then ∃ end_time,
           service self = Some ()
           ∧ DT.to_us end_time = DT.to_us t + minutes * DT.us_per_minute
           ∧ calendar (add_to_calendar new_event_id self task_name t minutes w).2
             = <[new_event_id (calendar w) :=
                   <["id"%string := VStr (new_event_id (calendar w))]>
                     (new_event task_name t end_time)]> (calendar w)
    else calendar (add_to_calendar new_event_id self task_name t minutes w).2 = calendar w.
Proof.
  unfold add_to_calendar. destruct (service self) as [[] |]; [| done].
  unfold try_io. rewrite lift_bind.
  destruct (DT.timedelta _) as [delta | e] eqn:Hd; [| done].
  apply DTMore.timedelta_ok in Hd as ->. rewrite lift_bind.
  destruct (DT.add t _) as [end_time | e] eqn:He; [| done].
  cbv zeta. unfold events_insert. rewrite io_assoc, attempt_bind.
  pose proof (attempt_trace (EventsInsert (new_event task_name t end_time)) w)
    as (_ & Hc & Hth & _).
  fold (new_event task_name t end_time).
  destruct (next_call_succeeds w); cbn [fst snd]; [| done].
  rewrite io_assoc, io_get_bind, io_put_bind. cbn [fst snd mret io_ret].
  unfold set_calendar. cbn [things calendar]. rewrite Hc, Hth. split; [done |].
  exists end_time. split; [done |]. split; [| done].
  by apply DTFacts.add_to_us.
Qed.

(** X7.  [add_to_calendar] returns true only after the service has
    stored a new event under the identifier it chose, with the task name as
    [summary], the start, and an end the given number of minutes later;
    when it returns false the calendar is unchanged.  It never touches
    Things. *)
Theorem add_to_calendar_inserts (self : api) (task_name : pystr) (t : DT.datetime)
    (minutes : Z) (w : world) :
  things (add_to_calendar new_event_id self task_name t minutes w).2 = things w
  ∧ ((add_to_calendar new_event_id self task_name t minutes w).1 = true →
     ∃ end_time,
       service self = Some ()
       ∧ DT.to_us end_time = DT.to_us t + minutes * DT.us_per_minute
       ∧ calendar (add_to_calendar new_event_id self task_name t minutes w).2
           !! new_event_id (calendar w)
         = Some (<["id"%string := VStr (new_event_id (calendar w))]>
                   (new_event task_name t end_time))
       ∧ ∀ other, other ≠ new_event_id (calendar w) →
           calendar (add_to_calendar new_event_id self task_name t minutes w).2 !! other
           = calendar w !! other)
  ∧ ((add_to_calendar new_event_id self task_name t minutes w).1 = false →
     calendar (add_to_calendar new_event_id self task_name t minutes w).2 = calendar w).
Proof.
  destruct (add_to_calendar_effect self task_name t minutes w) as [Hth Heff].
  split; [done |].
  destruct (add_to_calendar new_event_id self task_name t minutes w).1.
  - split; [| done]. intros _. destruct Heff as (end_time & Hs & Hus & ->).
    exists end_time. repeat split; try done.
    + by rewrite lookup_insert_eq.
    + intros other Hne. by rewrite lookup_insert_ne.
  - done.
Qed.

(** X8.  Nothing is rolled back.  When [add_task] returns its two flags,
    Things has the new to-do exactly when [things] is true and the calendar
    has the new event exactly when [calendar] is true, whatever the other
    flag: a to-do created before a failed calendar request stays, and so
    does an event created after a failed Things script. *)
Theorem add_task_keeps_each_side (self : api) (task_name time_iso : pystr)
    (duration_minutes : value) (w w' : world) (r : dict) (things_ok calendar_ok : bool) :
  add_task fromisoformat new_event_id self task_name time_iso duration_minutes w
  = (r, w') →
  r !! "things"%string = Some (VBool things_ok) →
  r !! "calendar"%string = Some (VBool calendar_ok) →
  ∃ start_time,
    fromisoformat time_iso = Ok start_time
    ∧ r !! "success"%string = Some (VBool (things_ok && calendar_ok))
    ∧ things w'
      = (if things_ok then [things_script task_name start_time] else []) ++ things w
    ∧ if calendar_ok
      then ∃ end_time,
             calendar w'
             = <[new_event_id (calendar w) :=
                   <["id"%string := VStr (new_event_id (calendar w))]>
                     (new_event task_name start_time end_time)]> (calendar w)
      else calendar w' = calendar w.
Proof.
  unfold add_task, try_io. rewrite lift_bind.
  destruct (fromisoformat time_iso) as [start_time | e];
    [| intros [= <- <-] Hr; by vm_compute in Hr].
  rewrite lift_bind.
  destruct (if truthy duration_minutes then _ else _) as [duration | e];
    [| intros [= <- <-] Hr; by vm_compute in Hr].
  unfold call_total. unfold mbind, io_bind, mret, io_ret.
  pose proof (add_to_things_effect task_name start_time w) as Hthings.
  pose proof (add_to_things_attempts task_name start_time w) as (_ & _ & Hcal1 & _).
  destruct (add_to_things task_name start_time w) as [t_ok w1]. cbn [fst snd] in *.
  pose proof (add_to_calendar_effect self task_name start_time duration w1) as [Hth2 Hcal2].
  destruct (add_to_calendar new_event_id self task_name start_time duration w1)
    as [c_ok w2]. cbn [fst snd] in *.
  intros [= <- <-] Ht Hc.
  rewrite lookup_insert_ne, lookup_insert_eq in Ht by done. injection Ht as <-.
  rewrite !lookup_insert_ne, lookup_singleton_eq in Hc by done. injection Hc as <-.
  exists start_time. split; [done |]. split; [by rewrite lookup_insert_eq |].
  split; [by rewrite Hth2 |].
  destruct c_ok.
  - destruct Hcal2 as (end_time & _ & _ & ->). exists end_time. by rewrite Hcal1.
  - by rewrite Hcal2.
Qed.

End MutationFacts.

(** ** The matcher moves forward, and a range needs a separator *)
Section MatcherFacts.
Context {A : Type}.

(** A repetition hands to its continuation what is left after characters
    of its class. *)
Lemma rep_min_taken (p : N → bool) (lo : nat) (k : pystr → option A) (a : A) :
  ∀ s, Re.rep_min p lo s k = Some a →
  ∃ taken rest, s = taken ++ rest ∧ length taken = lo
    ∧ Forall (λ c, p c = true) taken ∧ k rest = Some a.
Proof.
  induction lo as [| lo IH]; intros s; cbn.
  - intros Hk. by exists [], s.
  - destruct s as [| c s]; [done |]. destruct (p c) eqn:Hp; [| done].
    intros (taken & rest & -> & <- & Hall & Hk)%IH.
    exists (c :: taken), rest.
    split; [done |]. split; [done |]. split; [by constructor | done].
Qed.

Lemma rep_greedy_taken (p : N → bool) (k : pystr → option A) (a : A) :
  ∀ s more, Re.rep_greedy p more s k = Some a →
  ∃ taken rest, s = taken ++ rest ∧ Forall (λ c, p c = true) taken ∧ k rest = Some a.
Proof.
  induction s as [| c s IH]; intros more; cbn.
  - intros Hk. by exists [], [].
  - destruct (Re.can_take more && p c) eqn:Hc.
    + destruct (Re.rep_greedy p _ s k) as [a' |] eqn:Hg.
      * intros [= ->]. apply IH in Hg as (taken & rest & -> & Hall & Hk).
        apply andb_prop in Hc as [_ Hp].
        exists (c :: taken), rest. split; [done |]. split; [by constructor | done].
      * intros Hk. by exists [], (c :: s).
    + intros Hk. by exists [], (c :: s).
Qed.

Lemma rep_lazy_taken (p : N → bool) (k : pystr → option A) (a : A) :
  ∀ s more, Re.rep_lazy p more s k = Some a →
  ∃ taken rest, s = taken ++ rest ∧ Forall (λ c, p c = true) taken ∧ k rest = Some a.
Proof.
  induction s as [| c s IH]; intros more; cbn.
  - destruct (k []) eqn:Hk; [| done]. intros [= ->]. by exists [], [].
  - destruct (k (c :: s)) eqn:Hk.
    + intros [= ->]. by exists [], (c :: s).
    + destruct (Re.can_take more && p c) eqn:Hc; [| done].
      intros (taken & rest & -> & Hall & Hk')%IH.
      apply andb_prop in Hc as [_ Hp].
      exists (c :: taken), rest. split; [done |]. split; [by constructor | done].
Qed.

(** A match of [r] at the head of [s] continues on a suffix of [s]. *)
Lemma run_suffix (r : Re.regex) :
  ∀ s g (k : pystr → Re.groups → option A) a,
    Re.run r s g k = Some a →
    ∃ taken rest g', s = taken ++ rest ∧ k rest g' = Some a.
Proof.
  induction r as [p | r1 IH1 r2 IH2 | r1 IH1 r2 IH2 | r1 IH1 | greedy lo hi p | i r1 IH1 |];
    intros s g k a; cbn.
  - destruct s as [| c s]; [done |]. destruct (p c); [| done].
    intros Hk. by exists [c], s, g.
  - intros (t1 & s1 & g1 & -> & (t2 & s2 & g2 & -> & Hk)%IH2)%IH1.
    exists (t1 ++ t2), s2, g2. by rewrite <- app_assoc.
  - destruct (Re.run r1 s g k) as [a' |] eqn:H1.
    + intros [= ->]. by apply IH1 in H1.
    + apply IH2.
  - destruct (Re.run r1 s g k) as [a' |] eqn:H1.
    + intros [= ->]. by apply IH1 in H1.
    + intros Hk. by exists [], s, g.
  - intros (t1 & s1 & -> & _ & _ & Hrep)%rep_min_taken.
    destruct greedy.
    + apply rep_greedy_taken in Hrep as (t2 & s2 & -> & _ & Hk).
      exists (t1 ++ t2), s2, g. by rewrite <- app_assoc.
    + apply rep_lazy_taken in Hrep as (t2 & s2 & -> & _ & Hk).
      exists (t1 ++ t2), s2, g. by rewrite <- app_assoc.
  - intros (t1 & s1 & g1 & -> & Hk)%IH1. by eexists t1, s1, _.
  - destruct (Re.at_end s); [| done]. intros Hk. by exists [], s, g.
Qed.

End MatcherFacts.

Lemma search_suffix (r : Re.regex) (g : Re.groups) :
  ∀ s, Re.search r s = Some g → ∃ before rest, s = before ++ rest ∧ Re.match_at r rest = Some g.
Proof.
  induction s as [| c s IH]; cbn.
  - destruct (Re.match_at r []) eqn:Hm; [| done]. intros [= ->]. by exists [], [].
  - destruct (Re.match_at r (c :: s)) eqn:Hm.
    + intros [= ->]. by exists [], (c :: s).
    + intros (before & rest & -> & Hr)%IH. by exists (c :: before), rest.
Qed.

(** A range is detected only in a text that has a character of the
    separator class. *)
Lemma range_has_separator (s : pystr) (g : Re.groups) :
  Re.search range_pattern s = Some g → ∃ c, c ∈ s ∧ separator_class c = true.
Proof.
  intros (before & s0 & -> & Hm)%search_suffix.
  unfold Re.match_at, range_pattern in Hm.
  change (Re.run (Re.Seq ?r1 ?r2) ?s ?g ?k)
    with (Re.run r1 s g (λ s' g', Re.run r2 s' g' k)) in Hm.
  apply run_suffix in Hm as (t1 & s1 & g1 & -> & Hm).
  change (Re.run (Re.Seq ?r1 ?r2) ?s ?g ?k)
    with (Re.run r1 s g (λ s' g', Re.run r2 s' g' k)) in Hm.
  apply run_suffix in Hm as (t2 & s2 & g2 & -> & Hm).
  change (Re.run (Re.Seq ?r1 ?r2) ?s ?g ?k)
    with (Re.run r1 s g (λ s' g', Re.run r2 s' g' k)) in Hm.
  cbn [Re.run] in Hm.
  apply rep_min_taken in Hm as (taken & rest & -> & Hlen & Hall & _).
  destruct taken as [| c taken]; [done |].
  exists c. split; [| by inversion Hall].
  rewrite !elem_of_app. do 3 right. left. left.
Qed.

Section SingleTimes.

Variable dateparser_parse : pystr → option DT.datetime.

(** X9.  A text with no hyphen, no en dash and no letter t or o (in either
    case) is never read as a range: [parse_time] hands the whole text to
    the parser and returns its time without a duration, or the failure
    [Could not parse time]; it does not raise. *)
Theorem parse_time_without_separator (time_input : pystr) :
  Forall (λ c, separator_class c = false) time_input →
  Re.search range_pattern time_input = None
  ∧ parse_time dateparser_parse time_input
    = Ok (match dateparser_parse time_input with
          | Some parsed => parsed_result parsed VNone
          | None => could_not_parse
          end).
Proof.
  intros Hnone.
  assert (Hs : Re.search range_pattern time_input = None).
  { destruct (Re.search range_pattern time_input) as [g |] eqn:Hg; [| done].
    apply range_has_separator in Hg as (c & Hc & Hsep).
    rewrite Forall_forall in Hnone. apply Hnone in Hc. congruence. }
  split; [done |].
  unfold parse_time, parse_range. rewrite Hs. cbn.
  by destruct (dateparser_parse time_input).
Qed.

End SingleTimes.

(** ** The agenda is in order *)
Section AgendaFacts.

Variable new_Date : option value → date.

Lemma insert_by_start_perm (x : dict) (l : list dict) :
  insert_by_start new_Date x l ≡ₚ x :: l.
Proof.
  induction l as [| y l IH]; cbn; [done |].
  destruct (starts_before new_Date y x); [| done].
  rewrite IH. apply Permutation_swap.
Qed.

Lemma sort_by_start_perm (l : list dict) : sort_by_start new_Date l ≡ₚ l.
Proof.
  unfold sort_by_start. induction l as [| x l IH]; cbn [foldr]; [done |].
  by rewrite insert_by_start_perm, IH.
Qed.

(** Inserting an event whose start is a date among events whose starts are
    dates keeps them in order. *)
Lemma insert_by_start_sorted (x : dict) (l : list dict) :
  is_Some (new_Date (x !! "start"%string)) →
  Forall (λ e, is_Some (new_Date (e !! "start"%string))) l →
  StronglySorted (starts_no_later new_Date) l →
  StronglySorted (starts_no_later new_Date) (insert_by_start new_Date x l).
Proof.
  intros [sx Hx] Hvalid Hsorted.
  induction l as [| y l IH]; cbn.
  - constructor; constructor.
  - apply Forall_cons in Hvalid as [[sy Hy] Hvalid].
    apply StronglySorted_inv in Hsorted as [Hsorted Hy_first].
    unfold starts_before. rewrite Hx, Hy. cbn [date_lt].
    destruct (Z.ltb_spec sy sx) as [Hlt | Hge].
    + constructor; [by apply IH |].
      rewrite insert_by_start_perm. constructor; [| done].
      exists sy, sx. repeat split; [done | done | lia].
    + constructor; [by constructor |].
      constructor.
      * exists sx, sy. repeat split; [done | done | lia].
      * eapply Forall_impl; [exact Hy_first |].
        intros z (s & t & Hs & Ht & Hst). exists sx, t.
        rewrite Hy in Hs. injection Hs as <-. repeat split; [done | done | lia].
Qed.

Lemma sort_by_start_sorted (l : list dict) :
  Forall (λ e, is_Some (new_Date (e !! "start"%string))) l →
  StronglySorted (starts_no_later new_Date) (sort_by_start new_Date l).
Proof.
  unfold sort_by_start. induction l as [| x l IH]; cbn [foldr]; intros Hvalid.
  - constructor.
  - apply Forall_cons in Hvalid as [Hx Hvalid].
    apply insert_by_start_sorted; [done | | by apply IH].
    fold (sort_by_start new_Date l). by rewrite sort_by_start_perm.
Qed.

(** X10.  When the agenda lists items, they are the timed events that pass
    the filter of the day, each once, in the order of their starts (which
    are all dates), each with the marks computed from the clock. *)
Theorem agenda_in_order (events : list dict) (weekStart : date) (todayIdx now : Z)
    (items : list schedule_item) :
  updateTodaySchedule new_Date events weekStart todayIdx now = Day_items items →
  items ≠ []
  ∧ item_event <$> items
    ≡ₚ filter (λ e, is_today_event new_Date weekStart todayIdx e = true) events
  ∧ StronglySorted (starts_no_later new_Date) (item_event <$> items)
  ∧ items = schedule_item_of new_Date now <$> (item_event <$> items).
Proof.
  unfold updateTodaySchedule. cbv zeta.
  case_bool_decide as Hlen; [done |]. intros [= <-].
  assert (Hevents : ∀ l : list dict,
            item_event <$> (schedule_item_of new_Date now <$> l) = l).
  { intros l. rewrite <- list_fmap_compose. by rewrite <- (list_fmap_id l) at 2. }
  rewrite Hevents. split; [| split; [| split]].
  - intros Hnil. apply fmap_nil_inv in Hnil. by rewrite Hnil in Hlen.
  - apply sort_by_start_perm.
  - apply sort_by_start_sorted. apply Forall_forall. intros e He.
    apply list_elem_of_filter in He as [Hp _]. unfold is_today_event in Hp.
    destruct (js_truthy _); [done |].
    destruct (new_Date (e !! "start"%string)) as [s |]; [by exists s | done].
  - done.
Qed.

End AgendaFacts.

(** ** The duration of a range, from the time field to [add_task] *)

Lemma digit_value_decimal (v : Z) :
  0 <= v < 10 → Text.digit_value (Z.to_N (48 + v)) = Some v.
Proof.
  intros Hv.
  assert (v = 0 ∨ v = 1 ∨ v = 2 ∨ v = 3 ∨ v = 4 ∨ v = 5 ∨ v = 6 ∨ v = 7 ∨ v = 8 ∨ v = 9)
    as Hcases by lia.
  repeat destruct Hcases as [-> | Hcases]; try subst v; reflexivity.
Qed.

(** The characters of a number written by the page are no white space, for
    Python or for JavaScript. *)
Lemma number_char_no_space (c : N) :
  (45 <= c <= 57)%N → Text.is_space c = false ∧ Text.js_is_space c = false.
Proof.
  intros Hc.
  assert (c = 45 ∨ c = 46 ∨ c = 47 ∨ c = 48 ∨ c = 49 ∨ c = 50 ∨ c = 51 ∨ c = 52
          ∨ c = 53 ∨ c = 54 ∨ c = 55 ∨ c = 56 ∨ c = 57)%N as Hcases by lia.
  repeat destruct Hcases as [-> | Hcases]; try subst c; by split.
Qed.

Lemma drop_while_none (p : N → bool) (s : pystr) :
  Forall (λ c, p c = false) s → Text.drop_while p s = s.
Proof. destruct 1 as [| c s Hc _]; cbn; [done |]. by rewrite Hc. Qed.

Lemma number_text_trimmed (s : pystr) :
  Forall (λ c, (45 <= c <= 57)%N) s → Text.strip s = s ∧ Text.js_trim s = s.
Proof.
  intros Hs. unfold Text.strip, Text.lstrip, Text.js_trim.
  assert (Hpy : Forall (λ c, Text.is_space c = false) s)
    by (eapply Forall_impl; [exact Hs |]; intros c Hc; by apply number_char_no_space).
  assert (Hjs : Forall (λ c, Text.js_is_space c = false) s)
    by (eapply Forall_impl; [exact Hs |]; intros c Hc; by apply number_char_no_space).
  rewrite !(drop_while_none _ s) by done.
  rewrite !drop_while_none by by apply Forall_reverse.
  by rewrite reverse_involutive.
Qed.

Lemma digits_fuel_step (fuel : nat) (n : Z) (acc : pystr) :
  Text.digits_fuel (S fuel) n acc
  = if n <? 10 then Z.to_N (48 + n mod 10) :: acc
    else Text.digits_fuel fuel (n / 10) (Z.to_N (48 + n mod 10) :: acc).
Proof. reflexivity. Qed.

(** The digits [decimal] writes are those [int] reads. *)
Lemma digits_fuel_read (fuel : nat) :
  ∀ n acc, 0 <= n < 2 ^ Z.of_nat (S fuel) →
  ∃ ds, Text.digits_fuel (S fuel) n acc = ds ++ acc
    ∧ ds ≠ []
    ∧ Forall (λ c, (48 <= c <= 57)%N) ds
    ∧ ∀ rest a b,
        Py.digits (ds ++ rest) a b = Py.digits rest (a * 10 ^ Z.of_nat (length ds) + n) true.
Proof.
  induction fuel as [| fuel IH]; intros n acc Hn.
  - exists [Z.to_N (48 + n mod 10)]. rewrite digits_fuel_step.
    assert (n < 10) as Hlt by (cbn in Hn; lia).
    rewrite (proj2 (Z.ltb_lt n 10)) by done.
    split; [done |]. split; [done |]. split.
    + constructor; [| done]. pose proof (Z.mod_pos_bound n 10). lia.
    + intros rest a b. cbn [app Py.digits length].
      rewrite digit_value_decimal by (apply Z.mod_pos_bound; lia).
      rewrite Z.mod_small by lia. f_equal; lia.
  - rewrite digits_fuel_step. destruct (Z.ltb_spec n 10) as [Hlt | Hge].
    + exists [Z.to_N (48 + n mod 10)].
      split; [done |]. split; [done |]. split.
      * constructor; [| done]. pose proof (Z.mod_pos_bound n 10). lia.
      * intros rest a b. cbn [app Py.digits length].
      rewrite digit_value_decimal by (apply Z.mod_pos_bound; lia).
        rewrite Z.mod_small by lia. f_equal; lia.
    + destruct (IH (n / 10) (Z.to_N (48 + n mod 10) :: acc)) as (ds & Heq & _ & Hall & Hread).
      { split; [apply Z.div_pos; lia |].
        rewrite Nat2Z.inj_succ, Z.pow_succ_r in Hn by lia.
        apply Z.div_lt_upper_bound; lia. }
      exists (ds ++ [Z.to_N (48 + n mod 10)]).
      split; [by rewrite Heq, <- app_assoc |].
      split; [by destruct ds |]. split.
      * apply Forall_app. split; [done |]. constructor; [| done].
        pose proof (Z.mod_pos_bound n 10). lia.
      * intros rest a b. rewrite <- app_assoc, Hread. cbn [app Py.digits].
        rewrite digit_value_decimal by (apply Z.mod_pos_bound; lia).
        f_equal. rewrite length_app. cbn [length].
        rewrite Nat.add_1_r, Nat2Z.inj_succ, Z.pow_succ_r by lia.
        pose proof (Z.div_mod n 10). lia.
Qed.

Lemma decimal_read (n : Z) :
  0 <= n →
  Text.decimal n ≠ []
  ∧ Forall (λ c, (48 <= c <= 57)%N) (Text.decimal n)
  ∧ Py.digits (Text.decimal n) 0 false = Some n.
Proof.
  intros Hn. unfold Text.decimal.
  destruct (digits_fuel_read (Z.to_nat (Z.log2 n)) n []) as (ds & Heq & Hne & Hall & Hread).
  { split; [done |]. rewrite Nat2Z.inj_succ, Z2Nat.id by apply Z.log2_nonneg.
    destruct (Z.eq_dec n 0) as [-> | Hpos]; [done |].
    apply Z.log2_spec. lia. }
  rewrite Heq, app_nil_r. split; [done |]. split; [done |].
  specialize (Hread [] 0 false). by rewrite app_nil_r in Hread.
Qed.

(** A whole number written by the page is read back by [int], and is
    neither blank nor trimmed. *)
Lemma int_of_js_text (d : Z) :
  js_text (Some (VInt d)) ≠ []
  ∧ Text.js_trim (js_text (Some (VInt d))) = js_text (Some (VInt d))
  ∧ Py.int (VStr (js_text (Some (VInt d)))) = Ok d.
Proof.
  cbn [js_text]. destruct (Z.ltb_spec d 0) as [Hneg | Hpos].
  - destruct (decimal_read (- d)) as (_ & Hall & Hread); [lia |].
    assert (Hchars : Forall (λ c, (45 <= c <= 57)%N) (45%N :: Text.decimal (- d))).
    { constructor; [lia |]. eapply Forall_impl; [exact Hall |]. intros c Hc. cbn in Hc. lia. }
    split; [done |]. split; [by apply number_text_trimmed |].
    unfold Py.int. rewrite (proj1 (number_text_trimmed _ Hchars)).
    cbn [Py.literal]. rewrite Hread. cbn. f_equal. lia.
  - destruct (decimal_read d) as (Hne & Hall & Hread); [lia |].
    assert (Hchars : Forall (λ c, (45 <= c <= 57)%N) (Text.decimal d)).
    { eapply Forall_impl; [exact Hall |]. intros c Hc. cbn in Hc. lia. }
    split; [done |]. split; [by apply number_text_trimmed |].
    unfold Py.int. rewrite (proj1 (number_text_trimmed _ Hchars)).
    destruct (Text.decimal d) as [| c s] eqn:Hdec; [done |].
    apply Forall_cons in Hall as [Hc _].
    assert (Hlit : Py.literal (c :: s) = Py.digits (c :: s) 0 false).
    { assert (c = 48 ∨ c = 49 ∨ c = 50 ∨ c = 51 ∨ c = 52 ∨ c = 53 ∨ c = 54 ∨ c = 55
              ∨ c = 56 ∨ c = 57)%N as Hcases by lia.
      repeat destruct Hcases as [-> | Hcases]; try subst c; reflexivity. }
    by rewrite Hlit, Hread.
Qed.

Section DurationFacts.

Variable dateparser_parse : pystr → option DT.datetime.
Variable fromisoformat : pystr → result DT.datetime.
Variable new_event_id : gmap pystr dict → pystr.

(** X11.  The duration of a range makes its way to [add_task] unchanged.
    When the time field holds a range that [parse_time] reads, with a
    duration of [d] minutes other than 0, the handler of the field writes
    [d] into the duration field, and the text that [addTask] then sends for
    the duration is read by [add_task] as the number [d]. *)
Theorem range_duration_reaches_add_task (p : page) (result : dict) (d : Z) :
  Text.js_trim (taskTime p) ≠ [] →
  parse_time dateparser_parse (Text.js_trim (taskTime p)) = Ok result →
  result !! "success"%string = Some (VBool true) →
  result !! "duration"%string = Some (VInt d) →
  d ≠ 0 →
  taskDuration (time_input_changed dateparser_parse p) = js_text (Some (VInt d))
  ∧ ∀ self task_name time_iso w,
      add_task fromisoformat new_event_id self task_name time_iso
        (VStr (if bool_decide
                    (Text.js_trim (taskDuration (time_input_changed dateparser_parse p)) = [])
               then str "60"
               else Text.js_trim (taskDuration (time_input_changed dateparser_parse p)))) w
      = add_task fromisoformat new_event_id self task_name time_iso (VInt d) w.
Proof.
  intros Hvalue Hparse Hsuccess Hduration Hd.
  assert (Hfield : taskDuration (time_input_changed dateparser_parse p)
                   = js_text (Some (VInt d))).
  { unfold time_input_changed. cbv zeta. rewrite bool_decide_eq_false_2 by done.
    rewrite Hparse, Hsuccess, Hduration. cbn [js_truthy].
    rewrite (proj2 (Z.eqb_neq d 0)) by done. reflexivity. }
  split; [done |]. intros self task_name time_iso w. rewrite Hfield.
  destruct (int_of_js_text d) as (Hne & -> & Hint).
  rewrite bool_decide_eq_false_2 by done.
  unfold add_task. cbn [truthy].
  rewrite bool_decide_eq_false_2 by done. rewrite (proj2 (Z.eqb_neq d 0)) by done.
  cbn [negb]. by rewrite Hint.
Qed.

End DurationFacts.

(** ** The page: navigation, editing, the time field, drag and drop *)
Section FlowFacts.

Variable dateparser_parse : pystr → option DT.datetime.
Variable fromisoformat : pystr → result DT.datetime.
Variable events_query : gmap pystr dict → pystr → pystr → dict.
Variable new_event_id : gmap pystr dict → pystr.
Variable new_Date : option value → date.
Variable getDay : Z → Z.

(** [get_events] leaves the calendar, Things and the fate of later calls
    but one as they are. *)
Lemma get_events_world (self : api) (week_offset : Z) (w : world) :
  calendar (get_events events_query self week_offset w).2 = calendar w
  ∧ things (get_events events_query self week_offset w).2 = things w.
Proof.
  destruct (service self) as [[] |] eqn:Hs; cycle 1.
  { unfold get_events. by rewrite Hs. }
  rewrite (get_events_parts _ _ _ _ Hs).
  destruct (week_window (clock w) week_offset) as [[monday sunday] | e]; [| done].
  cbv zeta.
  pose proof (attempt_trace (EventsList (DT.isoformat monday ++ str "Z")
                               (DT.isoformat sunday ++ str "Z")) w)
    as (_ & Hc & Hth & _).
  by destruct (next_call_succeeds w); [destruct (_ ≫= _) |].
Qed.

(** [refreshCalendar] either leaves the page as it is, when the events
    cannot be had, or draws the week of the current offset. *)
Lemma refreshCalendar_cases (self : api) (now now' : Z) (p : page) (w : world) :
  (refreshCalendar events_query new_Date getDay self now now' p w).2
  = (get_events events_query self (currentWeekOffset p) w).2
  ∧ currentWeekOffset (refreshCalendar events_query new_Date getDay self now now' p w).1
    = currentWeekOffset p
  ∧ toast (refreshCalendar events_query new_Date getDay self now now' p w).1 = toast p
  ∧ ((refreshCalendar events_query new_Date getDay self now now' p w).1 = p
     ∧ js_truthy ((get_events events_query self (currentWeekOffset p) w).1
                    !! "success"%string) = false
     ∨ js_truthy ((get_events events_query self (currentWeekOffset p) w).1
                    !! "success"%string) = true
       ∧ todayBtn_hidden (refreshCalendar events_query new_Date getDay self now now' p w).1
         = (currentWeekOffset p =? 0)
       ∧ ∃ events weekStart,
           view (refreshCalendar events_query new_Date getDay self now now' p w).1
           = Some (renderCalendar new_Date getDay events weekStart (currentWeekOffset p)
                     now now')).
Proof.
  unfold refreshCalendar.
  destruct (get_events events_query self (currentWeekOffset p) w) as [result w'].
  cbn [fst snd]. destruct (js_truthy (result !! "success"%string)); cbn [fst snd].
  - repeat split; try done. right. repeat split; try done. by eexists _, _.
  - repeat split; try done. by left.
Qed.

Lemma refreshCalendar_world (self : api) (now now' : Z) (p : page) (w : world) :
  calendar (refreshCalendar events_query new_Date getDay self now now' p w).2 = calendar w
  ∧ things (refreshCalendar events_query new_Date getDay self now now' p w).2 = things w.
Proof.
  rewrite (proj1 (refreshCalendar_cases self now now' p w)). apply get_events_world.
Qed.



(** [add_task]: the two conversions, then one step after the other. *)
Lemma add_task_parts (self : api) (task_name time_iso : pystr) (duration_minutes : value)
    (w : world) :
  add_task fromisoformat new_event_id self task_name time_iso duration_minutes w =
    match fromisoformat time_iso with
    | Raise e => (failure (exn_message e), w)
    | Ok start_time =>
        match (if truthy duration_minutes then Py.int duration_minutes else Ok 60) with
        | Raise e => (failure (exn_message e), w)
        | Ok duration =>
            let t := add_to_things task_name start_time w in
            let c := add_to_calendar new_event_id self task_name start_time duration t.2 in
            ({[ "success" := VBool (t.1 && c.1); "things" := VBool t.1;
                "calendar" := VBool c.1 ]}%string, c.2)
        end
    end.
Proof.
  unfold add_task, try_io. rewrite lift_bind.
  destruct (fromisoformat time_iso) as [start_time | e]; [| done].
  rewrite lift_bind.
  destruct (if truthy duration_minutes then _ else _) as [duration | e]; [| done].
  unfold call_total. unfold mbind, io_bind, mret, io_ret. cbv zeta.
  destruct (add_to_things task_name start_time w) as [t_ok w1]. cbn [fst snd].
  by destruct (add_to_calendar new_event_id self task_name start_time duration w1).
Qed.

(** X13.  [editEvent] deletes the event from the calendar at once, without
    asking and before anything is saved, and leaves the week drawn as it
    was.  Saving the form then creates a new event built from the title,
    the start and the duration alone: whatever else the old event held is
    lost, and Things gets a new to-do. *)
Theorem edit_then_save_recreates (self : api) (sel : selection) (now now' : Z)
    (p : page) (w : world) :
  service self = Some () →
  faults w = [] →
  is_Some (calendar w !! sel_id sel) →
  Text.js_trim (sel_title sel) ≠ [] →
  calendar (editEvent self (Some sel) p w).2 = delete (sel_id sel) (calendar w)
  ∧ view (editEvent self (Some sel) p w).1 = view p
  ∧ (toast (addTask fromisoformat events_query new_event_id new_Date getDay self now now'
              (editEvent self (Some sel) p w).1 (editEvent self (Some sel) p w).2).1
     = Some (str "Task added successfully", false) →
     ∃ start_time end_time,
       fromisoformat (sel_startIso sel) = Ok start_time
       ∧ calendar (addTask fromisoformat events_query new_event_id new_Date getDay self
                     now now' (editEvent self (Some sel) p w).1
                     (editEvent self (Some sel) p w).2).2
         = <[new_event_id (delete (sel_id sel) (calendar w)) :=
               <["id"%string := VStr (new_event_id (delete (sel_id sel) (calendar w)))]>
                 (new_event (Text.js_trim (sel_title sel)) start_time end_time)]>
             (delete (sel_id sel) (calendar w))
       ∧ things (addTask fromisoformat events_query new_event_id new_Date getDay self
                   now now' (editEvent self (Some sel) p w).1
                   (editEvent self (Some sel) p w).2).2
         = things_script (Text.js_trim (sel_title sel)) start_time :: things w).
Proof.
  intros Hs Hfaults [old Hold] Hname.
  assert (Hnext : next_call_succeeds w = true)
    by (unfold next_call_succeeds; by rewrite Hfaults).
  unfold editEvent. rewrite (delete_event_parts _ _ _ Hs). cbv zeta.
  rewrite Hnext, Hold. cbn [fst snd].
  pose proof (attempt_trace (EventsDelete (sel_id sel)) w) as (_ & Hc & Hth & Hfa).
  set (w1 := set_calendar (delete (sel_id sel) (calendar w))
               (attempt (EventsDelete (sel_id sel)) w).2).
  assert (Hcal1 : calendar w1 = delete (sel_id sel) (calendar w)) by done.
  assert (Hth1 : things w1 = things w) by done.
  assert (Hfa1 : next_call_succeeds w1 = true).
  { unfold next_call_succeeds, w1, set_calendar. cbn [faults]. by rewrite Hfa, Hfaults. }
  split; [done |]. split; [done |].
  unfold addTask. cbv zeta. cbn [taskName taskDuration parsedTimeISO showToast].
  rewrite bool_decide_eq_false_2 by done.
  destruct (sel_startIso sel) as [| c iso] eqn:Hiso; [done |].
  rewrite add_task_parts.
  destruct (fromisoformat (c :: iso)) as [start_time | e]; [| done].
  destruct (if truthy _ then _ else _) as [duration | e]; [| done].
  cbv zeta.
  pose proof (add_to_things_effect (Text.js_trim (sel_title sel)) start_time w1) as Hthings.
  pose proof (add_to_things_attempts (Text.js_trim (sel_title sel)) start_time w1)
    as (Hok & _ & Hcal2 & _).
  destruct (add_to_things (Text.js_trim (sel_title sel)) start_time w1) as [t_ok w2].
  cbn [fst snd] in *.
  pose proof (add_to_calendar_effect new_event_id self (Text.js_trim (sel_title sel))
                start_time duration w2) as [Hth3 Hcal3].
  destruct (add_to_calendar new_event_id self (Text.js_trim (sel_title sel)) start_time
              duration w2) as [c_ok w3].
  cbn [fst snd] in *.
  rewrite lookup_insert_eq. cbn [js_truthy].
  destruct (t_ok && c_ok) eqn:Hboth; [| done].
  apply andb_prop in Hboth as [-> ->]. intros _.
  destruct Hcal3 as (end_time & _ & _ & Hcal3).
  exists start_time, end_time. split; [done |].
  rewrite (proj1 (refreshCalendar_world _ _ _ _ _)),
    (proj2 (refreshCalendar_world _ _ _ _ _)).
  by rewrite Hcal3, Hcal2, Hcal1, Hth3, Hthings, Hth1.
Qed.

(** X14.  A time field that is blank, or that [parse_time] cannot read,
    blocks the submission: the handler of the field leaves no parsed time,
    and [addTask] then shows an error without calling the API; the world is
    as it was and the draft is kept. *)
Theorem unparsed_time_blocks_submission (self : api) (now now' : Z) (p : page)
    (w : world) :
  Text.js_trim (taskTime p) = []
  ∨ (∃ result,
       parse_time dateparser_parse (Text.js_trim (taskTime p)) = Ok result
       ∧ js_truthy (result !! "success"%string) = false) →
  parsedTimeISO (time_input_changed dateparser_parse p) = None
  ∧ (addTask fromisoformat events_query new_event_id new_Date getDay self now now'
       (time_input_changed dateparser_parse p) w).2 = w
  ∧ (∃ message,
       toast (addTask fromisoformat events_query new_event_id new_Date getDay self now now'
                (time_input_changed dateparser_parse p) w).1 = Some (message, true))
  ∧ taskName (addTask fromisoformat events_query new_event_id new_Date getDay self now now'
                (time_input_changed dateparser_parse p) w).1 = taskName p
  ∧ taskTime (addTask fromisoformat events_query new_event_id new_Date getDay self now now'
                (time_input_changed dateparser_parse p) w).1 = taskTime p.
Proof.
  intros Hcase.
  assert (Hiso : parsedTimeISO (time_input_changed dateparser_parse p) = None
                 ∧ taskName (time_input_changed dateparser_parse p) = taskName p
                 ∧ taskTime (time_input_changed dateparser_parse p) = taskTime p).
  { unfold time_input_changed. cbv zeta.
    destruct Hcase as [Hblank | (result & Hparse & Hfail)].
    - by rewrite bool_decide_eq_true_2.
    - case_bool_decide; [done |]. by rewrite Hparse, Hfail. }
  destruct Hiso as (Hiso & Hname & Htime). split; [done |].
  unfold addTask. cbv zeta. rewrite Hiso, Hname.
  case_bool_decide; cbn [fst snd showToast toast taskName taskTime]; eauto.
Qed.

(** X15.  A drop on a column is written as a time of the grid: the hour is
    6 plus the whole hours above the pointer, and the minutes are the
    nearest quarter, at most 7 pixels away.  In the last seven pixels of an
    hour the nearest quarter is the next hour, and the minutes written are
    60 with the hour unchanged: the text then ends in [:60:00], which is
    not a time of day. *)
Theorem drop_snaps_to_quarter (y : N) :
  6 <= drop_hour y
  ∧ (∃ q, 0 <= q <= 4 ∧ drop_minutes y = 15 * q)
  ∧ -7 <= (drop_hour y - 6) * 60 + drop_minutes y - Z.of_N y <= 7
  ∧ (drop_minutes y = 60 ↔ 53 <= Z.of_N y mod 60)
  ∧ (53 <= Z.of_N y mod 60 →
     ∀ dateStr, drop_time dateStr y
                = dateStr ++ str "T" ++ padStart2 (drop_hour y) ++ str ":60:00").
Proof.
  split; [unfold drop_hour; Z.div_mod_to_equations; lia |]. unfold drop_hour.
  split; [exists ((Z.of_N y mod 60 + 7) / 15); unfold drop_minutes;
          Z.div_mod_to_equations; lia |].
  split; [unfold drop_minutes; Z.div_mod_to_equations; lia |].
  assert (H60 : drop_minutes y = 60 ↔ 53 <= Z.of_N y mod 60)
    by (unfold drop_minutes; Z.div_mod_to_equations; lia).
  split; [done |]. intros Hlast dateStr. unfold drop_time.
  by rewrite (proj2 H60 Hlast).
Qed.

End FlowFacts.

(** ** Deleting and dragging on the page; all-day events *)
Section GestureFacts.

Variable fromisoformat : pystr → result DT.datetime.
Variable events_query : gmap pystr dict → pystr → pystr → dict.
Variable new_Date : option value → date.
Variable getDay : Z → Z.

(** X17.  The page's [deleteEvent] says what happened.  Connected and
    confirmed, it announces [Event deleted] exactly when the request went
    through and the event was there, and the calendar has then lost that
    event; otherwise it announces a failure, and the calendar and the week
    drawn are as before.  Not confirmed, it does nothing. *)
Theorem deleteEvent_reports_what_happened (self : api) (now now' : Z) (sel : selection)
    (p : page) (w : world) :
  (service self = Some () →
   toast (deleteEvent events_query new_Date getDay self now now' (Some sel) true p w).1
   = Some (str "Event deleted", false)
   ∧ next_call_succeeds w = true
   ∧ is_Some (calendar w !! sel_id sel)
   ∧ calendar (deleteEvent events_query new_Date getDay self now now' (Some sel) true p w).2
     = delete (sel_id sel) (calendar w)
   ∨ toast (deleteEvent events_query new_Date getDay self now now' (Some sel) true p w).1
     = Some (str "Failed to delete event", true)
     ∧ (next_call_succeeds w = false ∨ calendar w !! sel_id sel = None)
     ∧ calendar (deleteEvent events_query new_Date getDay self now now' (Some sel) true p w).2
       = calendar w
     ∧ view (deleteEvent events_query new_Date getDay self now now' (Some sel) true p w).1
       = view p)
  ∧ deleteEvent events_query new_Date getDay self now now' (Some sel) false p w = (p, w).
Proof.
  split; [| done]. intros Hs.
  unfold deleteEvent. rewrite (delete_event_parts _ _ _ Hs). cbv zeta.
  pose proof (attempt_trace (EventsDelete (sel_id sel)) w) as (_ & Hc & _).
  destruct (next_call_succeeds w);
    [destruct (calendar w !! sel_id sel) as [event |] eqn:Hev |]; cbn [fst snd].
  - left. rewrite success_flag. cbn [js_truthy].
    rewrite (proj1 (refreshCalendar_world _ _ _ _ _ _ _ _)).
    destruct (refreshCalendar_cases events_query new_Date getDay self now now'
                (showToast (str "Event deleted") false p)
                (set_calendar (delete (sel_id sel) (calendar w))
                   (attempt (EventsDelete (sel_id sel)) w).2)) as (_ & _ & -> & _).
    by eauto.
  - right. rewrite failure_flag. cbn [js_truthy fst snd]. by eauto.
  - right. rewrite failure_flag. cbn [js_truthy fst snd]. by eauto.
Qed.

(** X18.  [handleDrop] announces [Event moved] only when the event dragged
    has been rewritten in the calendar with the start read from the text
    of the drop and the end its duration later; in every other case it
    announces a failure, and the calendar and the week drawn are as
    before. *)
Theorem handleDrop_moves_to_drop_time (self : api) (now now' : Z) (d : dragged)
    (dateStr : pystr) (y : N) (p : page) (w : world) :
  toast (handleDrop fromisoformat events_query new_Date getDay self now now' (Some d)
           dateStr y p w).1
  = Some (str "Event moved", false)
  ∧ (∃ event new_start new_end,
       calendar w !! drag_id d = Some event
       ∧ new_times fromisoformat (drop_time dateStr y) (drag_duration d)
         = Ok (new_start, new_end)
       ∧ calendar (handleDrop fromisoformat events_query new_Date getDay self now now'
                     (Some d) dateStr y p w).2
         = <[drag_id d := <["end"%string := time_block new_end]>
                            (<["start"%string := time_block new_start]> event)]>
             (calendar w))
  ∨ toast (handleDrop fromisoformat events_query new_Date getDay self now now' (Some d)
             dateStr y p w).1
    = Some (str "Failed to move event", true)
    ∧ calendar (handleDrop fromisoformat events_query new_Date getDay self now now' (Some d)
                  dateStr y p w).2
      = calendar w
    ∧ view (handleDrop fromisoformat events_query new_Date getDay self now now' (Some d)
              dateStr y p w).1
      = view p.
Proof.
  unfold handleDrop.
  destruct (service self) as [[] |] eqn:Hs; cycle 1.
  { right. unfold move_event, not_connected. rewrite Hs, failure_flag. by cbn. }
  rewrite (move_event_parts _ _ _ _ _ _ Hs). cbv zeta.
  pose proof (attempt_trace (EventsGet (drag_id d)) w) as (_ & Hc & _).
  destruct (next_call_succeeds w); cycle 1.
  { right. rewrite failure_flag. by cbn. }
  destruct (calendar w !! drag_id d) as [event |] eqn:Hev; cycle 1.
  { right. rewrite failure_flag. by cbn. }
  destruct (new_times _ _ _) as [[new_start new_end] | e] eqn:Hnew; cycle 1.
  { right. rewrite failure_flag. by cbn. }
  destruct (next_call_succeeds _); cycle 1.
  { right. rewrite failure_flag. cbn [js_truthy fst snd showToast toast view].
    split; [done |]. split; [| done].
    etrans; [apply attempt_trace | done]. }
  left. rewrite success_flag. cbn [js_truthy].
  rewrite (proj1 (refreshCalendar_world _ _ _ _ _ _ _ _)).
  match goal with
  | |- context [refreshCalendar _ _ _ _ _ _ ?q ?v] =>
      destruct (refreshCalendar_cases events_query new_Date getDay self now now' q v)
        as (_ & _ & -> & _)
  end.
  split; [done |]. by exists event, new_start, new_end.
Qed.

(** X19.  An item of the calendar whose start is a day, not a time, is an
    all-day event from end to end: [get_events] flags it [isAllDay], and
    the page then keeps it out of the buckets of timed events and out of
    the agenda. *)
Theorem all_day_item_stays_out_of_agenda (item event block : dict) (s : pystr)
    (weekStart : date) (todayIdx now : Z) (b : buckets) :
  convert_event (VDict item) = Ok (VDict event) →
  item !! "start"%string = Some (VDict block) →
  block !! "dateTime"%string = None →
  block !! "date"%string = Some (VStr s) →
  Text.contains_char 84 s = false →
  event !! "isAllDay"%string = Some (VBool true)
  ∧ event !! "start"%string = Some (VStr s)
  ∧ is_today_event new_Date weekStart todayIdx event = false
  ∧ eventsByDay (place_event new_Date weekStart now b event) = eventsByDay b.
Proof.
  intros (d & sb & eb & has_T & [= <-] & Hstart & _ & HT & [= ->])%convert_event_ok
    Hitem Htime Hdate Hs.
  rewrite Hitem in Hstart. injection Hstart as <-.
  unfold chosen_time in *. rewrite Htime, Hdate in *. cbn in HT.
  rewrite Hs in HT. injection HT as <-.
  assert (Hall : ∀ x y z t : value,
            ({[ "id" := x; "title" := y; "start" := VStr s; "end" := z;
                "isAllDay" := t ]}%string : dict) !! "isAllDay"%string = Some t).
  { intros. rewrite !lookup_insert_ne by done. by rewrite lookup_singleton_eq. }
  split; [apply Hall |].
  split; [rewrite !lookup_insert_ne by done; by rewrite lookup_insert_eq |].
  split.
  - unfold is_today_event. by rewrite Hall.
  - unfold place_event. cbv zeta. rewrite Hall. cbn [js_truthy negb].
    destruct (day_index _ _) as [i |]; [| done]. by destruct (_ && _).
Qed.

End GestureFacts.

(** ** The script handed to Things *)

Lemma escape_quotes_cons (c : N) (s : pystr) :
  escape_quotes (c :: s)
  = (if (c =? 34)%N then [92%N; 34%N] else [c]) ++ escape_quotes s.
Proof. reflexivity. Qed.

(** X16.  In a text escaped for the script every double quote comes right
    after a backslash.  Backslashes themselves are copied as they are: when
    the name ends in a backslash, the quote that closes it in the script
    also comes right after a backslash, as the quotes inside the name do. *)
Theorem escape_quotes_only_quotes (s : pystr) :
  (∀ i, escape_quotes s !! i = Some 34%N →
     ∃ j, i = S j ∧ escape_quotes s !! j = Some 92%N)
  ∧ escape_quotes (s ++ [92%N]) ++ quote = escape_quotes s ++ [92%N; 34%N]
  ∧ escape_quotes (s ++ quote) = escape_quotes s ++ [92%N; 34%N].
Proof.
  split; [| split].
  - induction s as [| c s IH]; intros i; [done |].
    rewrite escape_quotes_cons. destruct (N.eqb_spec c 34) as [-> | Hc].
    + destruct i as [| [| i]]; cbn [app lookup list_lookup].
      * done.
      * intros _. by exists 0%nat.
      * intros (j & -> & Hj)%IH. by exists (S (S j)).
    + destruct i as [| i]; cbn [app lookup list_lookup].
      * by intros [= ->].
      * intros (j & -> & Hj)%IH. by exists (S j).
  - unfold escape_quotes, Text.replace_char, quote.
    rewrite fmap_app, concat_app. cbn. by rewrite <- app_assoc.
  - unfold escape_quotes, Text.replace_char, quote.
    rewrite fmap_app, concat_app. done.
Qed.

(** ** The further properties at work on the sample world *)

(** The week of Wednesday 7 February 2024 starts on a Monday. *)
Lemma get_events_week_witness :
  ∃ monday,
    (get_events Sample.events_query Sample.online 0 (Sample.quiet ∅)).1 !! "weekStart"%string
    = Some (VStr (DT.isoformat monday))
    ∧ DT.weekday monday = 0.
Proof.
  destruct (get_events_week Sample.events_query Sample.online 0 (Sample.quiet ∅) _ _
              (surjective_pairing _))
    as (monday & sunday & Hstart & _ & _ & Hday & _).
  - vm_compute. reflexivity.
  - exists monday. split; [exact Hstart | exact Hday].
Defined.

(** The dentist's appointment, as stored, is converted. *)
Lemma get_events_converts_items_witness :
  ∃ items events,
    (get_events Sample.events_query Sample.online 1
       (Sample.quiet {[ str "e1" := Sample.dentist_stored ]})).1 !! "events"%string
    = Some (VList events)
    ∧ Forall2 converted items events.
Proof.
  destruct (get_events_converts_items Sample.events_query Sample.online 1
              (Sample.quiet {[ str "e1" := Sample.dentist_stored ]}) _ _
              (surjective_pairing _))
    as (monday & sunday & items & events & _ & _ & Hevents & Hconv).
  - vm_compute. reflexivity.
  - exists items, events. split; [exact Hevents | exact Hconv].
Defined.

(** A note without start beside the dentist's appointment: no event is
    returned. *)
Lemma get_events_fails_on_one_item_witness :
  (get_events Sample.careless_query Sample.online 0 (Sample.quiet ∅)).1 !! "events"%string
  = Some (VList []).
Proof.
  destruct (get_events_fails_on_one_item Sample.careless_query Sample.online 0
              (Sample.quiet ∅) (DT.mk 2024 2 5 0 0 0 0) (DT.mk 2024 2 11 23 59 59 0)
              [VDict Sample.dentist_stored; VDict Sample.untimed] (VDict Sample.untimed)
              (Exn KeyError (Py.repr (str "start"))))
    as (_ & Hevents & _).
  - reflexivity.
  - vm_compute. reflexivity.
  - reflexivity.
  - reflexivity.
  - right. left.
  - vm_compute. reflexivity.
  - exact Hevents.
Defined.

(** Deleting the stand-up makes one request. *)
Lemma delete_event_removes_one_witness :
  trace (delete_event Sample.online (str "e0")
           (Sample.quiet {[ str "e0" := Sample.standup ]})).2
  = [EventsDelete (str "e0")].
Proof.
  exact (proj1 (delete_event_removes_one Sample.online (str "e0")
                  (Sample.quiet {[ str "e0" := Sample.standup ]}) eq_refl)).
Defined.

(** Things failing and the calendar succeeding: Things holds nothing, the
    calendar holds the event. *)
Lemma add_task_keeps_each_side_witness :
  ∃ start_time,
    Sample.fromisoformat (str "2024-02-07T10:00:00") = Ok start_time
    ∧ things (add_task Sample.fromisoformat Sample.new_event_id Sample.online
                (str "Write report") (str "2024-02-07T10:00:00") (VStr (str "60"))
                Sample.failing_once).2 = [].
Proof.
  destruct (add_task_keeps_each_side Sample.fromisoformat Sample.new_event_id
              Sample.online (str "Write report") (str "2024-02-07T10:00:00")
              (VStr (str "60")) Sample.failing_once _ _ false true
              (surjective_pairing _))
    as (start_time & Hstart & _ & Hthings & _).
  - vm_compute. reflexivity.
  - vm_compute. reflexivity.
  - exists start_time. split; [exact Hstart | exact Hthings].
Defined.

(** "3pm" has no character of the separator class. *)
Lemma parse_time_without_separator_witness :
  Re.search range_pattern (str "3pm") = None.
Proof.
  apply (parse_time_without_separator (Sample.dateparser_parse Sample.wednesday)
           (str "3pm")).
  repeat constructor.
Defined.

(** The dentist's appointment comes after the check-up, whatever the order
    in which the two are received. *)
Lemma agenda_in_order_witness :
  StronglySorted (starts_no_later (Sample.new_Date Sample.zone))
    [Sample.checkup; Sample.dentist].
Proof.
  destruct (agenda_in_order (Sample.new_Date Sample.zone)
              [Sample.dentist; Sample.checkup] (Some Sample.next_monday_ms) 2
              Sample.now_ms
              (schedule_item_of (Sample.new_Date Sample.zone) Sample.now_ms
                 <$> [Sample.checkup; Sample.dentist]))
    as (_ & _ & Hsorted & _).
  - vm_compute. reflexivity.
  - exact Hsorted.
Defined.

(** "9am - 11" fills the duration field with 120. *)
Lemma range_duration_reaches_add_task_witness :
  taskDuration (time_input_changed (Sample.dateparser_parse Sample.wednesday)
                  (Sample.typed "9am - 11"))
  = str "120".
Proof.
  destruct (range_duration_reaches_add_task (Sample.dateparser_parse Sample.wednesday)
              Sample.fromisoformat Sample.new_event_id (Sample.typed "9am - 11")
              (parsed_result (DT.mk 2024 2 7 9 0 0 0) (VInt 120)) 120)
    as [Hfield _].
  - vm_compute. discriminate.
  - vm_compute. reflexivity.
  - reflexivity.
  - reflexivity.
  - discriminate.
  - exact Hfield.
Defined.

(** Editing the stand-up removes it from the calendar. *)
Lemma edit_then_save_recreates_witness :
  calendar (editEvent Sample.online (Some Sample.picked) (Sample.draft "60")
              (Sample.quiet {[ str "e0" := Sample.standup ]})).2
  = delete (str "e0") {[ str "e0" := Sample.standup ]}.
Proof.
  destruct (edit_then_save_recreates Sample.fromisoformat Sample.events_query
              Sample.new_event_id (Sample.new_Date Sample.zone) (Sample.getDay Sample.zone)
              Sample.online Sample.picked Sample.now_ms Sample.now_ms (Sample.draft "60")
              (Sample.quiet {[ str "e0" := Sample.standup ]}))
    as [Hcalendar _].
  - reflexivity.
  - reflexivity.
  - exists Sample.standup. apply lookup_singleton_eq.
  - vm_compute. discriminate.
  - exact Hcalendar.
Defined.

(** "not a time" in the time field: the submission makes no call. *)
Lemma unparsed_time_blocks_submission_witness :
  (addTask Sample.fromisoformat Sample.events_query Sample.new_event_id
     (Sample.new_Date Sample.zone) (Sample.getDay Sample.zone) Sample.online
     Sample.now_ms Sample.now_ms
     (time_input_changed (Sample.dateparser_parse Sample.wednesday)
        (Sample.typed "not a time"))
     (Sample.quiet ∅)).2
  = Sample.quiet ∅.
Proof.
  destruct (unparsed_time_blocks_submission (Sample.dateparser_parse Sample.wednesday)
              Sample.fromisoformat Sample.events_query Sample.new_event_id
              (Sample.new_Date Sample.zone) (Sample.getDay Sample.zone) Sample.online
              Sample.now_ms Sample.now_ms (Sample.typed "not a time") (Sample.quiet ∅))
    as (_ & Hworld & _).
  - right. exists could_not_parse. split; vm_compute; reflexivity.
  - exact Hworld.
Defined.

(** The day off is flagged as an all-day event. *)
Lemma all_day_item_stays_out_of_agenda_witness :
  is_today_event (Sample.new_Date Sample.zone) (Some Sample.next_monday_ms) 2
    Sample.holiday = false.
Proof.
  destruct (all_day_item_stays_out_of_agenda (Sample.new_Date Sample.zone)
              Sample.holiday_stored Sample.holiday
              {[ "date"%string := VStr (str "2024-02-14") ]} (str "2024-02-14")
              (Some Sample.next_monday_ms) 2 Sample.now_ms empty_buckets)
    as (_ & _ & Hagenda & _).
  - vm_compute. reflexivity.
  - reflexivity.
  - reflexivity.
  - reflexivity.
  - reflexivity.
  - exact Hagenda.
Defined.
